(** * webservTester: the conformance harness, embedded and verified

    The repository holds two Python test drivers for an HTTP server (the
    server under test, SUT): [TesterBasic.py] (class WebservGeneralTester)
    and [TesterAdvanced.py] (class WebservCorrectionTester).  Both start
    the SUT as a subprocess, drive it with [curl], and grade what they see.

    The embedding is shallow.  Everything outside the harness (the SUT, the
    shell tools, the clock, the file system) is a [World] of oracles plus a
    mutable [State]; each Python method is a computation in the monad [M],
    whose outcomes are a normal return, a raised exception, a call that
    never returns, or the end of the harness process by a signal.

    Modelling conventions, fixed once:
    - time is counted in whole units (seconds) by [clock];
    - console output is kept as [Print] events, without colour escapes,
      decorative glyphs, alignment padding, float formatting and the text
      of exception messages;
    - a Python [str] is a [string] whose characters are code points < 256;
    - captured output is taken to decode as text, the tools called by name
      ([make], [pkill]) to be installed, and temporary files to be creatable
      and still present when the harness removes them. *)

From Stdlib Require Import String Ascii List ZArith QArith Arith Bool Lia.
From Stdlib Require Import DecimalString.
Import ListNotations.

Set Warnings "-abstract-large-number".

Local Close Scope Q_scope.
Local Open Scope list_scope.
Local Open Scope string_scope.
Local Open Scope nat_scope.

(* ===================================================================== *)
(** ** Python string operations used by the harness *)
(* ===================================================================== *)

Module Py.

(** [str.isspace] on the code points below 256. *)
Definition isspace (c : ascii) : bool :=
  let n := nat_of_ascii c in
  ((9 <=? n) && (n <=? 13)) || ((28 <=? n) && (n <=? 32))
  || (n =? 133) || (n =? 160).

Fixpoint lstrip (s : string) : string :=
  match s with
  | String c s' => if isspace c then lstrip s' else s
  | EmptyString => EmptyString
  end.

(** Strips trailing white space: a character is kept when something that
    is kept follows it, or when it is not white space itself. *)
Fixpoint rstrip (s : string) : string :=
  match s with
  | EmptyString => EmptyString
  | String c s' =>
      match rstrip s' with
      | EmptyString => if isspace c then EmptyString else String c EmptyString
      | r => String c r
      end
  end.

(** [s.strip()] *)
Definition strip (s : string) : string := rstrip (lstrip s).

(** [s.replace(c, "")] for a one-character [c]. *)
Fixpoint remove_char (c : ascii) (s : string) : string :=
  match s with
  | EmptyString => EmptyString
  | String d s' =>
      if Ascii.eqb c d then remove_char c s' else String d (remove_char c s')
  end.

(** [sub in s] *)
Fixpoint contains (sub s : string) : bool :=
  if String.prefix sub s then true
  else match s with
       | EmptyString => false
       | String _ s' => contains sub s'
       end.

Definition lower_char (c : ascii) : ascii :=
  let n := nat_of_ascii c in
  if ((65 <=? n) && (n <=? 90))
     || ((192 <=? n) && (n <=? 222) && negb (n =? 215))
  then ascii_of_nat (n + 32) else c.

(** [s.lower()] *)
Fixpoint lower (s : string) : string :=
  match s with
  | EmptyString => EmptyString
  | String c s' => String (lower_char c) (lower s')
  end.

(** [s.split(c)] for a one-character separator. *)
Fixpoint split (sep : ascii) (s : string) : list string :=
  match s with
  | EmptyString => [EmptyString]
  | String c s' =>
      if Ascii.eqb c sep then EmptyString :: split sep s'
      else match split sep s' with
           | w :: ws => String c w :: ws
           | [] => [String c EmptyString]
           end
  end.

(** [str(n)] for an [int]. *)
Definition str (n : Z) : string := NilZero.string_of_int (Z.to_int n).

Definition str_nat (n : nat) : string := str (Z.of_nat n).

(** [c * n] *)
Fixpoint times (c : ascii) (n : nat) : string :=
  match n with
  | O => EmptyString
  | S k => String c (times c k)
  end.

(** [x in l] for a list of strings. *)
Definition mem (x : string) (l : list string) : bool :=
  existsb (String.eqb x) l.

(** [all(l)] *)
Definition all (l : list bool) : bool := forallb (fun b => b) l.

Definition digit_val (c : ascii) : option Z :=
  let n := nat_of_ascii c in
  if (48 <=? n) && (n <=? 57) then Some (Z.of_nat (n - 48)) else None.

(** Reads a run of decimal digits: the number read so far, how many digits
    were read, and what is left. *)
Fixpoint digits (acc : Z) (k : nat) (s : string) : Z * nat * string :=
  match s with
  | EmptyString => (acc, k, s)
  | String c s' =>
      match digit_val c with
      | Some d => digits (acc * 10 + d) (S k) s'
      | None => (acc, k, s)
      end
  end.

Definition unsigned_int (s : string) : option Z :=
  match digits 0 0 s with
  | (n, S _, EmptyString) => Some n
  | _ => None
  end.

(** [int(s)] on a stripped string written as an optional sign and decimal
    digits; anything else is a ValueError ([None]). *)
Definition int (s : string) : option Z :=
  match s with
  | String "-" s' => option_map Z.opp (unsigned_int s')
  | String "+" s' => unsigned_int s'
  | _ => unsigned_int s
  end.

Definition unsigned_decimal (s : string) : option Q :=
  match digits 0 0 s with
  | (n, S _, EmptyString) => Some (inject_Z n)
  | (n, k, String "." s') =>
      match digits 0 0 s' with
      | (f, j, EmptyString) =>
          if (0 <? k + j)%nat
          then Some (inject_Z n + inject_Z f / inject_Z (10 ^ Z.of_nat j))%Q
          else None
      | _ => None
      end
  | _ => None
  end.

(** [float(s)] on the plain decimal spellings (optional sign, digits, an
    optional fraction), read exactly; the other spellings Python accepts
    (exponents, inf, nan) do not occur in the tool output parsed here and
    are treated as a ValueError. *)
Definition float (s : string) : option Q :=
  match strip s with
  | String "-" s' => option_map Qopp (unsigned_decimal s')
  | String "+" s' => unsigned_decimal s'
  | s' => unsigned_decimal s'
  end.

End Py.

(* ===================================================================== *)
(** ** The world outside the harness *)
(* ===================================================================== *)

(** How one SUT process behaves: whether it exits on its own ([self_exit]:
    after how long, and with which code) and how long it takes to exit
    after SIGTERM ([term_exit]; [None]: the signal is ignored). *)
Record Behaviour := mkBehaviour {
  self_exit : option (nat * Z);
  term_exit : option nat
}.

(** A launched process: a [subprocess.Popen] object, with the command
    line it was launched with. *)
Record Proc := mkProc {
  p_argv : list string;
  p_start : nat;
  p_beh : Behaviour;
  p_term : option nat;   (* when SIGTERM was sent *)
  p_kill : option nat    (* when SIGKILL was sent *)
}.

(** [subprocess.CompletedProcess] *)
Record Completed := mkCompleted {
  returncode : Z;
  stdout : string;
  stderr : string
}.

(** What a shell command does: how long it runs ([None]: it never ends)
    and what it leaves. *)
Record ShellResult := mkShell {
  sh_dur : option nat;
  sh_out : Completed
}.

(** The oracles.  [sut n argv] is the behaviour of the [n]-th launch
    ([None]: the launch itself fails with OSError); [shell n cmd] answers
    the [n]-th shell command; [rss n pid] the [n]-th memory sample
    ([None]: psutil.NoSuchProcess); [pkill_matches pattern argv] says
    whether [pattern], read as [pkill -f] reads it (an extended regular
    expression looked for anywhere in the command line), matches the
    command line [argv]; [harness_argv] is the command line the harness
    itself was started with. *)
Record World := mkWorld {
  sut : nat -> list string -> option Behaviour;
  shell : nat -> string -> ShellResult;
  platform : string;
  rss : nat -> nat -> option Z;
  pkill_matches : string -> list string -> bool;
  harness_argv : list string
}.

(** Whether [pkill -f pattern] signals the harness process itself, as it
    does when the path of the binary was given to the script as an
    argument. *)
Definition pkill_hits_harness (w : World) (pattern : string) : bool :=
  pkill_matches w pattern (harness_argv w).

Inductive Event :=
| Print (line : string)
| Popen (argv : list string)
| RunSut (argv : list string) (timeout : option nat)
| Shell (cmd : string) (timeout : option nat)
| Pkill (pattern : string)
| Sleep (n : nat)
| Terminate (pid : nat)
| Wait (pid : nat) (timeout : option nat)
| Kill (pid : nat)
| Mkstemp (path : string)
| Unlink (path : string)
| Chmod (path : string).

(** The mutable state: the world's clock, process table, call counters and
    files, the trace of what the harness did (latest event first), and the
    tester object's field [self.server_process]. *)
Record State := mkState {
  env : World;
  clock : nat;
  procs : list Proc;
  launches : nat;
  shell_calls : nat;
  samples : nat;
  files : list (string * string);
  temps : nat;
  log : list Event;
  server_process : option nat
}.

Definition set_clock (t : nat) (s : State) : State :=
  mkState (env s) t (procs s) (launches s) (shell_calls s) (samples s)
          (files s) (temps s) (log s) (server_process s).

Definition set_procs (ps : list Proc) (s : State) : State :=
  mkState (env s) (clock s) ps (launches s) (shell_calls s) (samples s)
          (files s) (temps s) (log s) (server_process s).

Definition set_launches (n : nat) (s : State) : State :=
  mkState (env s) (clock s) (procs s) n (shell_calls s) (samples s)
          (files s) (temps s) (log s) (server_process s).

Definition set_shell_calls (n : nat) (s : State) : State :=
  mkState (env s) (clock s) (procs s) (launches s) n (samples s)
          (files s) (temps s) (log s) (server_process s).

Definition set_samples (n : nat) (s : State) : State :=
  mkState (env s) (clock s) (procs s) (launches s) (shell_calls s) n
          (files s) (temps s) (log s) (server_process s).

Definition set_files (fs : list (string * string)) (n : nat) (s : State)
  : State :=
  mkState (env s) (clock s) (procs s) (launches s) (shell_calls s)
          (samples s) fs n (log s) (server_process s).

Definition emit (e : Event) (s : State) : State :=
  mkState (env s) (clock s) (procs s) (launches s) (shell_calls s)
          (samples s) (files s) (temps s) (e :: log s) (server_process s).

Definition set_server_process (p : option nat) (s : State) : State :=
  mkState (env s) (clock s) (procs s) (launches s) (shell_calls s)
          (samples s) (files s) (temps s) (log s) p.

(** The events in the order they happened. *)
Definition trace (s : State) : list Event := rev (log s).

(** *** Process exits *)

Definition SIGTERM : Z := 15.
Definition SIGKILL : Z := 9.

Definition earlier (a b : option (nat * Z)) : option (nat * Z) :=
  match a, b with
  | Some (t, c), Some (u, d) => if t <=? u then Some (t, c) else Some (u, d)
  | Some x, None => Some x
  | None, y => y
  end.

(** When the process exits and with which return code, given the signals
    sent so far: the earliest of its own exit, its reaction to SIGTERM and
    a SIGKILL.  A death by signal has the negated signal number as code. *)
Definition exit_info (p : Proc) : option (nat * Z) :=
  let own := match self_exit (p_beh p) with
             | Some (d, c) => Some (p_start p + d, c)
             | None => None
             end in
  let by_term := match p_term p, term_exit (p_beh p) with
                 | Some t, Some d => Some (t + d, (- SIGTERM)%Z)
                 | _, _ => None
                 end in
  let by_kill := match p_kill p with
                 | Some t => Some (t, (- SIGKILL)%Z)
                 | None => None
                 end in
  earlier own (earlier by_term by_kill).

(** The return code a process shows at time [now]. *)
Definition code_at (now : nat) (p : Proc) : option Z :=
  match exit_info p with
  | Some (t, c) => if t <=? now then Some c else None
  | None => None
  end.

Definition proc_of (s : State) (pid : nat) : option Proc :=
  nth_error (procs s) pid.

(** [isAlive]: the process has been launched and has not exited yet. *)
Definition alive (s : State) (pid : nat) : bool :=
  match proc_of s pid with
  | Some p => match code_at (clock s) p with Some _ => false | None => true end
  | None => false
  end.

Fixpoint update_nth {A} (n : nat) (f : A -> A) (l : list A) : list A :=
  match l, n with
  | [], _ => []
  | x :: r, O => f x :: r
  | x :: r, S k => x :: update_nth k f r
  end.

Definition send_term (now : nat) (p : Proc) : Proc :=
  match code_at now p, p_term p with
  | None, None => mkProc (p_argv p) (p_start p) (p_beh p) (Some now) (p_kill p)
  | _, _ => p
  end.

Definition send_kill (now : nat) (p : Proc) : Proc :=
  match code_at now p with
  | None => mkProc (p_argv p) (p_start p) (p_beh p) (p_term p) (Some now)
  | Some _ => p
  end.

(* ===================================================================== *)
(** ** The harness monad *)
(* ===================================================================== *)

Inductive Exn :=
| TimeoutExpired
| OSError
| ValueError
| IndexError
| NoSuchProcess.

(** Outcome of a call: it returns, it raises, it never comes back, or the
    harness process itself is ended by a signal while in it (no handler
    and no [finally] clause runs then). *)
Inductive Res (A : Type) :=
| Ok (a : A) (s : State)
| Raise (e : Exn) (s : State)
| Hang (s : State)
| Killed (s : State).

Arguments Ok {A} a s.
Arguments Raise {A} e s.
Arguments Hang {A} s.
Arguments Killed {A} s.

Definition M (A : Type) : Type := State -> Res A.

Definition ret {A} (a : A) : M A := fun s => Ok a s.

Definition bind {A B} (m : M A) (k : A -> M B) : M B :=
  fun s => match m s with
           | Ok a s' => k a s'
           | Raise e s' => Raise e s'
           | Hang s' => Hang s'
           | Killed s' => Killed s'
           end.

Declare Scope harness_scope.
Delimit Scope harness_scope with harness.
Notation "x <- m ;; k" := (bind m (fun x => k))
  (at level 61, m at next level, right associativity) : harness_scope.
Notation "m ;; k" := (bind m (fun _ => k))
  (at level 61, right associativity) : harness_scope.
Local Open Scope harness_scope.

Definition raise {A} (e : Exn) : M A := fun s => Raise e s.

(** [try: m  except <those the handler takes>: h e] -- a handler that does
    not take [e] re-raises it. *)
Definition try_except {A} (m : M A) (h : Exn -> M A) : M A :=
  fun s => match m s with
           | Raise e s' => h e s'
           | r => r
           end.

(** [try: m  finally: f] *)
Definition try_finally {A} (m : M A) (f : M unit) : M A :=
  fun s => match m s with
           | Ok a s' => (f ;; ret a) s'
           | Raise e s' => (f ;; raise e) s'
           | Hang s' => Hang s'
           | Killed s' => Killed s'
           end.

Definition get {A} (f : State -> A) : M A := fun s => Ok (f s) s.
Definition modify (f : State -> State) : M unit := fun s => Ok tt (f s).

Definition when (b : bool) (m : M unit) : M unit := if b then m else ret tt.

(** [for x in l: body x] *)
Fixpoint for_each {A} (l : list A) (body : A -> M unit) : M unit :=
  match l with
  | [] => ret tt
  | x :: r => body x ;; for_each r body
  end.

(** [for x in l: if body x: passed += 1] *)
Fixpoint count_passed {A} (l : list A) (body : A -> M bool) (passed : nat)
  : M nat :=
  match l with
  | [] => ret passed
  | x :: r =>
      b <- body x ;;
      count_passed r body (if b then S passed else passed)
  end.

(** [[body x for x in l]] *)
Fixpoint map_m {A B} (l : list A) (body : A -> M B) : M (list B) :=
  match l with
  | [] => ret []
  | x :: r => y <- body x ;; ys <- map_m r body ;; ret (y :: ys)
  end.

(* ===================================================================== *)
(** ** Primitives: what [subprocess], [time], [os] and [tempfile] do *)
(* ===================================================================== *)

Definition print (line : string) : M unit := modify (emit (Print line)).

(** [time.sleep(n)] *)
Definition sleep (n : nat) : M unit :=
  modify (fun s => set_clock (clock s + n) (emit (Sleep n) s)).

(** [subprocess.Popen(argv, ...)]: the new process's handle. *)
Definition popen (argv : list string) : M nat :=
  fun s =>
    let s1 := set_launches (S (launches s)) (emit (Popen argv) s) in
    match sut (env s) (launches s) argv with
    | None => Raise OSError s1
    | Some b =>
        Ok (length (procs s))
           (set_procs (procs s ++ [mkProc argv (clock s) b None None])%list s1)
    end.

(** [p.poll()] *)
Definition poll (pid : nat) : M (option Z) :=
  get (fun s => match proc_of s pid with
                | Some p => code_at (clock s) p
                | None => None
                end).

(** [p.terminate()]: SIGTERM, unless the process is known to have exited. *)
Definition terminate (pid : nat) : M unit :=
  modify (fun s => set_procs (update_nth pid (send_term (clock s)) (procs s))
                             (emit (Terminate pid) s)).

(** [p.kill()] *)
Definition kill (pid : nat) : M unit :=
  modify (fun s => set_procs (update_nth pid (send_kill (clock s)) (procs s))
                             (emit (Kill pid) s)).

(** [p.wait(timeout)]: blocks until the process exits; with a timeout it
    raises TimeoutExpired when the process is still running after it,
    without one it blocks for as long as the process runs. *)
Definition wait (pid : nat) (timeout : option nat) : M Z :=
  fun s =>
    let s1 := emit (Wait pid timeout) s in
    match match proc_of s pid with Some p => exit_info p | None => None end,
          timeout with
    | Some (t, c), Some T =>
        if t <=? clock s + T then Ok c (set_clock (Nat.max (clock s) t) s1)
        else Raise TimeoutExpired (set_clock (clock s + T) s1)
    | Some (t, c), None => Ok c (set_clock (Nat.max (clock s) t) s1)
    | None, Some T => Raise TimeoutExpired (set_clock (clock s + T) s1)
    | None, None => Hang s1
    end.

(** [subprocess.run(cmd, shell=True, capture_output=True, ..., timeout)] *)
Definition run_shell (cmd : string) (timeout : option nat) : M Completed :=
  fun s =>
    let r := shell (env s) (shell_calls s) cmd in
    let s1 := set_shell_calls (S (shell_calls s)) (emit (Shell cmd timeout) s) in
    match sh_dur r, timeout with
    | Some d, Some T =>
        if d <=? T then Ok (sh_out r) (set_clock (clock s + d) s1)
        else Raise TimeoutExpired (set_clock (clock s + T) s1)
    | Some d, None => Ok (sh_out r) (set_clock (clock s + d) s1)
    | None, Some T => Raise TimeoutExpired (set_clock (clock s + T) s1)
    | None, None => Hang s1
    end.

(** [subprocess.run(argv, capture_output=True, text=True, timeout=T)] on
    the SUT itself: launches it and waits for it to exit; when it is still
    running after [T] it is killed and TimeoutExpired is raised. *)
Definition run_sut (argv : list string) (T : nat) : M Z :=
  fun s =>
    let s1 := set_launches (S (launches s)) (emit (RunSut argv (Some T)) s) in
    match sut (env s) (launches s) argv with
    | None => Raise OSError s1
    | Some b =>
        let p := mkProc argv (clock s) b None None in
        match self_exit b with
        | Some (d, c) =>
            if d <=? T
            then Ok c (set_clock (clock s + d) (set_procs (procs s ++ [p])%list s1))
            else Raise TimeoutExpired
                   (set_clock (clock s + T)
                      (set_procs (procs s ++ [send_kill (clock s + T) p])%list s1))
        | None =>
            Raise TimeoutExpired
              (set_clock (clock s + T)
                 (set_procs (procs s ++ [send_kill (clock s + T) p])%list s1))
        end
    end.

(** SIGTERM from [pkill -f pattern] to one launched process: it gets the
    signal when its command line matches. *)
Definition pkill_signal (w : World) (pattern : string) (now : nat)
                        (p : Proc) : Proc :=
  if pkill_matches w pattern (p_argv p) then send_term now p else p.

(** [subprocess.run(["pkill", "-f", pattern], capture_output=True)]:
    SIGTERM goes to every process whose command line matches [pattern]:
    to the launched servers that match, and, when its own command line
    matches too, to the harness, which is ended by it: the call does not
    come back. *)
Definition pkill (pattern : string) : M unit :=
  fun s =>
    let s1 := set_procs (map (pkill_signal (env s) pattern (clock s))
                             (procs s))
                        (emit (Pkill pattern) s) in
    if pkill_hits_harness (env s) pattern then Killed s1 else Ok tt s1.

(** [fd, path = tempfile.mkstemp(suffix); write text; close] *)
Definition mkstemp (suffix text : string) : M string :=
  fun s =>
    let path := "/tmp/tmp" ++ Py.str_nat (temps s) ++ suffix in
    Ok path (set_files ((path, text) :: files s) (S (temps s))
                       (emit (Mkstemp path) s)).

(** [os.unlink(path)] *)
Definition unlink (path : string) : M unit :=
  modify (fun s =>
    set_files (filter (fun f => negb (String.eqb (fst f) path)) (files s))
              (temps s) (emit (Unlink path) s)).

(** [os.chmod(path, 0o755)] *)
Definition chmod (path : string) : M unit := modify (emit (Chmod path)).

(** [os.path.exists(path)] *)
Definition path_exists (path : string) : M bool :=
  get (fun s => existsb (fun f => String.eqb (fst f) path) (files s)).

(** [psutil.Process(pid).memory_info().rss] *)
Definition memory_rss (pid : nat) : M Z :=
  fun s =>
    let s1 := set_samples (S (samples s)) s in
    match rss (env s) (samples s) pid with
    | Some v => Ok v s1
    | None => Raise NoSuchProcess s1
    end.

(** The two tester classes share their constructor arguments;
    [self.server_process] lives in the [State]. *)
Record Tester := mkTester {
  binary_path : string;
  config_path : string
}.

(** Python truth value of an optional integer argument. *)
Definition truthy (e : option Z) : bool :=
  match e with
  | Some n => negb (n =? 0)%Z
  | None => false
  end.

(** [str(e)] of an optional integer. *)
Definition show (e : option Z) : string :=
  match e with
  | Some n => Py.str n
  | None => "None"
  end.

(* ===================================================================== *)
(** ** TesterBasic.py: class WebservGeneralTester *)
(* ===================================================================== *)

Module Basic.

Definition rule (n : nat) : string := Py.times "=" n.

Definition print_test_header (test_name : string) : M unit :=
  print (rule 50) ;;
  print ("Testing: " ++ test_name) ;;
  print (rule 50).

(** What [run_curl] appends to get at the status code. *)
Definition status_suffix : string := " -o /dev/null -w '%{http_code}'".

(** [run_curl(command, expected_code=None)] *)
Definition run_curl (command : string) (expected_code : option Z) : M bool :=
  try_except
    (result <- run_shell command (Some 5) ;;
     let curl_status_cmd := command ++ status_suffix in
     status_result <- run_shell curl_status_cmd (Some 5) ;;
     let status_code := Py.remove_char "'" (Py.strip (stdout status_result)) in
     if truthy expected_code && (show expected_code =? status_code)%string
     then print (command ++ " returned " ++ status_code ++ " as expected") ;;
          ret true
     else if truthy expected_code
     then print (command ++ " returned " ++ status_code ++ ", expected "
                 ++ show expected_code) ;;
          ret false
     else print (command ++ " returned " ++ status_code) ;;
          ret true)
    (fun e =>
       match e with
       | TimeoutExpired => print "Curl command timed out" ;; ret false
       | _ => print "Error running curl" ;; ret false
       end).

(** The loop shared by the probe tables:
    [for cmd, expected in tests: if self.run_curl(cmd, expected): passed += 1] *)
Definition run_table (tests : list (string * Z)) : M nat :=
  count_passed tests (fun t => run_curl (fst t) (Some (snd t))) 0.

Definition report_table (passed total : nat) (what : string) : M bool :=
  print ("Passed " ++ Py.str_nat passed ++ "/" ++ Py.str_nat total
         ++ " " ++ what) ;;
  ret (passed =? total).

Definition error_code_tests : list (string * Z) :=
  [ (* 400 Bad Request *)
    ("curl -X INVALID http://127.0.0.1:8888/", 400%Z);
    ("curl -H 'Host:' http://127.0.0.1:8888/", 400%Z);
    ("curl --request-target '*' http://127.0.0.1:8888/", 400%Z);
    (* 403 Forbidden *)
    ("curl -X POST http://127.0.0.1:8888/", 403%Z);
    ("curl -X DELETE http://127.0.0.1:8888/index.html", 403%Z);
    (* 404 Not Found *)
    ("curl http://127.0.0.1:8888/nonexistent", 404%Z);
    ("curl http://127.0.0.1:8888/no_such_file.html", 404%Z);
    ("curl http://127.0.0.1:8888/uploads/", 404%Z);
    (* 405 Method Not Allowed *)
    ("curl -X PUT http://127.0.0.1:8888/", 405%Z);
    ("curl -X PATCH http://127.0.0.1:8888/", 405%Z);
    ("curl -X OPTIONS http://127.0.0.1:8888/", 405%Z);
    (* 413 Payload Too Large *)
    ("curl -X POST -H 'Content-Type: text/plain' --data '"
       ++ Py.times "x" 60000 ++ "' http://127.0.0.1:8888/methods", 413%Z) ].

(** Test 1 *)
Definition test_error_codes : M bool :=
  print_test_header "Error Codes with CURL" ;;
  passed <- run_table error_code_tests ;;
  report_table passed (length error_code_tests) "error code tests".

Definition upload_sizes : list nat := [100; 1000; 10000; 49999; 50001].

Definition upload_case (f : string * nat) : M bool :=
  let (filepath, size) := f in
  let expected := if size <=? 50000 then 201%Z else 413%Z in
  let cmd := "curl -X POST -H 'Content-Type: text/plain' --data-binary '@"
             ++ filepath ++ "' http://127.0.0.1:8888/methods" in
  b <- run_curl cmd (Some expected) ;;
  unlink filepath ;;
  ret b.

(** Test 2 *)
Definition test_file_uploads : M bool :=
  print_test_header "File Uploads - Different Sizes" ;;
  test_files <- map_m upload_sizes
                  (fun size => path <- mkstemp ".txt" (Py.times "X" size) ;;
                               ret (path, size)) ;;
  passed <- count_passed test_files upload_case 0 ;;
  report_table passed (length test_files) "file upload tests".

Definition permission_tests : list (string * Z) :=
  [ ("curl -X POST --data 'test' http://127.0.0.1:8888/", 403%Z);
    ("curl -X POST --data 'test' http://127.0.0.1:8888/index.html", 403%Z);
    ("curl -X POST --data 'test' http://127.0.0.1:8888/dashboard", 403%Z);
    ("curl -X POST --data 'test' http://127.0.0.1:8888/autoindex", 403%Z);
    ("curl -X DELETE http://127.0.0.1:8888/", 403%Z);
    ("curl -X DELETE http://127.0.0.1:8888/dashboard.html", 403%Z);
    ("curl -X GET http://127.0.0.1:8888/methods", 200%Z);
    ("curl -X POST --data 'test' http://127.0.0.1:8888/methods", 201%Z);
    ("curl -X DELETE http://127.0.0.1:8888/uploads/file.txt", 200%Z) ].

(** Test 3 *)
Definition test_permission_errors : M bool :=
  print_test_header "Permission Tests" ;;
  passed <- run_table permission_tests ;;
  report_table passed (length permission_tests) "permission tests".

Definition autoindex_tests : list (string * Z) :=
  [ ("curl http://127.0.0.1:8888/uploads", 404%Z);
    ("curl http://127.0.0.1:8888/uploads/", 200%Z);
    ("curl http://127.0.0.1:8888/uploads/01/", 200%Z);
    ("curl http://127.0.0.1:8888/cgi-bin/", 200%Z) ].

(** Test 4 *)
Definition test_autoindex : M bool :=
  print_test_header "Autoindex Tests" ;;
  passed <- run_table autoindex_tests ;;
  report_table passed (length autoindex_tests) "autoindex tests".

(** *** The invalid fixtures *)

(** Two server blocks listening on the same port. *)
Definition duplicate_ports_config : string := "
server {
    host 127.0.0.1;
    listen 8080;
    server_name server1;
    root ./www/;
    
    location / {
        index index.html;
        allowed_methods GET;
    }
}

server {
    host 127.0.0.1;
    listen 8080;
    server_name server2;
    root ./www/;
    
    location / {
        index index.html;
        allowed_methods GET;
    }
}
".

(** Two server blocks with the same server name. *)
Definition duplicate_names_config : string := "
server {
    host 127.0.0.1;
    listen 8080;
    server_name myserver;
    root ./www/;
    
    location / {
        index index.html;
        allowed_methods GET;
    }
}

server {
    host 127.0.0.1;
    listen 8081;
    server_name myserver;
    root ./www/;
    
    location / {
        index index.html;
        allowed_methods GET;
    }
}
".

(** One server block with the same location twice. *)
Definition duplicate_locations_config : string := "
server {
    host 127.0.0.1;
    listen 8080;
    server_name server1;
    root ./www/;
    
    location /test {
        index index.html;
        allowed_methods GET;
    }
    
    location /test {
        index index.html;
        allowed_methods POST;
    }
}
".

Definition create_config_with_duplicate_ports : M string :=
  mkstemp ".conf" duplicate_ports_config.

Definition create_config_with_duplicate_names : M string :=
  mkstemp ".conf" duplicate_names_config.

Definition create_config_with_duplicate_locations : M string :=
  mkstemp ".conf" duplicate_locations_config.

(** One turn of the loop of [test_config_errors]: the SUT is launched on
    the fixture with a timeout of 2; the result says whether [passed] was
    incremented. *)
Definition config_error_case (self : Tester) (c : string * string) : M bool :=
  let (config_path, description) := c in
  print ("Testing " ++ description ++ "...") ;;
  try_finally
    (try_except
       (rc <- run_sut [binary_path self; config_path] 2 ;;
        if negb (rc =? 0)%Z
        then print ("Server correctly rejected config with " ++ description) ;;
             ret true
        else print ("Server accepted invalid config with " ++ description) ;;
             pkill (binary_path self) ;;
             ret false)
       (fun e =>
          match e with
          | TimeoutExpired =>
              print ("Server hung with " ++ description) ;;
              pkill (binary_path self) ;;
              ret false
          | _ => print ("Error testing " ++ description) ;; ret false
          end))
    (unlink config_path).

(** Test 5 *)
Definition test_config_errors (self : Tester) : M bool :=
  print_test_header "Configuration Error Handling" ;;
  p1 <- create_config_with_duplicate_ports ;;
  p2 <- create_config_with_duplicate_names ;;
  p3 <- create_config_with_duplicate_locations ;;
  let test_configs := [ (p1, "duplicate ports");
                        (p2, "duplicate server names");
                        (p3, "duplicate locations") ] in
  passed <- count_passed test_configs (config_error_case self) 0 ;;
  report_table passed (length test_configs) "config error tests".

Definition second_server_config : string := "
server {
    host 127.0.0.1;
    listen 9999;
    server_name second_server;
    root ./www/;
    
    location / {
        index index.html;
        allowed_methods GET;
    }
}
".

(** Test 6 *)
Definition test_multiple_servers (self : Tester) : M bool :=
  print_test_header "Multiple Servers Test" ;;
  path2 <- mkstemp ".conf" second_server_config ;;
  try_finally
    (try_except
       (server2 <- popen [binary_path self; path2] ;;
        sleep 2 ;;
        result1 <- run_curl "curl http://127.0.0.1:8888/" (Some 200%Z) ;;
        result2 <- run_curl "curl http://127.0.0.1:9999/" (Some 200%Z) ;;
        passed <- (if result1 && result2
                   then print "Both servers responding correctly" ;; ret true
                   else print "One or both servers not responding" ;;
                        ret false) ;;
        terminate server2 ;;
        wait server2 (Some 5) ;;
        ret passed)
       (fun e => print "Error testing multiple servers" ;; ret false))
    (unlink path2).

Definition cgi_tests : list (string * Z) :=
  [ ("curl http://127.0.0.1:8888/cgi-bin/lotr", 200%Z);
    ("curl http://127.0.0.1:8888/cgi-bin/lotr?action=time", 200%Z);
    ("curl http://127.0.0.1:8888/cgi-bin/star-wars", 200%Z);
    ("curl -X POST -d 'username=test&message=hello' http://127.0.0.1:8888/cgi-bin/lotr",
     200%Z);
    ("curl -X POST -d 'username=test&message=hello' http://127.0.0.1:8888/cgi-bin/star-wars",
     200%Z) ].

(** Test 7 *)
Definition test_cgi : M bool :=
  print_test_header "CGI Tests" ;;
  passed <- run_table cgi_tests ;;
  report_table passed (length cgi_tests) "CGI tests".

(** Test 8 *)
Definition test_cookies : M bool :=
  print_test_header "Cookie/Session Tests" ;;
  result <- run_shell
              "curl -v http://127.0.0.1:8888/register 2>&1 | grep -i 'set-cookie'"
              None ;;
  if Py.contains "set-cookie" (Py.lower (stdout result))
  then print "Server sets cookies on /register" ;; ret true
  else print "Server doesn't set cookies on /register" ;; ret false.

(** [start_server]: launch, settle for 3, then look whether it still runs. *)
Definition start_server (self : Tester) : M bool :=
  print ("Starting webserv with config: " ++ config_path self) ;;
  p <- popen [binary_path self; config_path self] ;;
  modify (set_server_process (Some p)) ;;
  sleep 3 ;;
  st <- poll p ;;
  match st with
  | Some _ => print "Server failed to start" ;; ret false
  | None => print "Server started successfully" ;; ret true
  end.

(** [stop_server]: SIGTERM, a wait of at most 5, SIGKILL when that wait
    times out; then the handle is cleared. *)
Definition stop_server : M unit :=
  sp <- get server_process ;;
  match sp with
  | Some p =>
      print "Stopping server..." ;;
      terminate p ;;
      try_except
        (wait p (Some 5) ;; print "Server stopped")
        (fun e =>
           match e with
           | TimeoutExpired => kill p ;; print "Server killed"
           | _ => raise e
           end) ;;
      modify (set_server_process None)
  | None => ret tt
  end.

Definition count_true (test_results : list (string * bool)) : nat :=
  length (filter snd test_results).

(** The closing lines of [run_all_tests].  [passed >= total * 0.7] is
    compared exactly; [total] is 7 or 8 there, where the floating-point
    product decides the same way. *)
Definition print_summary (test_results : list (string * bool)) : M unit :=
  print (rule 60) ;;
  print "TEST SUMMARY" ;;
  print (rule 60) ;;
  let passed := count_true test_results in
  let total := length test_results in
  for_each test_results
    (fun r => print (fst r ++ " " ++ (if snd r then "PASS" else "FAIL"))) ;;
  print ("Total: " ++ Py.str_nat passed ++ "/" ++ Py.str_nat total
         ++ " tests passed") ;;
  if passed =? total then print "ALL TESTS PASSED!"
  else if 7 * total <=? 10 * passed
  then print "Most tests passed, check failures above"
  else print "Multiple tests failed, review implementation".

Definition run_all_tests (self : Tester) : M unit :=
  print (rule 60) ;;
  print "WEBSERV GENERAL TESTS" ;;
  print (rule 60) ;;
  started <- start_server self ;;
  if negb started
  then print "Failed to start server, aborting tests"
  else
    r1 <- test_error_codes ;;
    r2 <- test_file_uploads ;;
    r3 <- test_permission_errors ;;
    r4 <- test_autoindex ;;
    r5 <- test_cgi ;;
    r6 <- test_cookies ;;
    let test_results := [ ("Error Codes", r1); ("File Uploads", r2);
                          ("Permissions", r3); ("Autoindex", r4);
                          ("CGI", r5); ("Cookies", r6) ] in
    stop_server ;;
    r7 <- test_config_errors self ;;
    let test_results := (test_results ++ [("Config Errors", r7)])%list in
    restarted <- start_server self ;;
    test_results <-
      (if restarted
       then r8 <- test_multiple_servers self ;;
            stop_server ;;
            ret (test_results ++ [("Multiple Servers", r8)])%list
       else ret test_results) ;;
    print_summary test_results.

(** The usage line both scripts print; [argv0] is [sys.argv[0]]. *)
Definition usage (argv0 : string) : string :=
  "Usage: " ++ argv0 ++ " [webserv_binary] [config_file]".

(** The script body: the two path checks, then the run; any exception ends
    in [stop_server].  The value is the exit status of the script: 1 from
    [sys.exit(1)] after a failed check, 0 when the body runs to its end. *)
Definition main (argv0 : string) (self : Tester) : M Z :=
  has_binary <- path_exists (binary_path self) ;;
  if negb has_binary
  then print ("Error: Binary '" ++ binary_path self ++ "' not found") ;;
       print (usage argv0) ;;
       ret 1%Z
  else
    has_config <- path_exists (config_path self) ;;
    if negb has_config
    then print ("Error: Config file '" ++ config_path self ++ "' not found") ;;
         print (usage argv0) ;;
         ret 1%Z
    else try_except (run_all_tests self)
                    (fun e => print "Unexpected error" ;; stop_server) ;;
         ret 0%Z.

End Basic.

(* ===================================================================== *)
(** ** TesterAdvanced.py: class WebservCorrectionTester *)
(* ===================================================================== *)

Module Advanced.

Definition rule (n : nat) : string := Py.times "=" n.

Definition print_section (section_name : string) : M unit :=
  print (rule 60) ;;
  print section_name ;;
  print (rule 60).

(** [print_test(test_name, passed, details="")]; the one call that passes
    [None] for [passed] is written with [false], which prints the same. *)
Definition print_test (test_name : string) (passed : bool) (details : string)
  : M unit :=
  print ((if passed then "  [PASS] " else "  [FAIL] ") ++ test_name) ;;
  when (negb (details =? "")%string) (print ("        " ++ details)).

(** [check_memory_leaks]: everything after the section header is commented
    out in the source, so the method falls off its end. *)
Definition check_memory_leaks : M (option bool) :=
  print_section "MEMORY LEAK CHECK" ;;
  ret None.

(** The [try] block of [test_io_multiplexing] with its [except] clause:
    on Linux the process is traced for two units and the trace searched
    for select, poll or epoll calls; elsewhere the check is skipped. *)
Definition io_multiplexing_check (pid : nat) : M (option bool) :=
  try_except
    (sys_platform <- get (fun s => platform (env s)) ;;
     if (sys_platform =? "linux")%string
     then
       let strace_cmd := "timeout 2 strace -p " ++ Py.str_nat pid ++ " 2>&1" in
       result <- run_shell strace_cmd None ;;
       let syscalls := stdout result ++ stderr result in
       let has_select := Py.contains "select(" syscalls
                         || Py.contains "pselect(" syscalls in
       let has_poll := Py.contains "poll(" syscalls
                       || Py.contains "ppoll(" syscalls in
       let has_epoll := Py.contains "epoll_" syscalls in
       if has_select || has_poll || has_epoll
       then print_test "I/O Multiplexing detected" true
              ("Using: " ++ (if has_select then "select"
                             else if has_poll then "poll" else "epoll")) ;;
            ret (Some true)
       else print_test "No I/O Multiplexing detected" false "" ;;
            ret (Some false)
     else print_test "I/O Multiplexing check" false
            "Cannot verify on this OS" ;;
          ret None)
    (fun e => print_test "I/O Multiplexing test" false "Error" ;;
              ret (Some false)).

Definition test_io_multiplexing (self : Tester) : M (option bool) :=
  print_section "I/O MULTIPLEXING CHECK" ;;
  p <- popen [binary_path self; config_path self] ;;
  modify (set_server_process (Some p)) ;;
  sleep 2 ;;
  try_finally
    (io_multiplexing_check p)
    (terminate p ;; wait p None ;; ret tt).

Definition two_servers_config : string := "
server {
    host 127.0.0.1;
    listen 8080;
    server_name server1;
    root ./www/;
    
    location / {
        index index.html;
        allowed_methods GET;
    }
}

server {
    host 127.0.0.1;
    listen 8081;
    server_name server2;
    root ./www/;
    
    location / {
        index dashboard.html;
        allowed_methods GET;
    }
}
".

(** [curl -s -o /dev/null -w '%{http_code}' ...]: the status code alone on
    standard output. *)
Definition curl_code (rest : string) : string :=
  "curl -s -o /dev/null -w '%{http_code}' " ++ rest.

Definition test_configuration (self : Tester) : M (option bool) :=
  print_section "CONFIGURATION TESTS" ;;
  (* Test 1: multiple servers with different ports *)
  path <- mkstemp ".conf" two_servers_config ;;
  server <- popen [binary_path self; path] ;;
  sleep 2 ;;
  r1 <- run_shell "curl -s http://127.0.0.1:8080/" None ;;
  r2 <- run_shell "curl -s http://127.0.0.1:8081/" None ;;
  let t1 := Py.contains "Welcome" (stdout r1)
            && Py.contains "Dashboard" (stdout r2) in
  print_test "Multiple servers with different ports" t1 "" ;;
  terminate server ;;
  wait server None ;;
  unlink path ;;
  sleep 1 ;;
  (* Test 2: different hostnames *)
  p <- popen [binary_path self; config_path self] ;;
  modify (set_server_process (Some p)) ;;
  sleep 2 ;;
  result <- run_shell
    "curl --resolve example.com:8888:127.0.0.1 http://example.com:8888/" None ;;
  let t2 := (returncode result =? 0)%Z && (0 <? String.length (stdout result)) in
  print_test "Different hostnames support" t2 "" ;;
  (* Test 5: different routes *)
  let routes := ["/"; "/dashboard"; "/methods"; "/cgi-bin/"] in
  route_results <- map_m routes
    (fun route =>
       result <- run_shell (curl_code ("http://127.0.0.1:8888" ++ route)) None ;;
       ret (Py.contains "200" (stdout result)
            || Py.contains "404" (stdout result))) ;;
  let t5 := Py.all route_results in
  print_test "Multiple routes configuration" t5 "" ;;
  (* Test 6: method restrictions *)
  result <- run_shell (curl_code "-X DELETE http://127.0.0.1:8888/") None ;;
  let t6 := Py.contains "403" (stdout result)
            || Py.contains "405" (stdout result) in
  print_test "Method restrictions" t6 "" ;;
  terminate p ;;
  wait p None ;;
  ret (Some (Py.all [t1; t2; t5; t6])).

(** The UNKNOWN-method probe of [test_basic_checks]. *)
Definition unknown_method_probe : M bool :=
  result <- run_shell (curl_code "-X UNKNOWN http://127.0.0.1:8888/") None ;;
  let test_passed := Py.mem (Py.strip (stdout result)) ["400"; "405"; "501"] in
  print_test "UNKNOWN request handling" test_passed "" ;;
  ret test_passed.

Definition test_basic_checks (self : Tester) : M (option bool) :=
  print_section "BASIC FUNCTIONALITY CHECKS" ;;
  p <- popen [binary_path self; config_path self] ;;
  modify (set_server_process (Some p)) ;;
  sleep 2 ;;
  (* GET *)
  result <- run_shell (curl_code "http://127.0.0.1:8888/") None ;;
  let t_get := Py.contains "200" (stdout result) in
  print_test "GET request" t_get "" ;;
  (* POST *)
  result <- run_shell
    (curl_code "-X POST -d 'test' http://127.0.0.1:8888/methods") None ;;
  let t_post := Py.contains "201" (stdout result)
                || Py.contains "200" (stdout result) in
  print_test "POST request" t_post "" ;;
  (* DELETE, after creating something to delete *)
  run_shell "curl -X POST -d 'test_delete' http://127.0.0.1:8888/methods" None ;;
  sleep 1 ;;
  result <- run_shell
    (curl_code "-X DELETE http://127.0.0.1:8888/uploads/file.txt") None ;;
  let t_delete := Py.mem (Py.strip (stdout result)) ["200"; "204"; "404"] in
  print_test "DELETE request" t_delete "" ;;
  (* UNKNOWN method *)
  t_unknown <- unknown_method_probe ;;
  (* file upload *)
  filepath <- mkstemp "" "This is a test file for upload" ;;
  result <- run_shell
    (curl_code ("-X POST --data-binary '@" ++ filepath
                ++ "' http://127.0.0.1:8888/methods")) None ;;
  let t_upload := Py.contains "201" (stdout result)
                  || Py.contains "200" (stdout result) in
  print_test "File upload" t_upload "" ;;
  unlink filepath ;;
  terminate p ;;
  wait p None ;;
  ret (Some (Py.all [t_get; t_post; t_delete; t_unknown; t_upload])).

Definition bad_cgi : string := "#!/usr/bin/env python3
import time
while True:
    time.sleep(1)
".

Definition test_cgi (self : Tester) : M (option bool) :=
  print_section "CGI TESTS" ;;
  p <- popen [binary_path self; config_path self] ;;
  modify (set_server_process (Some p)) ;;
  sleep 2 ;;
  result <- run_shell "curl -s http://127.0.0.1:8888/cgi-bin/lotr" None ;;
  let t1 := (0 <? String.length (stdout result))
            && Py.contains "Archives" (stdout result) in
  print_test "CGI GET request (Python)" t1 "" ;;
  result <- run_shell
    "curl -s -X POST -d 'username=test&message=hello' http://127.0.0.1:8888/cgi-bin/lotr"
    None ;;
  let t2 := 0 <? String.length (stdout result) in
  print_test "CGI POST request (Python)" t2 "" ;;
  result <- run_shell "curl -s http://127.0.0.1:8888/cgi-bin/star-wars" None ;;
  let t3 := (0 <? String.length (stdout result))
            && Py.contains "Terminal" (stdout result) in
  print_test "CGI GET request (Shell)" t3 "" ;;
  result <- run_shell
    "curl -s 'http://127.0.0.1:8888/cgi-bin/lotr?action=time'" None ;;
  let t4 := 0 <? String.length (stdout result) in
  print_test "CGI with query string" t4 "" ;;
  bad_cgi_path <- mkstemp ".py" bad_cgi ;;
  chmod bad_cgi_path ;;
  print_test "CGI error handling" true
    "Manual verification needed for timeout behavior" ;;
  unlink bad_cgi_path ;;
  terminate p ;;
  wait p None ;;
  ret (Some (Py.all [t1; t2; t3; t4; true])).

Definition test_browser_compatibility (self : Tester) : M (option bool) :=
  print_section "BROWSER COMPATIBILITY" ;;
  p <- popen [binary_path self; config_path self] ;;
  modify (set_server_process (Some p)) ;;
  sleep 2 ;;
  result <- run_shell "curl -s -I http://127.0.0.1:8888/" None ;;
  let has_content_type := Py.contains "Content-Type:" (stdout result) in
  let has_content_length := Py.contains "Content-Length:" (stdout result) in
  let has_http_version := Py.contains "HTTP/1.1" (stdout result) in
  let t1 := has_content_type && has_content_length && has_http_version in
  print_test "HTTP headers present" t1 "" ;;
  result <- run_shell (curl_code "http://127.0.0.1:8888/nonexistent") None ;;
  let t2 := Py.contains "404" (stdout result) in
  print_test "404 on wrong URL" t2 "" ;;
  result <- run_shell "curl -s http://127.0.0.1:8888/uploads/" None ;;
  print_test "Directory listing" (0 <? String.length (stdout result))
    (if Py.contains "Directory" (stdout result)
     then "Autoindex on" else "Autoindex off or 404") ;;
  let static_files := ["/style/style.css"; "/favicon.ico"; "/index.html"] in
  static_results <- map_m static_files
    (fun file =>
       result <- run_shell (curl_code ("http://127.0.0.1:8888" ++ file)) None ;;
       let test_passed := Py.contains "200" (stdout result)
                          || Py.contains "404" (stdout result) in
       print_test ("Static file: " ++ file) test_passed "" ;;
       ret test_passed) ;;
  terminate p ;;
  wait p None ;;
  ret (Some (Py.all ([t1; t2; true] ++ static_results)%list)).

(** One server block that listens on the same port twice. *)
Definition duplicate_listen_config : string := "
server {
    host 127.0.0.1;
    listen 8080;
    listen 8080;
    server_name test;
    root ./www/;
    
    location / {
        index index.html;
        allowed_methods GET;
    }
}
".

Definition port_7777_config (name : string) : string := "
server {
    host 127.0.0.1;
    listen 7777;
    server_name " ++ name ++ ";
    root ./www/;
    
    location / {
        index index.html;
        allowed_methods GET;
    }
}
".

(** Test 1 of [test_port_issues]: the SUT is run on the fixture with a
    timeout of 2 and must end with a non-zero code. *)
Definition reject_duplicate_listen (self : Tester) : M bool :=
  path <- mkstemp ".conf" duplicate_listen_config ;;
  rc <- run_sut [binary_path self; path] 2 ;;
  let test_passed := negb (rc =? 0)%Z in
  print_test "Reject duplicate ports in same server" test_passed "" ;;
  unlink path ;;
  ret test_passed.

(** Test 2 of [test_port_issues], up to its verdict: both instances are
    started two units apart and the second is polled two units later.
    Returns both handles and [test_passed]. *)
Definition second_bind_probe (self : Tester) (path1 path2 : string)
  : M (nat * nat * bool) :=
  server1 <- popen [binary_path self; path1] ;;
  sleep 2 ;;
  server2 <- popen [binary_path self; path2] ;;
  sleep 2 ;;
  st <- poll server2 ;;
  let test_passed := match st with Some _ => true | None => false end in
  print_test "Prevent binding to same port twice" test_passed "" ;;
  ret (server1, server2, test_passed).

(** Test 2 of [test_port_issues], with its fixtures and its clean-up. *)
Definition prevent_same_port_twice (self : Tester) : M bool :=
  path1 <- mkstemp ".conf" (port_7777_config "test1") ;;
  path2 <- mkstemp ".conf" (port_7777_config "test2") ;;
  r <- second_bind_probe self path1 path2 ;;
  let '(server1, server2, test_passed) := r in
  terminate server1 ;;
  wait server1 None ;;
  st <- poll server2 ;;
  match st with
  | None => terminate server2 ;; wait server2 None ;; ret tt
  | Some _ => ret tt
  end ;;
  unlink path1 ;;
  unlink path2 ;;
  ret test_passed.

Definition test_port_issues (self : Tester) : M (option bool) :=
  print_section "PORT CONFIGURATION TESTS" ;;
  t1 <- reject_duplicate_listen self ;;
  t2 <- prevent_same_port_twice self ;;
  ret (Some (Py.all [t1; t2])).

(** [x / 1024 / 1024] of a byte count stays exact in floating point, so
    the growth in MB is compared as a rational. *)
Definition megabytes (bytes : Z) : Q := (inject_Z bytes / 1024 / 1024)%Q.

Definition test_stress (self : Tester) : M (option bool) :=
  print_section "STRESS TESTS" ;;
  result <- run_shell "which siege" None ;;
  if negb (returncode result =? 0)%Z
  then print "  Siege not installed. Install with: brew install siege (macOS) or apt-get install siege (Linux)" ;;
       print "  Skipping stress tests" ;;
       ret None
  else
    p <- popen [binary_path self; config_path self] ;;
    modify (set_server_process (Some p)) ;;
    sleep 2 ;;
    initial_rss <- memory_rss p ;;
    let initial_memory := megabytes initial_rss in
    (* Test 1: availability under siege *)
    print "  Running siege test (10 seconds)..." ;;
    result <- run_shell
      "siege -b -t10s http://127.0.0.1:8888/ 2>&1 | grep 'Availability'" None ;;
    t1 <- (if Py.contains "Availability" (stdout result)
           then
             match nth_error (Py.split ":" (stdout result)) 1 with
             | None => raise IndexError
             | Some field =>
                 match Py.float (Py.remove_char "%" (Py.strip field)) with
                 | None => raise ValueError
                 | Some availability =>
                     let test_passed := Qle_bool (995 # 10) availability in
                     print_test "Availability test" test_passed
                       "(need >= 99.5%)" ;;
                     ret test_passed
                 end
             end
           else print_test "Availability test" false
                  "Could not measure availability" ;;
                ret false) ;;
    (* Test 2: memory growth *)
    sleep 2 ;;
    final_rss <- memory_rss p ;;
    let final_memory := megabytes final_rss in
    let memory_increase := (final_memory - initial_memory)%Q in
    let t2 := negb (Qle_bool 50 memory_increase) in
    print_test "Memory stability" t2 "Memory increased" ;;
    (* Test 3: hanging connections *)
    result <- run_shell
      "netstat -an | grep 8888 | grep ESTABLISHED | wc -l" None ;;
    match Py.int (Py.strip (stdout result)) with
    | None => raise ValueError
    | Some established =>
        let t3 := (established <? 10)%Z in
        print_test "No hanging connections" t3
          (Py.str established ++ " established connections") ;;
        terminate p ;;
        wait p None ;;
        ret (Some (Py.all [t1; t2; t3]))
    end.

Definition test_bonus (self : Tester) : M (option bool) :=
  print_section "BONUS FEATURES" ;;
  p <- popen [binary_path self; config_path self] ;;
  modify (set_server_process (Some p)) ;;
  sleep 2 ;;
  result <- run_shell
    "curl -v http://127.0.0.1:8888/register 2>&1 | grep -i 'set-cookie'" None ;;
  let t1 := Py.contains "set-cookie" (Py.lower (stdout result)) in
  print_test "Cookie system" t1 "" ;;
  has_python <- path_exists "www/cgi-bin/lotr.py" ;;
  has_shell <- path_exists "www/cgi-bin/star_wars.sh" ;;
  let t2 := has_python && has_shell in
  print_test "Multiple CGI systems" t2
    ("Python: " ++ (if has_python then "yes" else "no")
     ++ ", Shell: " ++ (if has_shell then "yes" else "no")) ;;
  terminate p ;;
  wait p None ;;
  ret (Some (Py.all [t1; t2])).

(** *** The orchestrator *)

(** The [results] dict: section name to aggregate ([None]: skipped), in
    insertion order. *)
Definition Results : Type := list (string * option bool).

(** [d[k] = v] *)
Fixpoint dict_set (k : string) (v : option bool) (d : Results) : Results :=
  match d with
  | [] => [(k, v)]
  | (k', v') :: r =>
      if (k' =? k)%string then (k, v) :: r else (k', v') :: dict_set k v r
  end.

Fixpoint dict_get (k : string) (d : Results) : option (option bool) :=
  match d with
  | [] => None
  | (k', v) :: r => if (k' =? k)%string then Some v else dict_get k r
  end.

(** The names tested at line 681. *)
Definition MANDATORY : list string :=
  ["Memory Leaks"; "I/O Multiplexing"; "Configuration"; "Basic Checks"].

(** [result == False] *)
Definition is_False (r : option bool) : bool :=
  match r with Some false => true | _ => false end.

(** [r == True] *)
Definition is_True (r : option bool) : bool :=
  match r with Some true => true | _ => false end.

(** [r is not None] *)
Definition is_not_None (r : option bool) : bool :=
  match r with Some _ => true | None => false end.

Definition test_sections (self : Tester) : list (string * M (option bool)) :=
  [ ("Memory Leaks", check_memory_leaks);
    ("I/O Multiplexing", test_io_multiplexing self);
    ("Configuration", test_configuration self);
    ("Basic Checks", test_basic_checks self);
    ("CGI", test_cgi self);
    ("Browser Compatibility", test_browser_compatibility self);
    ("Port Issues", test_port_issues self);
    ("Stress Tests", test_stress self);
    ("Bonus Features", test_bonus self) ].

(** One turn of the loop at lines 675-686, on the pair
    [(results, mandatory_fail)]. *)
Definition run_section (sec : string * M (option bool)) (acc : Results * bool)
  : M (Results * bool) :=
  let (name, test_func) := sec in
  let (results, mandatory_fail) := acc in
  try_except
    (result <- test_func ;;
     ret (dict_set name result results,
          if Py.mem name MANDATORY && is_False result
          then true else mandatory_fail))
    (fun e =>
       print ("Error in " ++ name) ;;
       ret (dict_set name (Some false) results, mandatory_fail)).

(** The loop at lines 675-686. *)
Fixpoint run_sections (secs : list (string * M (option bool)))
                      (acc : Results * bool) : M (Results * bool) :=
  match secs with
  | [] => ret acc
  | sec :: rest => acc' <- run_section sec acc ;; run_sections rest acc'
  end.

Definition impact (name : string) : string :=
  if Py.mem name ["Memory Leaks"; "I/O Multiplexing"] then "GRADE = 0"
  else if Py.mem name ["Configuration"; "Basic Checks"; "CGI"]
  then "Major penalty"
  else if Py.mem name ["Bonus Features"] then "No bonus points"
  else "Minor penalty".

(** The summary table, lines 688-712. *)
Definition print_summary (results : Results) : M unit :=
  print_section "EVALUATION SUMMARY" ;;
  print "Test Section Result Grade Impact" ;;
  print (Py.times "-" 60) ;;
  for_each results
    (fun r =>
       let (name, result) := r in
       match result with
       | None => print (name ++ " SKIPPED N/A")
       | Some true => print (name ++ " PASS ok")
       | Some false => print (name ++ " FAIL " ++ impact name)
       end).

Inductive Verdict := HARD_FAIL | EXCELLENT | GOOD | NEEDS_WORK.

(** The line that announces each verdict. *)
Definition verdict_line (v : Verdict) : string :=
  match v with
  | HARD_FAIL => "MANDATORY PART FAILED - GRADE: 0"
  | EXCELLENT => "EXCELLENT - Ready for evaluation"
  | GOOD => "GOOD - Minor issues to fix"
  | NEEDS_WORK => "NEEDS WORK - Multiple issues found"
  end.

(** [sum(1 for r in results.values() if r == True)] *)
Definition passed_count (results : Results) : nat :=
  length (filter (fun r => is_True (snd r)) results).

(** [sum(1 for r in results.values() if r is not None)] *)
Definition total_count (results : Results) : nat :=
  length (filter (fun r => is_not_None (snd r)) results).

(** [(passed / total * 100) if total > 0 else 0], as a rational.  With at
    most nine sections the quotient is 100, 0, or at least one away from
    both thresholds (see [percentage_clear_of_thresholds]), so the
    floating-point value lands on the same side of 90 and of 70. *)
Definition percentage (passed total : nat) : Q :=
  if 0 <? total
  then (inject_Z (Z.of_nat passed) / inject_Z (Z.of_nat total) * 100)%Q
  else 0%Q.

Definition tier (pct : Q) : Verdict :=
  if Qle_bool 90 pct then EXCELLENT
  else if Qle_bool 70 pct then GOOD
  else NEEDS_WORK.

(** The final verdict, lines 714-731. *)
Definition final_verdict (results : Results) (mandatory_fail : bool) : M unit :=
  print (rule 60) ;;
  if mandatory_fail
  then print (verdict_line HARD_FAIL) ;;
       print "Fix critical issues before resubmission"
  else
    let passed := passed_count results in
    let total := total_count results in
    let pct := percentage passed total in
    (if Qle_bool 90 pct then print (verdict_line EXCELLENT)
     else if Qle_bool 70 pct then print (verdict_line GOOD)
     else print (verdict_line NEEDS_WORK)) ;;
    print ("Score: " ++ Py.str_nat passed ++ "/" ++ Py.str_nat total
           ++ " tests passed").

Definition run_correction_tests (self : Tester) : M unit :=
  print (rule 60) ;;
  print "WEBSERV ADVANCED TESTS" ;;
  print (rule 60) ;;
  print_section "COMPILATION CHECK" ;;
  has_binary <- path_exists (binary_path self) ;;
  if negb has_binary
  then print_test "Binary exists" false
         ("Binary not found at " ++ binary_path self) ;;
       print "Cannot continue without binary"
  else
    print_test "Binary exists" true "" ;;
    has_makefile <- path_exists "Makefile" ;;
    (if has_makefile
     then result <- run_shell "make" None ;;
          result2 <- run_shell "make" None ;;
          let test_passed := Py.contains "Nothing to be done" (stdout result2)
                             || Py.contains "is up to date" (stdout result2) in
          print_test "No re-link issues" test_passed ""
     else ret tt) ;;
    r <- run_sections (test_sections self) ([], false) ;;
    let (results, mandatory_fail) := r in
    print_summary results ;;
    final_verdict results mandatory_fail.

(** The script body: the two path checks, then the run; an exception ends
    in [terminate(); wait()] on the current instance, if there is one.
    [argv0] is [sys.argv[0]]; the value is the exit status of the script:
    1 from [sys.exit(1)] after a failed check, 0 when the body runs to its
    end. *)
Definition main (argv0 : string) (self : Tester) : M Z :=
  has_binary <- path_exists (binary_path self) ;;
  if negb has_binary
  then print ("Error: Binary '" ++ binary_path self ++ "' not found") ;;
       print ("Usage: " ++ argv0 ++ " [webserv_binary] [config_file]") ;;
       print "Make sure to compile the project first with 'make'" ;;
       ret 1%Z
  else
    has_config <- path_exists (config_path self) ;;
    if negb has_config
    then print ("Error: Config file '" ++ config_path self ++ "' not found") ;;
         print ("Usage: " ++ argv0 ++ " [webserv_binary] [config_file]") ;;
         ret 1%Z
    else try_except (run_correction_tests self)
           (fun e =>
              print "Unexpected error" ;;
              sp <- get server_process ;;
              match sp with
              | Some p => terminate p ;; wait p None ;; ret tt
              | None => ret tt
              end) ;;
         ret 0%Z.

(** The verdict a run announced: the latest verdict line in the log. *)
Fixpoint reported_verdict (l : list Event) : option Verdict :=
  match l with
  | [] => None
  | Print line :: r =>
      if (line =? verdict_line HARD_FAIL)%string then Some HARD_FAIL
      else if (line =? verdict_line EXCELLENT)%string then Some EXCELLENT
      else if (line =? verdict_line GOOD)%string then Some GOOD
      else if (line =? verdict_line NEEDS_WORK)%string then Some NEEDS_WORK
      else reported_verdict r
  | _ :: r => reported_verdict r
  end.

End Advanced.

(* ===================================================================== *)
(** ** Scenarios: concrete worlds to run the harness in *)
(* ===================================================================== *)

Module Scenario.

Definition tester : Tester := mkTester "./webserv" "config/example.conf".

Definition site_files : list (string * string) :=
  [ ("./webserv", ""); ("config/example.conf", "");
    ("www/cgi-bin/lotr.py", ""); ("www/cgi-bin/star_wars.sh", "") ].

(** The state a run starts in. *)
Definition boot (w : World) : State :=
  mkState w 0 [] 0 0 0 site_files 0 [] None.

Definition answer (code : Z) (out : string) : ShellResult :=
  mkShell (Some 0) (mkCompleted code out "").

(** A server that runs until it is told to stop, and then stops at once. *)
Definition serving : Behaviour := mkBehaviour None (Some 0).

(** A server that gives up at once with exit code 1. *)
Definition refusing : Behaviour := mkBehaviour (Some (0, 1%Z)) (Some 0).

(** A server that runs on and ignores SIGTERM. *)
Definition stubborn : Behaviour := mkBehaviour None None.

(** What the tools print against a well-behaved server; siege is not
    installed. *)
Definition tools (_ : nat) (cmd : string) : ShellResult :=
  if Py.contains "strace" cmd then answer 0 "epoll_wait(4, [], 64, 1000) = 0"
  else if Py.contains "which siege" cmd then answer 1 ""
  else if Py.contains "set-cookie" cmd then answer 0 "< Set-Cookie: id=1"
  else if Py.contains "%{http_code}" cmd then
    if Py.contains "-X UNKNOWN" cmd then answer 0 "501"
    else if Py.contains "-X INVALID" cmd then answer 0 "405"
    else if Py.contains "-X DELETE" cmd then
      if Py.contains "uploads" cmd then answer 0 "204" else answer 0 "405"
    else if Py.contains "-X POST" cmd then answer 0 "201"
    else if Py.contains "nonexistent" cmd then answer 0 "404"
    else answer 0 "200"
  else if Py.contains "curl -s -I" cmd
  then answer 0 "HTTP/1.1 200 OK Content-Type: text/html Content-Length: 5"
  else if Py.contains "8081" cmd then answer 0 "<h1>Dashboard</h1>"
  else if Py.contains "lotr" cmd then answer 0 "Archives of Middle-earth"
  else if Py.contains "star-wars" cmd then answer 0 "Terminal"
  else answer 0 "<h1>Welcome</h1>".

(** The command line as [pkill -f] sees it: the arguments, separated by
    blanks. *)
Definition command_line (argv : list string) : string :=
  String.concat " " argv.

(** On the command lines of these scenarios the pattern [./webserv]
    matches exactly where it occurs as written. *)
Definition matches (pattern : string) (argv : list string) : bool :=
  Py.contains pattern (command_line argv).

(** A Linux host.  The harness is started without arguments, so its own
    command line does not hold the path of the binary and [pkill] leaves
    it alone. *)
Definition world (launch : nat -> list string -> option Behaviour)
                 (sh : nat -> string -> ShellResult) : World :=
  mkWorld launch sh "linux" (fun _ _ => Some 1048576%Z) matches
          ["python3"; "TesterBasic.py"].

(** The binary exists but cannot be executed: every launch raises. *)
Definition world_noexec : World := world (fun _ _ => None) tools.

(** A conformant server: it serves, except on the fixture with the doubled
    listen (launch 6 of a correction run) and when its port is taken
    (launch 8), where it refuses. *)
Definition world_conformant : World :=
  world (fun n _ => if (n =? 6) || (n =? 8) then Some refusing
                    else Some serving) tools.

(** As [world_conformant], but the launch on the two-server fixture of the
    Configuration section (launch 1) fails with OSError; after it the
    doubled listen is launch 5 and the taken port launch 7. *)
Definition world_config_launch_fails : World :=
  world (fun n _ => if n =? 1 then None
                    else if (n =? 5) || (n =? 7) then Some refusing
                    else Some serving) tools.

(** The server refuses whatever it is given. *)
Definition world_refusing : World := world (fun _ _ => Some refusing) tools.

(** The server never exits by itself and ignores SIGTERM. *)
Definition world_stubborn : World := world (fun _ _ => Some stubborn) tools.

(** curl never comes back. *)
Definition world_silent : World :=
  world (fun _ _ => Some serving)
        (fun _ _ => mkShell None (mkCompleted 0 "" "")).

(** The first launch serves; the second finds the port taken and
    refuses. *)
Definition world_port_taken : World :=
  world (fun n _ => if n =? 1 then Some refusing else Some serving) tools.

(** A tester whose current instance is a running server that ignores
    SIGTERM. *)
Definition holding_stubborn : State :=
  set_server_process (Some 0)
    (set_procs [mkProc ["./webserv"; "config/example.conf"] 0 stubborn
                       None None]
               (boot world_stubborn)).

Definition get_root : string := "curl http://127.0.0.1:8888/".

Definition invalid_method : string := "curl -X INVALID http://127.0.0.1:8888/".

End Scenario.

(* ===================================================================== *)
(** ** Observations: what the theorems read off a run *)
(* ===================================================================== *)

Import Scenario.

(** The state an outcome leaves behind. *)
Definition state_of {A} (r : Res A) : State :=
  match r with
  | Ok _ s => s
  | Raise _ s => s
  | Hang s => s
  | Killed s => s
  end.

(** The value an outcome returns, if it returns. *)
Definition value_of {A} (r : Res A) : option A :=
  match r with
  | Ok a _ => Some a
  | _ => None
  end.

(** A run in which only Bonus Features fails: the CGI scripts the section
    looks for are not there. *)
Definition bare_boot : State :=
  set_files [("./webserv", ""); ("config/example.conf", "")] 0
            (Scenario.boot Scenario.world_conformant).

(** Flattened outcome of the section loop, for concrete runs. *)
Definition sections_outcome (self : Tester) (s : State)
  : Advanced.Results * bool * State :=
  match Advanced.run_sections (Advanced.test_sections self) ([], false) s with
  | Ok (results, mf) s1 => (results, mf, s1)
  | Raise _ s1 => ([], false, s1)
  | Hang s1 => ([], false, s1)
  | Killed s1 => ([], false, s1)
  end.

(** Whether a process that gets SIGTERM at [now] is gone [T] later. *)
Definition exits_after_term (now T : nat) (proc : Proc) : bool :=
  match exit_info (send_term now proc) with
  | Some (t, _) => t <=? now + T
  | None => false
  end.

(** Every wait on a process carries a timeout. *)
Definition waits_bounded (l : list Event) : bool :=
  forallb (fun e => match e with Wait _ None => false | _ => true end) l.

(** The status code [run_curl] reads off the answer to its second call. *)
Definition status_of (r : ShellResult) : string :=
  Py.remove_char "'" (Py.strip (stdout (sh_out r))).

(** Whether a shell command is back within [T]. *)
Definition back_within (r : ShellResult) (T : nat) : bool :=
  match sh_dur r with
  | Some d => d <=? T
  | None => false
  end.

(** The verdict of [run_curl] on a status code. *)
Definition judge (expected_code : option Z) (status_code : string) : bool :=
  if truthy expected_code then (show expected_code =? status_code)%string
  else true.

(** The launch ends by itself within [T] with a non-zero code. *)
Definition rejects_within (b : option Behaviour) (T : nat) : bool :=
  match b with
  | Some b =>
      match self_exit b with
      | Some (d, c) => (d <=? T) && negb (c =? 0)%Z
      | None => false
      end
  | None => false
  end.

(** The path [mkstemp] hands out next. *)
Definition next_temp (s : State) (k : nat) (suffix : string) : string :=
  "/tmp/tmp" ++ Py.str_nat (k + temps s) ++ suffix.

(** Whether a process nobody signals has exited [T] after its launch. *)
Definition exited_within (b : Behaviour) (T : nat) : bool :=
  match self_exit b with
  | Some (d, _) => d <=? T
  | None => false
  end.



(** The harness was started with the path of the binary as its argument,
    so its own command line matches the pattern of [pkill]; the server
    never exits by itself. *)
Definition world_named_binary : World :=
  mkWorld (fun _ _ => Some stubborn) tools "linux"
          (fun _ _ => Some 1048576%Z) matches
          ["python3"; "TesterBasic.py"; "./webserv"; "config/example.conf"].

(** The exception an outcome raises, if it raises. *)
Definition error_of {A} (r : Res A) : option Exn :=
  match r with
  | Raise e _ => Some e
  | _ => None
  end.

(** C4 as stated: the probe passes exactly when the second instance has
    exited and the first is still alive. *)
Definition port_conflict_claim (self : Tester) (path1 path2 : string)
                               (s : State) : Prop :=
  forall server1 server2 passed s',
    Advanced.second_bind_probe self path1 path2 s
    = Ok (server1, server2, passed) s' ->
    (passed = true <-> alive s' server2 = false /\ alive s' server1 = true).

(** C5 as stated, on the stop path of [test_io_multiplexing]: every wait
    on the process carries a timeout. *)
Definition bounded_stop_claim (self : Tester) (s : State) : Prop :=
  waits_bounded (log (state_of (Advanced.test_io_multiplexing self s))) = true.

(** The acceptable answers to a malformed method. *)
Definition acceptable (status : string) : bool :=
  Py.mem status ["400"; "405"; "501"].

Definition unknown_method : string :=
  Advanced.curl_code "-X UNKNOWN http://127.0.0.1:8888/".

(** C7 as stated, on the INVALID-method probe of [test_error_codes]: the
    probe passes exactly when the status code is 400, 405 or 501. *)
Definition malformed_method_claim (s : State) : Prop :=
  forall passed s',
    Basic.run_curl invalid_method (Some 400%Z) s = Ok passed s' ->
    passed = acceptable
               (status_of (shell (env s) (S (shell_calls s))
                                 (invalid_method ++ Basic.status_suffix))).

(** C9 as stated: every probe through [run_curl] runs its command
    twice. *)
Definition runs_twice_claim (command : string) (expected_code : option Z)
                            (s : State) : Prop :=
  shell_calls (state_of (Basic.run_curl command expected_code s))
  = S (S (shell_calls s)).

(** *** What the tests leave behind *)

(** The part of the state a probe leaves alone: the world, the process
    table, the files and the tester's handle. *)
Definition same_world (s s' : State) : Prop :=
  env s' = env s /\ procs s' = procs s /\ launches s' = launches s
  /\ files s' = files s /\ temps s' = temps s
  /\ server_process s' = server_process s.

(** The number of [True] in a list of verdicts. *)
Definition count_True (rs : list bool) : nat := length (filter (fun b => b) rs).

(** The probes of a table, run one after the other, with their verdicts. *)
Definition probe_all (tests : list (string * Z)) : M (list bool) :=
  map_m tests (fun t => Basic.run_curl (fst t) (Some (snd t))).

(** The process side of the state: what launching, signalling and the
    tester's handle touch. *)
Definition same_processes (s s' : State) : Prop :=
  env s' = env s /\ procs s' = procs s /\ launches s' = launches s
  /\ server_process s' = server_process s.

(** The files left when the files named [paths] are removed. *)
Definition without (paths : list string) (fs : list (string * string))
  : list (string * string) :=
  filter (fun f => negb (Py.mem (fst f) paths)) fs.

(** The names of the five files [test_file_uploads] creates. *)
Definition upload_paths (s : State) : list string :=
  map (fun k => next_temp s k ".txt") [4; 3; 2; 1; 0].

(** Every process at position [n] or later in the table has exited by
    [now]. *)
Definition dead_from (n now : nat) (ps : list Proc) : Prop :=
  forall pid p, n <= pid -> nth_error ps pid = Some p -> code_at now p <> None.

(** The names of the three fixtures [test_config_errors] writes. *)
Definition config_error_paths (s : State) : list string :=
  map (fun k => next_temp s k ".conf") [2; 1; 0].

(** The [try] block of [test_multiple_servers], by itself. *)
Definition multiple_servers_try (self : Tester) (path2 : string) : M bool :=
  server2 <- popen [binary_path self; path2] ;;
  sleep 2 ;;
  result1 <- Basic.run_curl "curl http://127.0.0.1:8888/" (Some 200%Z) ;;
  result2 <- Basic.run_curl "curl http://127.0.0.1:9999/" (Some 200%Z) ;;
  passed <- (if result1 && result2
             then print "Both servers responding correctly" ;; ret true
             else print "One or both servers not responding" ;; ret false) ;;
  terminate server2 ;;
  wait server2 (Some 5) ;;
  ret passed.

(** What the [try] block leaves alone, and how long it may take. *)
Definition multiple_servers_frame (s s' : State) : Prop :=
  env s' = env s /\ files s' = files s /\ temps s' = temps s
  /\ server_process s' = server_process s
  /\ clock s <= clock s' <= clock s + 27.

(** The current instance, if the tester holds one, is not running. *)
Definition instance_stopped (s : State) : Prop :=
  match server_process s with
  | Some p => alive s p = false
  | None => True
  end.

(** A step that leaves the process table and the tester's handle alone,
    however it ends. *)
Definition quiet {A} (m : M A) : Prop :=
  forall s, procs (state_of (m s)) = procs s
            /\ server_process (state_of (m s)) = server_process s.

(** Whenever [m] returns, process [p] has exited and the handle is what
    it was. *)
Definition ends_stopped {A} (p : nat) (m : M A) : Prop :=
  forall s a s', m s = Ok a s' ->
    server_process s' = server_process s /\ alive s' p = false.

(** Whenever [m] returns, the tester's handle names the process [m]
    launched [k] places after the end of the table it started from, and
    that process has exited. *)
Definition stops_launched {A} (k : nat) (m : M A) : Prop :=
  forall s a s', m s = Ok a s' ->
    server_process s' = Some (k + length (procs s))
    /\ alive s' (k + length (procs s)) = false.

(** Whenever [m] raises, no process has been signalled or launched and the
    handle is what it was. *)
Definition raise_keeps {A} (m : M A) : Prop :=
  forall s e s', m s = Raise e s' ->
    procs s' = procs s /\ server_process s' = server_process s.

(** A server whose system-call trace shows no select, poll or epoll: the
    tools print nothing. *)
Definition world_blocking_io : World :=
  world (fun _ _ => Some serving) (fun _ _ => answer 0 "").

(** siege is installed and writes its figures with a decimal comma, which
    [float] does not read; the server serves until it is told to stop. *)
Definition world_siege_decimal_comma : World :=
  world (fun _ _ => Some serving)
        (fun _ cmd => if Py.contains "which siege" cmd
                      then answer 0 "/usr/bin/siege"
                      else if Py.contains "Availability" cmd
                      then answer 0 "Availability: 100,00 %"
                      else answer 0 "0").

(* ===================================================================== *)
(** ** Equations of the monad and of the primitives *)
(* ===================================================================== *)

Lemma bind_Ok {A B} (m : M A) (k : A -> M B) s a s' :
  m s = Ok a s' -> bind m k s = k a s'.
Proof. intros H. unfold bind. rewrite H. reflexivity. Qed.

Lemma bind_Raise {A B} (m : M A) (k : A -> M B) s e s' :
  m s = Raise e s' -> bind m k s = Raise e s'.
Proof. intros H. unfold bind. rewrite H. reflexivity. Qed.

Lemma bind_Hang {A B} (m : M A) (k : A -> M B) s s' :
  m s = Hang s' -> bind m k s = Hang s'.
Proof. intros H. unfold bind. rewrite H. reflexivity. Qed.

Lemma bind_Killed {A B} (m : M A) (k : A -> M B) s s' :
  m s = Killed s' -> bind m k s = Killed s'.
Proof. intros H. unfold bind. rewrite H. reflexivity. Qed.

Lemma bind_assoc {A B C} (m : M A) (k : A -> M B) (k' : B -> M C) s :
  bind (bind m k) k' s = bind m (fun x => bind (k x) k') s.
Proof. unfold bind. destruct (m s); reflexivity. Qed.

(** Runs the next statement when it computes. *)
Ltac step := erewrite bind_Ok by reflexivity.

Lemma print_eq line s : print line s = Ok tt (emit (Print line) s).
Proof. reflexivity. Qed.

Lemma nth_error_snoc {A} (l : list A) (x : A) :
  nth_error (l ++ [x]) (length l) = Some x.
Proof. induction l as [|y l IH]; simpl; [reflexivity | exact IH]. Qed.

Lemma nth_error_update_nth {A} (f : A -> A) (l : list A) n x :
  nth_error l n = Some x -> nth_error (update_nth n f l) n = Some (f x).
Proof.
  revert n. induction l as [|y l IH]; intros [|n] H; simpl in *;
    try discriminate.
  - injection H as ->. reflexivity.
  - apply IH. exact H.
Qed.

(** The earliest exit is no later than any single cause of exit. *)
Lemma earlier_le_l t c b :
  exists u d, earlier (Some (t, c)) b = Some (u, d) /\ u <= t.
Proof.
  destruct b as [[u d]|]; simpl.
  - destruct (t <=? u) eqn:E.
    + exists t, c. split; [reflexivity | lia].
    + apply Nat.leb_gt in E. exists u, d. split; [reflexivity | lia].
  - exists t, c. split; [reflexivity | lia].
Qed.

Lemma earlier_le_r a t c :
  exists u d, earlier a (Some (t, c)) = Some (u, d) /\ u <= t.
Proof.
  destruct a as [[u d]|]; simpl.
  - destruct (u <=? t) eqn:E.
    + apply Nat.leb_le in E. exists u, d. split; [reflexivity | exact E].
    + exists t, c. split; [reflexivity | lia].
  - exists t, c. split; [reflexivity | lia].
Qed.

(** Once SIGKILL is sent the process is gone. *)
Lemma killed_is_dead now p : exists c, code_at now (send_kill now p) = Some c.
Proof.
  unfold send_kill. destruct (code_at now p) as [c|] eqn:E.
  - exists c. exact E.
  - unfold code_at, exit_info. cbn [p_kill p_term p_beh p_start].
    match goal with
    | |- context [earlier ?a (earlier ?b (Some (now, ?k)))] =>
        destruct (earlier_le_r b now k) as (u & d & Hu & Hle); rewrite Hu;
        destruct (earlier_le_r a u d) as (v & e & Hv & Hle'); rewrite Hv
    end.
    assert (Hv' : (v <=? now) = true) by (apply Nat.leb_le; lia).
    rewrite Hv'. exists e. reflexivity.
Qed.

(* ===================================================================== *)
(** ** The orchestrator: sections, gate, score *)
(* ===================================================================== *)

Section Orchestrator.

Import Advanced.

Lemma dict_get_set_same k v d : dict_get k (dict_set k v d) = Some v.
Proof.
  induction d as [|[k' v'] d IH]; simpl.
  - rewrite String.eqb_refl. reflexivity.
  - destruct (k' =? k)%string eqn:E; simpl.
    + rewrite String.eqb_refl. reflexivity.
    + rewrite E. exact IH.
Qed.

Lemma dict_get_set_other k k' v d :
  k <> k' -> dict_get k (dict_set k' v d) = dict_get k d.
Proof.
  intros Hne. induction d as [|[k2 v2] d IH]; simpl.
  - destruct (k' =? k)%string eqn:E; [|reflexivity].
    apply String.eqb_eq in E. congruence.
  - destruct (k2 =? k')%string eqn:E2; simpl.
    + apply String.eqb_eq in E2. subst k2.
      destruct (k' =? k)%string eqn:E; [|reflexivity].
      apply String.eqb_eq in E. congruence.
    + destruct (k2 =? k)%string; [reflexivity | exact IH].
Qed.

Lemma keys_dict_set_new k v d :
  dict_get k d = None -> map fst (dict_set k v d) = (map fst d ++ [k])%list.
Proof.
  induction d as [|[k' v'] d IH]; simpl; intros H; [reflexivity|].
  destruct (k' =? k)%string; [discriminate|].
  simpl. rewrite IH by exact H. reflexivity.
Qed.

(** What one turn of the loop does, by the outcome of the section. *)
Lemma run_section_eq name f results mf s :
  run_section (name, f) (results, mf) s =
  match f s with
  | Ok v s' =>
      Ok (dict_set name v results,
          if Py.mem name MANDATORY && is_False v then true else mf) s'
  | Raise e s' =>
      Ok (dict_set name (Some false) results, mf)
         (emit (Print ("Error in " ++ name)) s')
  | Hang s' => Hang s'
  | Killed s' => Killed s'
  end.
Proof.
  unfold run_section, try_except, bind, ret, print, modify.
  destruct (f s); reflexivity.
Qed.

(** A turn of the loop writes its own key and nothing else; the flag is
    either left alone or raised by a mandatory section that returned
    [False]. *)
Lemma run_section_inv name f results mf s r s' :
  run_section (name, f) (results, mf) s = Ok r s' ->
  exists v flag,
    r = (dict_set name v results, flag)
    /\ (flag = mf
        \/ (flag = true /\ Py.mem name MANDATORY = true /\ v = Some false)).
Proof.
  rewrite run_section_eq. destruct (f s) as [v s1|e s1|s1|s1]; intros H;
    try discriminate.
  - injection H as <- _.
    exists v, (if Py.mem name MANDATORY && is_False v then true else mf).
    split; [reflexivity|].
    destruct (Py.mem name MANDATORY); [|left; reflexivity].
    destruct v as [[|]|]; cbn [andb is_False]; auto.
  - injection H as <- _. exists (Some false), mf. auto.
Qed.

(** The sibling paths of the loop body, side by side: a mandatory section
    that returns [False] raises the flag ... *)
Lemma returned_False_raises_flag name f results mf s s' :
  Py.mem name MANDATORY = true ->
  f s = Ok (Some false) s' ->
  run_section (name, f) (results, mf) s
  = Ok (dict_set name (Some false) results, true) s'.
Proof.
  intros Hm Hf. rewrite run_section_eq, Hf, Hm. reflexivity.
Qed.

(** ... and one that raises an exception is recorded as [False] with the
    flag left as it was. *)
Lemma raised_exception_keeps_flag name f results mf s e s' :
  f s = Raise e s' ->
  run_section (name, f) (results, mf) s
  = Ok (dict_set name (Some false) results, mf)
       (emit (Print ("Error in " ++ name)) s').
Proof.
  intros Hf. rewrite run_section_eq, Hf. reflexivity.
Qed.

Lemma run_sections_cons sec rest acc s :
  run_sections (sec :: rest) acc s
  = bind (run_section sec acc) (run_sections rest) s.
Proof. reflexivity. Qed.

(** The loop leaves alone the keys of sections it does not run. *)
Lemma run_sections_keeps secs : forall results mf s results' mf' s' k,
  run_sections secs (results, mf) s = Ok (results', mf') s' ->
  ~ In k (map fst secs) ->
  dict_get k results' = dict_get k results.
Proof.
  induction secs as [|[name f] rest IH]; intros results mf s results' mf' s' k H Hk.
  - injection H as <- _ _. reflexivity.
  - rewrite run_sections_cons in H. unfold bind in H.
    destruct (run_section (name, f) (results, mf) s) as [[r1 m1] s1| | |] eqn:E;
      try discriminate.
    apply run_section_inv in E. destruct E as (v & flag & Er & _).
    injection Er as -> ->.
    rewrite (IH _ _ _ _ _ _ k H).
    + apply dict_get_set_other. intros ->. apply Hk. left. reflexivity.
    + intros Hin. apply Hk. right. exact Hin.
Qed.

(** The dict ends up with one key per section, in the order of the list. *)
Lemma run_sections_keys secs : forall results mf s results' mf' s',
  run_sections secs (results, mf) s = Ok (results', mf') s' ->
  NoDup (map fst secs) ->
  (forall k, In k (map fst secs) -> dict_get k results = None) ->
  map fst results' = (map fst results ++ map fst secs)%list.
Proof.
  induction secs as [|[name f] rest IH]; intros results mf s results' mf' s' H Hnd Hnew.
  - injection H as <- _ _. simpl. rewrite app_nil_r. reflexivity.
  - rewrite run_sections_cons in H. unfold bind in H.
    destruct (run_section (name, f) (results, mf) s) as [[r1 m1] s1| | |] eqn:E;
      try discriminate.
    apply run_section_inv in E. destruct E as (v & flag & Er & _).
    injection Er as -> ->.
    simpl in Hnd. inversion Hnd as [|? ? Hnotin Hnd']; subst.
    rewrite (IH _ _ _ _ _ _ H Hnd').
    + rewrite keys_dict_set_new by (apply Hnew; left; reflexivity).
      simpl. rewrite <- app_assoc. reflexivity.
    + intros k Hk. rewrite dict_get_set_other.
      * apply Hnew. right. exact Hk.
      * intros ->. apply Hnotin. exact Hk.
Qed.


Lemma section_names self :
  map fst (test_sections self)
  = ["Memory Leaks"; "I/O Multiplexing"; "Configuration"; "Basic Checks";
     "CGI"; "Browser Compatibility"; "Port Issues"; "Stress Tests";
     "Bonus Features"].
Proof. reflexivity. Qed.

Lemma section_names_NoDup self : NoDup (map fst (test_sections self)).
Proof.
  rewrite section_names.
  repeat (constructor; [simpl; intuition discriminate|]). constructor.
Qed.

Lemma percentage_ge (k : Z) passed total :
  0 < total ->
  Qle_bool (inject_Z k) (percentage passed total)
  = (k * Z.of_nat total <=? 100 * Z.of_nat passed)%Z.
Proof.
  intros Ht. unfold percentage.
  destruct total as [|n]; [lia|].
  change (0 <? S n) with true. cbv iota.
  rewrite Nat2Z.inj_succ, <- Zpos_P_of_succ_nat.
  unfold Qle_bool, Qdiv, Qmult, Qinv, inject_Z.
  cbn [Qnum Qden].
  rewrite Pos.mul_1_l, Pos.mul_1_r, !Z.mul_1_r.
  f_equal. lia.
Qed.

Lemma tier_spec passed total :
  0 < total ->
  tier (percentage passed total)
  = if 90 * total <=? 100 * passed then EXCELLENT
    else if 70 * total <=? 100 * passed then GOOD
    else NEEDS_WORK.
Proof.
  intros Ht. unfold tier.
  change 90%Q with (inject_Z 90). change 70%Q with (inject_Z 70).
  rewrite !percentage_ge by exact Ht.
  destruct (90 * total <=? 100 * passed) eqn:E90.
  - apply Nat.leb_le in E90.
    assert (H : (90 * Z.of_nat total <=? 100 * Z.of_nat passed)%Z = true)
      by (apply Z.leb_le; lia).
    rewrite H. reflexivity.
  - apply Nat.leb_gt in E90.
    assert (H : (90 * Z.of_nat total <=? 100 * Z.of_nat passed)%Z = false)
      by (apply Z.leb_gt; lia).
    rewrite H.
    destruct (70 * total <=? 100 * passed) eqn:E70.
    + apply Nat.leb_le in E70.
      assert (H' : (70 * Z.of_nat total <=? 100 * Z.of_nat passed)%Z = true)
        by (apply Z.leb_le; lia).
      rewrite H'. reflexivity.
    + apply Nat.leb_gt in E70.
      assert (H' : (70 * Z.of_nat total <=? 100 * Z.of_nat passed)%Z = false)
        by (apply Z.leb_gt; lia).
      rewrite H'. reflexivity.
Qed.


Lemma percentage_le (k : Z) passed total :
  0 < total ->
  Qle_bool (percentage passed total) (inject_Z k)
  = (100 * Z.of_nat passed <=? k * Z.of_nat total)%Z.
Proof.
  intros Ht. unfold percentage.
  destruct total as [|n]; [lia|].
  change (0 <? S n) with true. cbv iota.
  rewrite Nat2Z.inj_succ, <- Zpos_P_of_succ_nat.
  unfold Qle_bool, Qdiv, Qmult, Qinv, inject_Z.
  cbn [Qnum Qden].
  rewrite Pos.mul_1_l, Pos.mul_1_r, !Z.mul_1_r.
  f_equal. lia.
Qed.

(** Why the rational percentage decides as the floating-point one does:
    with at most nine sections it is exactly 100 or at most 89, and at
    most 69 or at least 71, so it is never within rounding distance of a
    threshold without being on the passing side. *)
Lemma percentage_clear_of_thresholds passed total :
  passed <= total -> 0 < total -> total <= 9 ->
  (percentage passed total == 100 \/ percentage passed total <= 89)%Q
  /\ (percentage passed total <= 69 \/ 71 <= percentage passed total)%Q.
Proof.
  intros Hle Hpos H9.
  assert (Hnat : (100 * passed = 100 * total
                  \/ 100 * passed + total <= 90 * total)
                 /\ (100 * passed + total <= 70 * total
                     \/ 71 * total <= 100 * passed)).
  { do 10 (destruct total as [|total]; [ lia |]); lia. }
  destruct Hnat as [H90 H70]. split.
  - destruct H90 as [Heq | Hlow].
    + left. apply Qle_antisym.
      * apply Qle_bool_iff. change 100%Q with (inject_Z 100).
        rewrite percentage_le by exact Hpos. apply Z.leb_le. lia.
      * apply Qle_bool_iff. change 100%Q with (inject_Z 100).
        rewrite percentage_ge by exact Hpos. apply Z.leb_le. lia.
    + right. apply Qle_bool_iff. change 89%Q with (inject_Z 89).
      rewrite percentage_le by exact Hpos. apply Z.leb_le. lia.
  - destruct H70 as [Hlow | Hhigh].
    + left. apply Qle_bool_iff. change 69%Q with (inject_Z 69).
      rewrite percentage_le by exact Hpos. apply Z.leb_le. lia.
    + right. apply Qle_bool_iff. change 71%Q with (inject_Z 71).
      rewrite percentage_ge by exact Hpos. apply Z.leb_le. lia.
Qed.

(** The verdict block prints the gate line when the flag is up, and
    otherwise the tier of the percentage followed by the score. *)
Lemma final_verdict_eq results mandatory_fail s :
  final_verdict results mandatory_fail s =
  if mandatory_fail
  then Ok tt (emit (Print "Fix critical issues before resubmission")
                (emit (Print (verdict_line HARD_FAIL))
                   (emit (Print (rule 60)) s)))
  else Ok tt (emit (Print ("Score: " ++ Py.str_nat (passed_count results)
                           ++ "/" ++ Py.str_nat (total_count results)
                           ++ " tests passed"))
                (emit (Print (verdict_line
                                (tier (percentage (passed_count results)
                                                  (total_count results)))))
                   (emit (Print (rule 60)) s))).
Proof.
  unfold final_verdict, tier, bind, print, modify.
  destruct mandatory_fail; [reflexivity|].
  destruct (Qle_bool 90 _); [reflexivity|].
  destruct (Qle_bool 70 _); reflexivity.
Qed.

Lemma passed_le_total results : passed_count results <= total_count results.
Proof.
  unfold passed_count, total_count.
  induction results as [|[k [[|]|]] r IH]; simpl; lia.
Qed.

Lemma total_le_length results : total_count results <= length results.
Proof. unfold total_count. apply filter_length_le. Qed.

(** C1 (as the code has it): with a binary that exists but cannot be
    executed every launch raises OSError; the three mandatory sections that
    launch the server are recorded as [False] through the [except] branch,
    the flag stays down, and the run ends on the NEEDS WORK verdict with a
    score of 0/7 instead of the mandatory-failure verdict. *)
Theorem mandatory_sections_raising_miss_the_gate :
  let s0 := Scenario.boot Scenario.world_noexec in
  value_of (run_sections (test_sections Scenario.tester) ([], false) s0)
  = Some ([ ("Memory Leaks", None); ("I/O Multiplexing", Some false);
            ("Configuration", Some false); ("Basic Checks", Some false);
            ("CGI", Some false); ("Browser Compatibility", Some false);
            ("Port Issues", Some false); ("Stress Tests", None);
            ("Bonus Features", Some false) ], false)
  /\ value_of (run_correction_tests Scenario.tester s0) = Some tt
  /\ reported_verdict (log (state_of (run_correction_tests Scenario.tester s0)))
     = Some NEEDS_WORK
  /\ In (Print "I/O Multiplexing FAIL GRADE = 0")
        (log (state_of (run_correction_tests Scenario.tester s0)))
  /\ hd_error (log (state_of (run_correction_tests Scenario.tester s0)))
     = Some (Print "Score: 0/7 tests passed").
Proof.
  cbv zeta.
  split; [vm_compute; reflexivity|].
  split; [vm_compute; reflexivity|].
  split; [vm_compute; reflexivity|].
  split; [|vm_compute; reflexivity].
  vm_compute. tauto.
Qed.

(** The same slip with every other section passing: only the launch on the
    Configuration section's own fixture fails; Configuration is recorded as
    [False], and the run is graded GOOD with 6/7. *)
Lemma configuration_raising_is_graded_good :
  let s0 := Scenario.boot Scenario.world_config_launch_fails in
  value_of (run_sections (test_sections Scenario.tester) ([], false) s0)
  = Some ([ ("Memory Leaks", None); ("I/O Multiplexing", Some true);
            ("Configuration", Some false); ("Basic Checks", Some true);
            ("CGI", Some true); ("Browser Compatibility", Some true);
            ("Port Issues", Some true); ("Stress Tests", None);
            ("Bonus Features", Some true) ], false)
  /\ reported_verdict (log (state_of (run_correction_tests Scenario.tester s0)))
     = Some GOOD
  /\ hd_error (log (state_of (run_correction_tests Scenario.tester s0)))
     = Some (Print "Score: 6/7 tests passed").
Proof.
  cbv zeta.
  split; [vm_compute; reflexivity|].
  split; vm_compute; reflexivity.
Qed.

(** What the claim asks for does hold on the path where the section
    returns: a mandatory section with [False] in the dict and the flag
    raised by the loop give the mandatory-failure verdict. *)
Lemma raised_flag_is_hard_fail results s :
  reported_verdict (log (state_of (final_verdict results true s)))
  = Some HARD_FAIL.
Proof. rewrite final_verdict_eq. reflexivity. Qed.



(** C8: [check_memory_leaks] does nothing but print its header and returns
    [None]; its turn of the loop stores [None] under Memory Leaks and
    leaves the flag as it was; and in every run of the nine sections that
    completes, Memory Leaks is the first entry of the dict, skipped, and
    contributes nothing to the denominator of the score. *)
Theorem memory_leaks_always_skipped :
  (forall s,
      check_memory_leaks s
      = Ok None (emit (Print (rule 60))
                   (emit (Print "MEMORY LEAK CHECK")
                      (emit (Print (rule 60)) s))))
  /\ (forall results mf s,
         run_section ("Memory Leaks", check_memory_leaks) (results, mf) s
         = Ok (dict_set "Memory Leaks" None results, mf)
              (emit (Print (rule 60))
                 (emit (Print "MEMORY LEAK CHECK")
                    (emit (Print (rule 60)) s))))
  /\ (forall self s results mf s1,
         run_sections (test_sections self) ([], false) s
         = Ok (results, mf) s1 ->
         hd_error results = Some ("Memory Leaks", None)
         /\ dict_get "Memory Leaks" results = Some None
         /\ total_count results = total_count (tl results)
         /\ total_count results <= 8).
Proof.
  split; [reflexivity|]. split.
  { intros results mf s. rewrite run_section_eq. reflexivity. }
  intros self s results mf s1 Hrun.
  assert (Hkeys : map fst results = map fst (test_sections self)).
  { apply (run_sections_keys _ _ _ _ _ _ _ Hrun (section_names_NoDup self)).
    intros k _. reflexivity. }
  assert (Hget : dict_get "Memory Leaks" results = Some None).
  { change (test_sections self)
      with (("Memory Leaks", check_memory_leaks) :: tl (test_sections self))
      in Hrun.
    rewrite run_sections_cons in Hrun.
    erewrite bind_Ok in Hrun
      by (rewrite run_section_eq; reflexivity).
    rewrite (run_sections_keeps _ _ _ _ _ _ _ "Memory Leaks" Hrun).
    - apply dict_get_set_same.
    - simpl. intuition discriminate. }
  rewrite section_names in Hkeys.
  destruct results as [|[k v] rest]; [discriminate|].
  simpl in Hkeys. injection Hkeys as -> Hrest.
  simpl in Hget. injection Hget as ->.
  repeat split.
  assert (Hlen : length rest = 8).
  { rewrite <- (length_map fst), Hrest. reflexivity. }
  unfold total_count at 1. simpl. fold (total_count rest).
  rewrite <- Hlen. apply total_le_length.
Qed.

(** C8 at work, on the run against a conformant server. *)
Lemma memory_leaks_always_skipped_witness :
  let '(results, _, _) :=
    sections_outcome Scenario.tester (Scenario.boot Scenario.world_conformant) in
  hd_error results = Some ("Memory Leaks", None)
  /\ dict_get "Memory Leaks" results = Some None
  /\ total_count results = total_count (tl results)
  /\ total_count results <= 8.
Proof.
  assert (Hval : value_of (run_sections (test_sections Scenario.tester)
                             ([], false)
                             (Scenario.boot Scenario.world_conformant))
                 <> None)
    by (vm_compute; discriminate).
  unfold sections_outcome.
  destruct (run_sections (test_sections Scenario.tester) ([], false)
              (Scenario.boot Scenario.world_conformant))
    as [[results mf] s1|e s1|s1|s1] eqn:Hrun;
    try (exfalso; apply Hval; reflexivity).
  exact (proj2 (proj2 memory_leaks_always_skipped)
           Scenario.tester (Scenario.boot Scenario.world_conformant)
           results mf s1 Hrun).
Defined.

End Orchestrator.

(* ===================================================================== *)
(** ** Process lifecycle: start and stop *)
(* ===================================================================== *)

Lemma popen_Some argv s b :
  sut (env s) (launches s) argv = Some b ->
  popen argv s
  = Ok (length (procs s))
       (set_procs (procs s ++ [mkProc argv (clock s) b None None])
          (set_launches (S (launches s)) (emit (Popen argv) s))).
Proof. intros H. unfold popen. rewrite H. reflexivity. Qed.

Lemma poll_eq pid s proc :
  proc_of s pid = Some proc -> poll pid s = Ok (code_at (clock s) proc) s.
Proof. intros H. unfold poll, get. rewrite H. reflexivity. Qed.

(** A process no signal was sent to exits when it decides to. *)
Lemma fresh_code_at {argv} now start b :
  code_at now (mkProc argv start b None None)
  = match self_exit b with
    | Some (d, c) => if start + d <=? now then Some c else None
    | None => None
    end.
Proof.
  unfold code_at, exit_info. simpl.
  destruct (self_exit b) as [[d c]|]; reflexivity.
Qed.

Lemma start_server_dead self s b d c :
  sut (env s) (launches s) [binary_path self; config_path self] = Some b ->
  self_exit b = Some (d, c) -> d <= 3 ->
  exists s',
    Basic.start_server self s = Ok false s'
    /\ log s' = ([ Print "Server failed to start"; Sleep 3;
                  Popen [binary_path self; config_path self];
                  Print ("Starting webserv with config: " ++ config_path self) ]
                ++ log s)%list
    /\ shell_calls s' = shell_calls s
    /\ launches s' = S (launches s).
Proof.
  intros Hsut Hexit Hd. unfold Basic.start_server.
  step. erewrite bind_Ok by (apply popen_Some; exact Hsut).
  step. step.
  erewrite bind_Ok.
  2:{ apply poll_eq. unfold proc_of.
      cbn [procs set_clock emit set_server_process set_procs].
      apply nth_error_snoc. }
  cbn [clock set_clock emit set_server_process set_procs set_launches].
  rewrite fresh_code_at, Hexit.
  assert (E : (clock s + d <=? clock s + 3) = true) by (apply Nat.leb_le; lia).
  rewrite E. step. eexists. split; [reflexivity|].
  repeat split.
Qed.

(** C10: when the server has exited by the end of the settle window of 3
    that follows its launch, [run_all_tests] prints its two failure
    messages and returns: the trace of the run is the banner, the launch,
    the sleep and those two messages, no curl command is issued, no second
    launch is made, and no summary is printed. *)
Theorem early_exit_aborts_run self s b d c :
  sut (env s) (launches s) [binary_path self; config_path self] = Some b ->
  self_exit b = Some (d, c) -> d <= 3 ->
  exists s',
    Basic.run_all_tests self s = Ok tt s'
    /\ log s' = ([ Print "Failed to start server, aborting tests";
                  Print "Server failed to start"; Sleep 3;
                  Popen [binary_path self; config_path self];
                  Print ("Starting webserv with config: " ++ config_path self);
                  Print (Basic.rule 60); Print "WEBSERV GENERAL TESTS";
                  Print (Basic.rule 60) ]
                ++ log s)%list
    /\ shell_calls s' = shell_calls s
    /\ launches s' = S (launches s).
Proof.
  intros Hsut Hexit Hd. unfold Basic.run_all_tests.
  do 3 step.
  destruct (start_server_dead self
              (emit (Print (Basic.rule 60))
                 (emit (Print "WEBSERV GENERAL TESTS")
                    (emit (Print (Basic.rule 60)) s))) b d c Hsut Hexit Hd)
    as (s' & Hstart & Hlog & Hsh & Hl).
  erewrite bind_Ok by exact Hstart.
  cbn [negb]. cbv iota.
  eexists. split; [reflexivity|].
  cbn [log emit shell_calls launches]. rewrite Hlog, Hsh, Hl.
  repeat split.
Qed.

Lemma wait_timeout_eq pid T s proc :
  proc_of s pid = Some proc ->
  wait pid (Some T) s =
  match exit_info proc with
  | Some (t, c) =>
      if t <=? clock s + T
      then Ok c (set_clock (Nat.max (clock s) t) (emit (Wait pid (Some T)) s))
      else Raise TimeoutExpired
             (set_clock (clock s + T) (emit (Wait pid (Some T)) s))
  | None =>
      Raise TimeoutExpired
        (set_clock (clock s + T) (emit (Wait pid (Some T)) s))
  end.
Proof.
  intros H. unfold wait. rewrite H.
  destruct (exit_info proc) as [[t c]|]; reflexivity.
Qed.

Lemma stop_server_running s p proc :
  server_process s = Some p ->
  proc_of s p = Some proc ->
  exists s',
    Basic.stop_server s = Ok tt s'
    /\ server_process s' = None
    /\ alive s' p = false
    /\ clock s <= clock s' <= clock s + 5
    /\ log s'
       = ((if exits_after_term (clock s) 5 proc
           then [Print "Server stopped"]
           else [Print "Server killed"; Kill p])
          ++ [Wait p (Some 5); Terminate p; Print "Stopping server..."]
          ++ log s)%list.
Proof.
  intros Hsp Hproc. unfold Basic.stop_server.
  erewrite bind_Ok by (unfold get; rewrite Hsp; reflexivity).
  cbv beta iota. step. step.
  set (s2 := set_procs _ _).
  assert (Hp2 : proc_of s2 p = Some (send_term (clock s) proc)).
  { unfold proc_of, s2. cbn [procs set_procs emit clock].
    apply nth_error_update_nth. exact Hproc. }
  assert (Hc2 : clock s2 = clock s) by reflexivity.
  unfold exits_after_term.
  unfold bind at 1. unfold try_except, bind at 1.
  rewrite (wait_timeout_eq _ _ _ _ Hp2), Hc2.
  destruct (exit_info (send_term (clock s) proc)) as [[t c]|] eqn:Hex.
  - destruct (t <=? clock s + 5) eqn:Ht.
    + apply Nat.leb_le in Ht.
      eexists. split; [reflexivity|].
      cbn [server_process set_server_process log emit set_clock clock].
      split; [reflexivity|]. split.
      { unfold alive, proc_of.
        cbn [procs set_server_process emit set_clock clock]. 
        fold (proc_of s2 p). rewrite Hp2. unfold code_at. rewrite Hex.
        assert (E : (t <=? Nat.max (clock s) t) = true)
          by (apply Nat.leb_le; lia).
        rewrite E. reflexivity. }
      split; [lia | reflexivity].
    + eexists. split; [reflexivity|].
      cbn [server_process set_server_process log emit set_clock clock
           set_procs procs].
      split; [reflexivity|]. split.
      { unfold alive, proc_of.
        cbn [procs set_server_process emit set_clock clock set_procs].
        erewrite nth_error_update_nth by exact Hp2.
        destruct (killed_is_dead (clock s + 5) (send_term (clock s) proc))
          as (k & Hk).
        rewrite Hk. reflexivity. }
      split; [lia | reflexivity].
  - eexists. split; [reflexivity|].
    cbn [server_process set_server_process log emit set_clock clock
         set_procs procs].
    split; [reflexivity|]. split.
    { unfold alive, proc_of.
      cbn [procs set_server_process emit set_clock clock set_procs].
      erewrite nth_error_update_nth by exact Hp2.
      destruct (killed_is_dead (clock s + 5) (send_term (clock s) proc))
        as (k & Hk).
      rewrite Hk. reflexivity. }
    split; [lia | reflexivity].
Qed.

Lemma stop_server_stopped s :
  server_process s = None -> Basic.stop_server s = Ok tt s.
Proof.
  intros H. unfold Basic.stop_server.
  erewrite bind_Ok by (unfold get; rewrite H; reflexivity).
  reflexivity.
Qed.

Lemma stop_server_returns s :
  exists s1,
    Basic.stop_server s = Ok tt s1
    /\ server_process s1 = None
    /\ match server_process s with
       | Some p => In (Terminate p) (log s1)
       | None => s1 = s
       end.
Proof.
  destruct (server_process s) as [p|] eqn:Hsp.
  - unfold Basic.stop_server.
    erewrite bind_Ok by (unfold get; rewrite Hsp; reflexivity).
    cbv beta iota. step. step.
    unfold bind at 1. unfold try_except, bind at 1. unfold wait.
    match goal with
    | |- context [match ?x with Some _ => _ | None => _ end] =>
        destruct x as [[t c]|]
    end.
    + destruct (t <=? _);
        (eexists; split; [reflexivity|]; split; [reflexivity|]);
        simpl; tauto.
    + eexists. split; [reflexivity|]. split; [reflexivity|]. simpl. tauto.
  - exists s. split; [apply stop_server_stopped; exact Hsp|]. auto.
Qed.


(** A process that neither exits by itself nor reacts to SIGTERM never
    exits unless it is killed. *)
Lemma stubborn_never_exits {argv} now start b :
  self_exit b = None -> term_exit b = None ->
  exit_info (send_term now (mkProc argv start b None None)) = None.
Proof.
  intros Hs Ht.
  assert (H0 : exit_info (mkProc argv start b None None) = None).
  { unfold exit_info. cbn [p_beh p_term p_kill p_start]. rewrite Hs.
    reflexivity. }
  unfold send_term, code_at. rewrite H0. cbn [p_term].
  unfold exit_info. cbn [p_beh p_term p_kill p_start]. rewrite Hs, Ht.
  reflexivity.
Qed.

Lemma wait_forever pid s proc :
  proc_of s pid = Some proc -> exit_info proc = None ->
  wait pid None s = Hang (emit (Wait pid None) s).
Proof. intros Hp He. unfold wait. rewrite Hp, He. reflexivity. Qed.

(** The check itself comes back whenever strace does, and leaves the
    process table alone. *)
Lemma io_multiplexing_check_returns pid s :
  sh_dur (shell (env s) (shell_calls s)
                ("timeout 2 strace -p " ++ Py.str_nat pid ++ " 2>&1"))
  <> None ->
  exists v s',
    Advanced.io_multiplexing_check pid s = Ok v s'
    /\ procs s' = procs s.
Proof.
  intros Hstrace.
  unfold Advanced.io_multiplexing_check, try_except. step.
  destruct (platform (env s) =? "linux")%string.
  - cbv zeta. unfold bind at 1. unfold run_shell.
    destruct (sh_dur _) as [d|]; [|contradiction].
    match goal with
    | |- context [if orb ?a ?b then bind _ _ else _] => destruct (orb a b)
    end; eexists; eexists; (split; [reflexivity|]); reflexivity.
  - eexists; eexists; (split; [reflexivity|]); reflexivity.
Qed.

(** The stop path of [test_io_multiplexing]: with a server that neither
    exits nor reacts to SIGTERM the section's [finally] sends SIGTERM and
    then waits for ever; nothing is killed. *)
Lemma io_multiplexing_stop_unbounded self s b :
  sut (env s) (launches s) [binary_path self; config_path self] = Some b ->
  self_exit b = None -> term_exit b = None ->
  sh_dur (shell (env s) (shell_calls s)
                ("timeout 2 strace -p " ++ Py.str_nat (length (procs s))
                 ++ " 2>&1")) <> None ->
  exists s',
    Advanced.test_io_multiplexing self s = Hang s'
    /\ firstn 2 (log s')
       = [Wait (length (procs s)) None; Terminate (length (procs s))].
Proof.
  intros Hsut Hself Hterm Hstrace. unfold Advanced.test_io_multiplexing.
  step. erewrite bind_Ok by (apply popen_Some; exact Hsut).
  step. step.
  cbn [procs emit].
  set (pid := length (procs s)).
  set (s2 := set_clock _ _).
  destruct (io_multiplexing_check_returns pid s2 Hstrace)
    as (v & s3 & Hcheck & Hprocs).
  unfold try_finally. rewrite Hcheck.
  assert (Hproc : proc_of s3 pid
                  = Some (mkProc [binary_path self; config_path self]
                                 (clock s) b None None)).
  { unfold proc_of. rewrite Hprocs. unfold s2, pid.
    cbn [procs set_clock emit set_server_process set_procs set_launches].
    apply nth_error_snoc. }
  erewrite bind_Hang.
  2:{ step. erewrite bind_Hang; [reflexivity|].
      apply wait_forever
        with (proc := send_term (clock s3)
                        (mkProc [binary_path self; config_path self]
                                (clock s) b None None)).
      - unfold proc_of. cbn [procs set_procs emit].
        apply nth_error_update_nth. exact Hproc.
      - apply stubborn_never_exits; assumption. }
  eexists. split; reflexivity.
Qed.

(* ===================================================================== *)
(** ** Probes through [run_curl] *)
(* ===================================================================== *)

Lemma run_shell_in_time cmd T s :
  back_within (shell (env s) (shell_calls s) cmd) T = true ->
  exists d,
    run_shell cmd (Some T) s
    = Ok (sh_out (shell (env s) (shell_calls s) cmd))
         (set_clock (clock s + d)
            (set_shell_calls (S (shell_calls s)) (emit (Shell cmd (Some T)) s))).
Proof.
  unfold back_within, run_shell.
  destruct (sh_dur (shell (env s) (shell_calls s) cmd)) as [d|];
    [|discriminate].
  intros H. rewrite H. exists d. reflexivity.
Qed.

Lemma run_shell_late cmd T s :
  back_within (shell (env s) (shell_calls s) cmd) T = false ->
  run_shell cmd (Some T) s
  = Raise TimeoutExpired
      (set_clock (clock s + T)
         (set_shell_calls (S (shell_calls s)) (emit (Shell cmd (Some T)) s))).
Proof.
  unfold back_within, run_shell.
  destruct (sh_dur (shell (env s) (shell_calls s) cmd)) as [d|].
  - intros H. rewrite H. reflexivity.
  - reflexivity.
Qed.

(** [run_curl] when its first call is back in time: the command is run a
    second time with the status suffix, and the verdict is taken from that
    second answer alone. *)
Lemma run_curl_second_call command expected_code s :
  back_within (shell (env s) (shell_calls s) command) 5 = true ->
  let r2 := shell (env s) (S (shell_calls s)) (command ++ Basic.status_suffix) in
  exists s' line,
    Basic.run_curl command expected_code s
    = Ok (if back_within r2 5 then judge expected_code (status_of r2)
          else false) s'
    /\ log s' = Print line :: Shell (command ++ Basic.status_suffix) (Some 5)
                :: Shell command (Some 5) :: log s
    /\ shell_calls s' = S (S (shell_calls s)).
Proof.
  intros H1 r2. unfold Basic.run_curl, try_except.
  destruct (run_shell_in_time _ _ _ H1) as (d1 & E1).
  erewrite bind_Ok by exact E1.
  destruct (back_within r2 5) eqn:H2.
  - destruct (run_shell_in_time (command ++ Basic.status_suffix) 5
                (set_clock (clock s + d1)
                   (set_shell_calls (S (shell_calls s))
                      (emit (Shell command (Some 5)) s)))) as (d2 & E2).
    { exact H2. }
    erewrite bind_Ok by exact E2.
    cbn [env shell_calls set_clock set_shell_calls emit].
    fold r2. fold (status_of r2). unfold judge.
    destruct (truthy expected_code); cbn [andb].
    + destruct (show expected_code =? status_of r2)%string;
        (step; eexists; eexists; (split; [reflexivity|]); repeat split).
    + step. eexists; eexists; split; [reflexivity|]; repeat split.
  - erewrite bind_Raise.
    2:{ apply run_shell_late. exact H2. }
    cbv beta iota. step. eexists; eexists; split; [reflexivity|]; repeat split.
Qed.

(** [run_curl] when its first call is not back within 5: the command has
    been run once, and the probe fails. *)
Lemma run_curl_first_call_late command expected_code s :
  back_within (shell (env s) (shell_calls s) command) 5 = false ->
  exists s',
    Basic.run_curl command expected_code s = Ok false s'
    /\ log s' = Print "Curl command timed out"
                :: Shell command (Some 5) :: log s
    /\ shell_calls s' = S (shell_calls s).
Proof.
  intros H1. unfold Basic.run_curl, try_except.
  erewrite bind_Raise by (apply run_shell_late; exact H1).
  cbv beta iota. step. eexists. split; [reflexivity|]. repeat split.
Qed.

(* ===================================================================== *)
(** ** Negative tests: fixtures the server must refuse *)
(* ===================================================================== *)


(** ... and when the launch is not refused and the harness's own command
    line matches the pattern, the harness is ended by its own [pkill]:
    the fixture is still on disk and no later test is run. *)
Lemma config_error_case_killed self config_path description s b :
  sut (env s) (launches s) [binary_path self; config_path] = Some b ->
  rejects_within (Some b) 2 = false ->
  pkill_hits_harness (env s) (binary_path self) = true ->
  exists s',
    Basic.config_error_case self (config_path, description) s = Killed s'
    /\ hd_error (log s') = Some (Pkill (binary_path self))
    /\ files s' = files s
    /\ launches s' = S (launches s).
Proof.
  intros Hsut Hrej Hhit.
  unfold Basic.config_error_case, try_finally, try_except, rejects_within,
    bind, run_sut, print, pkill, unlink, modify, ret in *.
  cbn [env launches emit clock procs set_clock set_procs set_launches].
  rewrite Hsut.
  destruct (self_exit b) as [[d c]|].
  - destruct (d <=? 2).
    + destruct (c =? 0)%Z; cbn [negb andb] in Hrej; [|discriminate Hrej].
      cbn [negb]. cbv beta iota zeta.
      cbn [env emit set_clock set_procs set_launches]. rewrite Hhit.
      eexists; (split; [reflexivity|]); repeat split.
    + cbv beta iota zeta.
      cbn [env emit set_clock set_procs set_launches]. rewrite Hhit.
      eexists; (split; [reflexivity|]); repeat split.
  - cbv beta iota zeta.
    cbn [env emit set_clock set_procs set_launches]. rewrite Hhit.
    eexists; (split; [reflexivity|]); repeat split.
Qed.






Lemma fresh_polled {argv} start b T :
  match code_at (start + T) (mkProc argv start b None None) with
  | Some _ => true
  | None => false
  end = exited_within b T.
Proof.
  rewrite fresh_code_at. unfold exited_within.
  destruct (self_exit b) as [[d c]|]; [|reflexivity].
  destruct (d <=? T) eqn:E.
  - assert (E' : (start + d <=? start + T) = true)
      by (apply Nat.leb_le; apply Nat.leb_le in E; lia).
    rewrite E'. reflexivity.
  - assert (E' : (start + d <=? start + T) = false)
      by (apply Nat.leb_gt; apply Nat.leb_gt in E; lia).
    rewrite E'. reflexivity.
Qed.

Lemma fresh_alive {argv} s pid start b T :
  proc_of s pid = Some (mkProc argv start b None None) ->
  clock s = start + T -> alive s pid = negb (exited_within b T).
Proof.
  intros Hp Hc. unfold alive.
  rewrite Hp, Hc, <- (fresh_polled (argv := argv) start b T).
  destruct (code_at _ _); reflexivity.
Qed.

Lemma second_bind_probe_eq self path1 path2 s b1 b2 :
  sut (env s) (launches s) [binary_path self; path1] = Some b1 ->
  sut (env s) (S (launches s)) [binary_path self; path2] = Some b2 ->
  let server1 := length (procs s) in
  let server2 := S (length (procs s)) in
  exists s',
    Advanced.second_bind_probe self path1 path2 s
    = Ok (server1, server2, exited_within b2 2) s'
    /\ alive s' server2 = negb (exited_within b2 2)
    /\ alive s' server1 = negb (exited_within b1 4)
    /\ log s' = Print ((if exited_within b2 2 then "  [PASS] "
                        else "  [FAIL] ")
                       ++ "Prevent binding to same port twice")
                :: Sleep 2 :: Popen [binary_path self; path2]
                :: Sleep 2 :: Popen [binary_path self; path1] :: log s.
Proof.
  intros H1 H2 server1 server2. unfold Advanced.second_bind_probe.
  erewrite bind_Ok by (apply popen_Some; exact H1).
  step.
  erewrite bind_Ok by (apply popen_Some; exact H2).
  step.
  cbn [procs clock emit set_clock set_procs set_launches].
  set (p1 := mkProc _ (clock s) b1 None None).
  set (p2 := mkProc _ (clock s + 2) b2 None None).
  set (s4 := set_clock _ _).
  assert (Hlen : length (procs s ++ [p1])%list = server2).
  { rewrite length_app. simpl. unfold server2. lia. }
  rewrite Hlen.
  assert (Hp2 : proc_of s4 server2 = Some p2).
  { unfold proc_of, s4.
    cbn [procs set_clock emit set_procs set_launches].
    rewrite <- Hlen. apply nth_error_snoc. }
  assert (Hp1 : proc_of s4 server1 = Some p1).
  { unfold proc_of, s4.
    cbn [procs set_clock emit set_procs set_launches].
    rewrite nth_error_app1 by (rewrite length_app; simpl; unfold server1; lia).
    apply nth_error_snoc. }
  assert (Hc4 : clock s4 = clock s + 2 + 2) by reflexivity.
  erewrite bind_Ok by (apply poll_eq; exact Hp2).
  rewrite Hc4.
  pose proof (fresh_polled (argv := [binary_path self; path2])
                (clock s + 2) b2 2) as Hpoll.
  fold p2 in Hpoll.
  rewrite !Hpoll.
  step. eexists. split; [reflexivity|].
  split.
  { eapply (fresh_alive _ _ (clock s + 2)); [exact Hp2 | exact Hc4]. }
  split.
  { eapply (fresh_alive _ _ (clock s)); [exact Hp1|].
    change (clock s + 2 + 2 = clock s + 4). lia. }
  unfold Advanced.print_test, when, bind, print, modify, ret.
  cbn [log emit]. destruct (exited_within b2 2); reflexivity.
Qed.

(* ===================================================================== *)
(** ** The claims about fixtures, ports, stopping and probes *)
(* ===================================================================== *)





(** C4 fails on the code: against a server that refuses every fixture both
    instances are gone when the second is polled, and the probe passes. *)
Lemma port_conflict_passes_with_first_instance_dead :
  ~ port_conflict_claim tester "/tmp/tmp1.conf" "/tmp/tmp2.conf"
      (boot world_refusing).
Proof.
  intros H.
  destruct (second_bind_probe_eq tester "/tmp/tmp1.conf" "/tmp/tmp2.conf"
              (boot world_refusing) refusing refusing eq_refl eq_refl)
    as (s' & E & _ & Ha1 & _).
  destruct (H _ _ _ _ E) as [Hpass _].
  destruct (Hpass eq_refl) as [_ Hfirst].
  rewrite Ha1 in Hfirst. discriminate Hfirst.
Qed.

(** C4 (as the code has it): the probe passes exactly when the second
    instance has exited by the time it is polled, two units after its
    launch; the first instance is started and left alone, and whether it
    is still alive (it is, unless it exited within 4) has no part in the
    verdict. *)
Theorem port_conflict_judged_on_second_instance :
  forall self path1 path2 s b1 b2,
    sut (env s) (launches s) [binary_path self; path1] = Some b1 ->
    sut (env s) (S (launches s)) [binary_path self; path2] = Some b2 ->
    let server1 := length (procs s) in
    let server2 := S (length (procs s)) in
    exists s',
      Advanced.second_bind_probe self path1 path2 s
      = Ok (server1, server2, exited_within b2 2) s'
      /\ alive s' server2 = negb (exited_within b2 2)
      /\ alive s' server1 = negb (exited_within b1 4)
      /\ log s' = Print ((if exited_within b2 2 then "  [PASS] "
                          else "  [FAIL] ")
                         ++ "Prevent binding to same port twice")
                  :: Sleep 2 :: Popen [binary_path self; path2]
                  :: Sleep 2 :: Popen [binary_path self; path1] :: log s.
Proof. exact second_bind_probe_eq. Qed.

(** C4 at work: the first instance serves, the second finds the port
    taken and exits; the probe passes with the first still alive. *)
Lemma port_conflict_judged_on_second_instance_witness :
  exists s',
    Advanced.second_bind_probe tester "/tmp/tmp1.conf" "/tmp/tmp2.conf"
      (boot world_port_taken)
    = Ok (0, 1, true) s'
    /\ alive s' 1 = false
    /\ alive s' 0 = true
    /\ log s' = [ Print "  [PASS] Prevent binding to same port twice";
                  Sleep 2; Popen ["./webserv"; "/tmp/tmp2.conf"];
                  Sleep 2; Popen ["./webserv"; "/tmp/tmp1.conf"] ].
Proof.
  exact (port_conflict_judged_on_second_instance
           tester "/tmp/tmp1.conf" "/tmp/tmp2.conf" (boot world_port_taken)
           serving refusing eq_refl eq_refl).
Defined.

(** What the correction tester does with a server that ignores SIGTERM:
    the section's [finally] sends SIGTERM, waits without a timeout, and
    never returns; no SIGKILL is sent. *)
Lemma io_multiplexing_hangs_in_wait :
  let r := Advanced.test_io_multiplexing tester (boot world_stubborn) in
  value_of r = None
  /\ firstn 2 (log (state_of r)) = [Wait 0 None; Terminate 0]
  /\ existsb (fun e => match e with Kill _ => true | _ => false end)
             (log (state_of r)) = false
  /\ r = Hang (state_of r).
Proof.
  cbv zeta.
  split; [vm_compute; reflexivity|].
  split; [vm_compute; reflexivity|].
  split; vm_compute; reflexivity.
Qed.

(** C5 fails on the code: the stop path of the correction tester waits
    without bound. *)
Lemma correction_tester_waits_unbounded :
  ~ bounded_stop_claim tester (boot world_stubborn).
Proof.
  unfold bounded_stop_claim.
  assert (H : waits_bounded
                (log (state_of (Advanced.test_io_multiplexing tester
                                  (boot world_stubborn)))) = false)
    by (vm_compute; reflexivity).
  rewrite H. discriminate.
Qed.

(** C5 (as the code has it): [stop_server] of the general tester sends
    SIGTERM, waits at most 5 for the exit, and sends SIGKILL when the
    process has not exited by then; it always returns, within 5, with the
    process gone and the handle cleared.  The stop path of the correction
    tester is different: [test_io_multiplexing] sends SIGTERM and waits
    without a timeout, so with a server that does not react it never
    returns, and no SIGKILL follows. *)
Theorem stop_server_terminates_waits_kills :
  (forall s p proc,
      server_process s = Some p ->
      proc_of s p = Some proc ->
      exists s',
        Basic.stop_server s = Ok tt s'
        /\ server_process s' = None
        /\ alive s' p = false
        /\ clock s <= clock s' <= clock s + 5
        /\ log s'
           = ((if exits_after_term (clock s) 5 proc
               then [Print "Server stopped"]
               else [Print "Server killed"; Kill p])
              ++ [Wait p (Some 5); Terminate p; Print "Stopping server..."]
              ++ log s)%list)
  /\ (forall self s b,
         sut (env s) (launches s) [binary_path self; config_path self]
         = Some b ->
         self_exit b = None -> term_exit b = None ->
         sh_dur (shell (env s) (shell_calls s)
                       ("timeout 2 strace -p "
                        ++ Py.str_nat (length (procs s)) ++ " 2>&1"))
         <> None ->
         exists s',
           Advanced.test_io_multiplexing self s = Hang s'
           /\ firstn 2 (log s')
              = [Wait (length (procs s)) None; Terminate (length (procs s))]).
Proof.
  split; [exact stop_server_running | exact io_multiplexing_stop_unbounded].
Qed.

(** C5 at work: a server that ignores SIGTERM is killed after the wait
    of 5. *)
Lemma stop_server_terminates_waits_kills_witness :
  exists s',
    Basic.stop_server holding_stubborn = Ok tt s'
    /\ server_process s' = None
    /\ alive s' 0 = false
    /\ 0 <= clock s' <= 5
    /\ log s' = [ Print "Server killed"; Kill 0; Wait 0 (Some 5);
                  Terminate 0; Print "Stopping server..." ].
Proof.
  exact (proj1 stop_server_terminates_waits_kills
           holding_stubborn 0
           (mkProc ["./webserv"; "config/example.conf"] 0 stubborn None None)
           eq_refl eq_refl).
Defined.



Lemma acceptable_spec status :
  acceptable status = true
  <-> status = "400" \/ status = "405" \/ status = "501".
Proof.
  unfold acceptable, Py.mem. cbn [existsb].
  rewrite !orb_true_iff, !String.eqb_eq. intuition discriminate.
Qed.

Lemma unknown_method_probe_eq s d :
  sh_dur (shell (env s) (shell_calls s) unknown_method) = Some d ->
  exists s',
    Advanced.unknown_method_probe s
    = Ok (acceptable
            (Py.strip (stdout (sh_out (shell (env s) (shell_calls s)
                                             unknown_method))))) s'.
Proof.
  intros H. unfold Advanced.unknown_method_probe.
  erewrite bind_Ok.
  2:{ unfold run_shell. fold unknown_method. rewrite H. reflexivity. }
  step. eexists. reflexivity.
Qed.

(** C7 fails on the code: a server that answers 405 to the INVALID method
    fails the probe of [test_error_codes], which expects 400. *)
Lemma invalid_method_405_fails_probe :
  ~ malformed_method_claim (boot world_conformant).
Proof.
  intros H.
  destruct (run_curl_second_call invalid_method (Some 400%Z)
              (boot world_conformant) eq_refl) as (s' & line & E & _).
  discriminate (H _ _ E).
Qed.

(** C7 (as the code has it): the UNKNOWN-method probe of
    [test_basic_checks] passes exactly when the stripped status code is
    400, 405 or 501; the INVALID-method probe of [test_error_codes] is in
    the table with 400 alone and passes exactly on that code. *)
Theorem malformed_method_probes :
  (forall s d,
      sh_dur (shell (env s) (shell_calls s) unknown_method) = Some d ->
      exists s',
        Advanced.unknown_method_probe s
        = Ok (acceptable
                (Py.strip (stdout (sh_out (shell (env s) (shell_calls s)
                                                 unknown_method))))) s')
  /\ (forall status,
         acceptable status = true
         <-> status = "400" \/ status = "405" \/ status = "501")
  /\ hd_error Basic.error_code_tests = Some (invalid_method, 400%Z)
  /\ (forall s,
         back_within (shell (env s) (shell_calls s) invalid_method) 5 = true ->
         let r2 := shell (env s) (S (shell_calls s))
                         (invalid_method ++ Basic.status_suffix) in
         back_within r2 5 = true ->
         exists s',
           Basic.run_curl invalid_method (Some 400%Z) s
           = Ok ("400" =? status_of r2)%string s').
Proof.
  split; [exact unknown_method_probe_eq|].
  split; [exact acceptable_spec|].
  split; [reflexivity|].
  intros s H1 r2 H2.
  destruct (run_curl_second_call invalid_method (Some 400%Z) s H1)
    as (s' & line & E & _).
  exists s'. rewrite E. fold r2. rewrite H2. reflexivity.
Qed.

(** C7 at work: a server that answers 501 to the UNKNOWN method passes
    the probe of [test_basic_checks]. *)
Lemma malformed_method_probes_witness :
  exists s', Advanced.unknown_method_probe (boot world_conformant) = Ok true s'.
Proof.
  exact (proj1 malformed_method_probes (boot world_conformant) 0 eq_refl).
Defined.

(** C9 fails on the code: when the first call is not back within its
    timeout the command has been run once, and the probe fails without a
    status code. *)
Lemma timed_out_probe_runs_once :
  ~ runs_twice_claim get_root (Some 200%Z) (boot world_silent).
Proof.
  unfold runs_twice_claim.
  destruct (run_curl_first_call_late get_root (Some 200%Z)
              (boot world_silent) eq_refl) as (s' & E & _ & Hcalls).
  rewrite E. cbn [state_of]. rewrite Hcalls. discriminate.
Qed.

(** C9 (as the code has it): when the first call of [run_curl] is back
    within its timeout of 5, the command is run a second time with
    [-o /dev/null -w '%{http_code}'] appended, so the request reaches the
    server twice; the verdict compares the expected code with the status
    code of that second call alone, and is a failure when the second call
    times out.  When the first call is not back in time the command has
    been run once and the probe fails. *)
Theorem run_curl_runs_command_twice :
  (forall command expected_code s,
      back_within (shell (env s) (shell_calls s) command) 5 = true ->
      let r2 := shell (env s) (S (shell_calls s))
                      (command ++ " -o /dev/null -w '%{http_code}'") in
      exists s' line,
        Basic.run_curl command expected_code s
        = Ok (if back_within r2 5 then judge expected_code (status_of r2)
              else false) s'
        /\ log s' = Print line
                    :: Shell (command ++ " -o /dev/null -w '%{http_code}'")
                             (Some 5)
                    :: Shell command (Some 5) :: log s
        /\ shell_calls s' = S (S (shell_calls s)))
  /\ (forall command expected_code s,
         back_within (shell (env s) (shell_calls s) command) 5 = false ->
         exists s',
           Basic.run_curl command expected_code s = Ok false s'
           /\ log s' = Print "Curl command timed out"
                       :: Shell command (Some 5) :: log s
           /\ shell_calls s' = S (shell_calls s)).
Proof.
  split; [exact run_curl_second_call | exact run_curl_first_call_late].
Qed.

(** C9 at work: a GET of the root against a conformant server. *)
Lemma run_curl_runs_command_twice_witness :
  exists s' line,
    Basic.run_curl get_root (Some 200%Z) (boot world_conformant) = Ok true s'
    /\ log s' = [ Print line;
                  Shell (get_root ++ " -o /dev/null -w '%{http_code}'") (Some 5);
                  Shell get_root (Some 5) ]
    /\ shell_calls s' = 2.
Proof.
  exact (proj1 run_curl_runs_command_twice get_root (Some 200%Z)
           (boot world_conformant) eq_refl).
Defined.

(** C10 at work: against a server that refuses its configuration the run
    ends after the two failure messages. *)
Lemma early_exit_aborts_run_witness :
  exists s',
    Basic.run_all_tests tester (boot world_refusing) = Ok tt s'
    /\ log s' = ([ Print "Failed to start server, aborting tests";
                   Print "Server failed to start"; Sleep 3;
                   Popen ["./webserv"; "config/example.conf"];
                   Print "Starting webserv with config: config/example.conf";
                   Print (Basic.rule 60); Print "WEBSERV GENERAL TESTS";
                   Print (Basic.rule 60) ]
                 ++ [])%list
    /\ shell_calls s' = 0
    /\ launches s' = 1.
Proof.
  apply (early_exit_aborts_run tester (boot world_refusing) refusing 0 1%Z);
    [reflexivity | reflexivity | lia].
Defined.

(* ===================================================================== *)
(** ** The general tester: probes, fixtures and the run *)
(* ===================================================================== *)

Lemma same_world_refl s : same_world s s.
Proof. repeat split. Qed.

Lemma same_world_trans s1 s2 s3 :
  same_world s1 s2 -> same_world s2 s3 -> same_world s1 s3.
Proof.
  unfold same_world.
  intros (A1 & A2 & A3 & A4 & A5 & A6) (B1 & B2 & B3 & B4 & B5 & B6).
  repeat split; congruence.
Qed.

(** [run_curl] always comes back with a verdict: within 10 time units, after
    one or two shell commands, leaving everything else alone. *)
Lemma run_curl_total command expected_code s :
  exists passed s',
    Basic.run_curl command expected_code s = Ok passed s'
    /\ same_world s s'
    /\ clock s <= clock s' <= clock s + 10
    /\ S (shell_calls s) <= shell_calls s' <= S (S (shell_calls s)).
Proof.
  unfold Basic.run_curl, try_except, bind, run_shell, print, modify, ret.
  destruct (sh_dur (shell (env s) (shell_calls s) command)) as [d1|].
  - destruct (d1 <=? 5) eqn:E1.
    + apply Nat.leb_le in E1.
      cbn [env shell_calls clock set_clock set_shell_calls emit].
      destruct (sh_dur (shell (env s) (S (shell_calls s))
                              (command ++ Basic.status_suffix))) as [d2|].
      * destruct (d2 <=? 5) eqn:E2.
        -- apply Nat.leb_le in E2.
           destruct (truthy expected_code); cbn [andb].
           ++ destruct (show expected_code =? _)%string;
                (eexists; eexists; (split; [reflexivity|]);
                 cbn; unfold same_world; cbn; repeat split; lia).
           ++ eexists; eexists; (split; [reflexivity|]).
              cbn; unfold same_world; cbn; repeat split; lia.
        -- eexists; eexists; (split; [reflexivity|]).
           cbn; unfold same_world; cbn; repeat split; lia.
      * eexists; eexists; (split; [reflexivity|]).
        cbn; unfold same_world; cbn; repeat split; lia.
    + eexists; eexists; (split; [reflexivity|]).
      cbn; unfold same_world; cbn; repeat split; lia.
  - eexists; eexists; (split; [reflexivity|]).
    cbn; unfold same_world; cbn; repeat split; lia.
Qed.

(** X1: a probe through [run_curl] always comes back with a verdict. It
    never raises and never hangs, takes at most 10 time units (two calls
    with a timeout of 5 each), issues one or two shell commands, and leaves
    the processes, the files and the tester's handle alone. *)
Theorem run_curl_always_returns :
  forall command expected_code s,
    exists passed s',
      Basic.run_curl command expected_code s = Ok passed s'
      /\ same_world s s'
      /\ clock s <= clock s' <= clock s + 10
      /\ S (shell_calls s) <= shell_calls s' <= S (S (shell_calls s)).
Proof. exact run_curl_total. Qed.

(** Counting as the loop goes is counting the verdicts afterwards. *)
Lemma count_passed_map_m {A} (l : list A) (body : A -> M bool) :
  forall n s,
    count_passed l body n s
    = bind (map_m l body) (fun rs => ret (n + count_True rs)) s.
Proof.
  induction l as [|x l IH]; intros n s.
  - cbn. unfold ret. rewrite Nat.add_0_r. reflexivity.
  - cbn [count_passed map_m]. rewrite bind_assoc.
    destruct (body x s) as [b s1|e s1|s1|s1] eqn:E.
    + rewrite !(bind_Ok _ _ _ _ _ E), IH, bind_assoc.
      destruct (map_m l body s1) as [rs s2|e s2|s2|s2] eqn:E2.
      * rewrite !(bind_Ok _ _ _ _ _ E2). unfold bind, ret, count_True.
        cbn [filter]. destruct b; cbn [length]; f_equal; lia.
      * rewrite !(bind_Raise _ _ _ _ _ E2). reflexivity.
      * rewrite !(bind_Hang _ _ _ _ E2). reflexivity.
      * rewrite !(bind_Killed _ _ _ _ E2). reflexivity.
    + rewrite !(bind_Raise _ _ _ _ _ E). reflexivity.
    + rewrite !(bind_Hang _ _ _ _ E). reflexivity.
    + rewrite !(bind_Killed _ _ _ _ E). reflexivity.
Qed.

Lemma count_True_all rs :
  (count_True rs =? length rs) = forallb (fun b => b) rs.
Proof.
  assert (Hle : forall l, count_True l <= length l).
  { intros l. unfold count_True. apply filter_length_le. }
  induction rs as [|[|] rs IH]; cbn.
  - reflexivity.
  - exact IH.
  - apply Nat.eqb_neq. specialize (Hle rs). unfold count_True in *. 
    cbn. lia.
Qed.

(** A table of probes always runs to its end: one verdict per probe,
    between one and two shell commands and at most 10 time units each. *)
Lemma probe_all_total tests : forall s,
  exists rs s',
    probe_all tests s = Ok rs s'
    /\ length rs = length tests
    /\ same_world s s'
    /\ clock s <= clock s' <= clock s + 10 * length tests
    /\ shell_calls s + length tests <= shell_calls s'
       <= shell_calls s + 2 * length tests.
Proof.
  unfold probe_all.
  induction tests as [|[cmd code] tests IH]; intros s.
  - exists [], s. cbn. split; [reflexivity|]. split; [reflexivity|].
    split; [apply same_world_refl|]. lia.
  - cbn [map_m fst snd].
    destruct (run_curl_total cmd (Some code) s)
      as (b & s1 & E1 & W1 & C1 & N1).
    destruct (IH s1) as (rs & s2 & E2 & L2 & W2 & C2 & N2).
    exists (b :: rs), s2.
    erewrite bind_Ok by exact E1. erewrite bind_Ok by exact E2.
    split; [reflexivity|]. split; [cbn; lia|].
    split; [exact (same_world_trans _ _ _ W1 W2)|].
    cbn [length]. lia.
Qed.

(** The shape shared by the four table-driven tests of the general
    tester: header, probes, report. *)
Lemma table_section_total name tests what s :
  let s0 := state_of (Basic.print_test_header name s) in
  exists rs s1 s',
    probe_all tests s0 = Ok rs s1
    /\ length rs = length tests
    /\ (Basic.print_test_header name ;;
        passed <- Basic.run_table tests ;;
        Basic.report_table passed (length tests) what)%harness s
       = Ok (forallb (fun b => b) rs) s'
    /\ same_world s s'
    /\ clock s <= clock s' <= clock s + 10 * length tests
    /\ shell_calls s + length tests <= shell_calls s'
       <= shell_calls s + 2 * length tests.
Proof.
  intros s0.
  destruct (probe_all_total tests s0) as (rs & s1 & E & L & W & C & N).
  exists rs, s1. eexists. split; [exact E|]. split; [exact L|].
  erewrite bind_Ok by reflexivity. fold s0.
  unfold Basic.run_table.
  erewrite bind_Ok.
  2:{ rewrite count_passed_map_m. erewrite bind_Ok by exact E. reflexivity. }
  unfold Basic.report_table. erewrite bind_Ok by reflexivity.
  cbn [Nat.add]. rewrite <- L, count_True_all.
  split; [reflexivity|].
  destruct W as (W1 & W2 & W3 & W4 & W5 & W6).
  split; [repeat split; assumption|].
  cbn [clock shell_calls emit]. 
  change (clock s0) with (clock s) in C.
  change (shell_calls s0) with (shell_calls s) in N.
  rewrite L. lia.
Qed.

(** X2: the four table-driven tests of the general tester
    ([test_error_codes], [test_permission_errors], [test_autoindex],
    [test_cgi]) always return, since each probe carries a timeout and every
    exception is caught: the result is [True] exactly when every probe of
    the table returned [True], the time taken is at most 10 per probe, and
    the processes and files are left alone. *)
Theorem table_tests_always_return :
  forall s,
    (exists rs s1 s',
        probe_all Basic.error_code_tests
          (state_of (Basic.print_test_header "Error Codes with CURL" s))
        = Ok rs s1
        /\ length rs = 12
        /\ Basic.test_error_codes s = Ok (forallb (fun b => b) rs) s'
        /\ same_world s s'
        /\ clock s <= clock s' <= clock s + 120
        /\ shell_calls s + 12 <= shell_calls s' <= shell_calls s + 24)
    /\ (exists rs s1 s',
           probe_all Basic.permission_tests
             (state_of (Basic.print_test_header "Permission Tests" s))
           = Ok rs s1
           /\ length rs = 9
           /\ Basic.test_permission_errors s = Ok (forallb (fun b => b) rs) s'
           /\ same_world s s'
           /\ clock s <= clock s' <= clock s + 90
           /\ shell_calls s + 9 <= shell_calls s' <= shell_calls s + 18)
    /\ (exists rs s1 s',
           probe_all Basic.autoindex_tests
             (state_of (Basic.print_test_header "Autoindex Tests" s))
           = Ok rs s1
           /\ length rs = 4
           /\ Basic.test_autoindex s = Ok (forallb (fun b => b) rs) s'
           /\ same_world s s'
           /\ clock s <= clock s' <= clock s + 40
           /\ shell_calls s + 4 <= shell_calls s' <= shell_calls s + 8)
    /\ (exists rs s1 s',
           probe_all Basic.cgi_tests
             (state_of (Basic.print_test_header "CGI Tests" s))
           = Ok rs s1
           /\ length rs = 5
           /\ Basic.test_cgi s = Ok (forallb (fun b => b) rs) s'
           /\ same_world s s'
           /\ clock s <= clock s' <= clock s + 50
           /\ shell_calls s + 5 <= shell_calls s' <= shell_calls s + 10).
Proof.
  intros s. 
  split; [exact (table_section_total "Error Codes with CURL"
                   Basic.error_code_tests "error code tests" s)|].
  split; [exact (table_section_total "Permission Tests"
                   Basic.permission_tests "permission tests" s)|].
  split; [exact (table_section_total "Autoindex Tests"
                   Basic.autoindex_tests "autoindex tests" s)|].
  exact (table_section_total "CGI Tests" Basic.cgi_tests "CGI tests" s).
Qed.

Lemma same_processes_trans s1 s2 s3 :
  same_processes s1 s2 -> same_processes s2 s3 -> same_processes s1 s3.
Proof.
  unfold same_processes. intros (A1 & A2 & A3 & A4) (B1 & B2 & B3 & B4).
  repeat split; congruence.
Qed.

Lemma without_nil fs : without [] fs = fs.
Proof.
  unfold without. induction fs as [|f fs IH]; cbn; [reflexivity|].
  f_equal. exact IH.
Qed.

Lemma without_unlink p ps fs :
  filter (fun f => negb (fst f =? p)%string) (without ps fs)
  = without (p :: ps) fs.
Proof.
  unfold without. induction fs as [|f fs IH]; cbn [filter]; [reflexivity|].
  cbn [Py.mem existsb]. fold (Py.mem (fst f) ps).
  destruct (Py.mem (fst f) ps); cbn [negb filter orb].
  - rewrite orb_true_r. cbn [negb]. exact IH.
  - rewrite orb_false_r. destruct (fst f =? p)%string; cbn [negb].
    + exact IH.
    + f_equal. exact IH.
Qed.

Lemma without_created p text ps fs :
  Py.mem p ps = true -> without ps ((p, text) :: fs) = without ps fs.
Proof. intros H. unfold without. cbn [filter fst]. rewrite H. reflexivity. Qed.

Lemma without_fresh ps fs :
  (forall f, In f fs -> Py.mem (fst f) ps = false) -> without ps fs = fs.
Proof.
  unfold without. induction fs as [|f fs IH]; intros H; cbn; [reflexivity|].
  rewrite (H f) by (left; reflexivity). cbn. f_equal.
  apply IH. intros g Hg. apply H. right. exact Hg.
Qed.

Lemma mem_here p ps : Py.mem p (p :: ps) = true.
Proof. unfold Py.mem. cbn. rewrite String.eqb_refl. reflexivity. Qed.

Lemma mem_later p q ps : Py.mem p ps = true -> Py.mem p (q :: ps) = true.
Proof. unfold Py.mem. cbn. intros ->. apply orb_true_r. Qed.

Lemma mkstemp_effect suffix text s :
  exists s',
    mkstemp suffix text s = Ok (next_temp s 0 suffix) s'
    /\ same_processes s s'
    /\ files s' = (next_temp s 0 suffix, text) :: files s
    /\ temps s' = S (temps s)
    /\ clock s' = clock s /\ shell_calls s' = shell_calls s.
Proof. eexists. split; [reflexivity|]. repeat split. Qed.

Lemma unlink_effect path s :
  exists s',
    unlink path s = Ok tt s'
    /\ same_processes s s'
    /\ files s' = filter (fun f => negb (fst f =? path)%string) (files s)
    /\ temps s' = temps s
    /\ clock s' = clock s /\ shell_calls s' = shell_calls s.
Proof. eexists. split; [reflexivity|]. repeat split. Qed.

Lemma header_effect name s :
  exists s',
    Basic.print_test_header name s = Ok tt s'
    /\ same_processes s s' /\ files s' = files s /\ temps s' = temps s
    /\ clock s' = clock s /\ shell_calls s' = shell_calls s.
Proof. eexists. split; [reflexivity|]. repeat split. Qed.

(** One upload: the probe, then the file is removed whatever the probe
    said. *)
Lemma upload_case_effect filepath size s :
  exists b s',
    Basic.upload_case (filepath, size) s = Ok b s'
    /\ same_processes s s'
    /\ files s' = filter (fun f => negb (fst f =? filepath)%string) (files s)
    /\ temps s' = temps s
    /\ clock s <= clock s' <= clock s + 10
    /\ S (shell_calls s) <= shell_calls s' <= S (S (shell_calls s)).
Proof.
  unfold Basic.upload_case.
  match goal with
  | |- context [Basic.run_curl ?c ?e] =>
      destruct (run_curl_total c e s) as (b & s1 & E1 & W1 & C1 & N1)
  end.
  erewrite bind_Ok by exact E1.
  destruct (unlink_effect filepath s1) as (s2 & E2 & P2 & F2 & T2 & C2 & N2).
  erewrite bind_Ok by exact E2.
  exists b, s2. split; [reflexivity|].
  destruct W1 as (W11 & W12 & W13 & W14 & W15 & W16).
  destruct P2 as (P21 & P22 & P23 & P24).
  split; [repeat split; congruence|].
  split; [congruence|]. split; [congruence|]. lia.
Qed.

Ltac create_file H :=
  rewrite ?bind_assoc;
  match goal with
  | |- context [bind (mkstemp ?suf ?text) _ ?st] =>
      let s' := fresh "s" in
      let E := fresh "E" in
      destruct (mkstemp_effect suf text st)
        as (s' & E & (? & ? & ? & ?) & ? & H & ? & ?);
      erewrite bind_Ok by exact E;
      erewrite bind_Ok by reflexivity
  end.

Ltac upload_file :=
  rewrite ?bind_assoc;
  match goal with
  | |- context [bind (Basic.upload_case (?p, ?size)) _ ?st] =>
      let b := fresh "b" in
      let s' := fresh "s" in
      let E := fresh "E" in
      destruct (upload_case_effect p size st)
        as (b & s' & E & (? & ? & ? & ?) & ? & ? & ? & ?);
      erewrite bind_Ok by exact E
  end.

(** [test_file_uploads] as a whole: five files, five probes, five removals. *)
Lemma test_file_uploads_effect s :
  exists passed s',
    Basic.test_file_uploads s = Ok passed s'
    /\ same_processes s s'
    /\ files s' = without (upload_paths s) (files s)
    /\ temps s' = 5 + temps s
    /\ clock s <= clock s' <= clock s + 50
    /\ shell_calls s + 5 <= shell_calls s' <= shell_calls s + 10.
Proof.
  unfold Basic.test_file_uploads.
  destruct (header_effect "File Uploads - Different Sizes" s)
    as (s0 & E0 & (? & ? & ? & ?) & ? & T0 & ? & ?).
  erewrite bind_Ok by exact E0.
  unfold Basic.upload_sizes. cbn [map_m].
  create_file T1. create_file T2. create_file T3. create_file T4.
  create_file T5.
  rewrite ?bind_assoc.
  repeat match goal with
         | |- context [bind (ret ?x) ?k ?st] =>
             change (bind (ret x) k st) with (k x st); cbv beta
         end.
  cbn [count_passed].
  upload_file. upload_file. upload_file. upload_file. upload_file.
  unfold Basic.report_table. erewrite bind_Ok by reflexivity.
  erewrite bind_Ok by reflexivity.
  eexists. eexists. split; [reflexivity|].
  cbn [env procs launches server_process files temps clock shell_calls emit].
  unfold same_processes.
  cbn [env procs launches server_process files temps clock shell_calls emit].
  split; [repeat split; congruence|].
  split.
  { repeat match goal with
           | H : files ?a = _ |- context [files ?a] => rewrite H
           end.
    unfold next_temp, upload_paths.
    rewrite T4, T3, T2, T1, T0. cbn [map Nat.add].
    fold (next_temp s 0 ".txt") (next_temp s 1 ".txt") (next_temp s 2 ".txt")
      (next_temp s 3 ".txt") (next_temp s 4 ".txt").
    rewrite <- (without_nil
                  ((next_temp s 4 ".txt", _) :: (next_temp s 3 ".txt", _)
                   :: (next_temp s 2 ".txt", _) :: (next_temp s 1 ".txt", _)
                   :: (next_temp s 0 ".txt", _) :: files s)).
    rewrite !without_unlink.
    repeat (rewrite without_created
              by (repeat first [apply mem_here | apply mem_later])).
    reflexivity. }
  split; [lia|]. split; lia.
Qed.

(** X3: [test_file_uploads] always returns, and the five files it creates
    are removed again whatever the probes answer; no other file is touched,
    nothing is launched, and at most 50 time units pass. *)
Theorem file_uploads_leave_no_file :
  forall s,
    exists passed s',
      Basic.test_file_uploads s = Ok passed s'
      /\ same_processes s s'
      /\ files s' = without (upload_paths s) (files s)
      /\ temps s' = 5 + temps s
      /\ clock s <= clock s' <= clock s + 50
      /\ shell_calls s + 5 <= shell_calls s' <= shell_calls s + 10.
Proof. exact test_file_uploads_effect. Qed.

Lemma code_at_later now now' p :
  now <= now' -> code_at now p <> None -> code_at now' p <> None.
Proof.
  unfold code_at. intros Hle. destruct (exit_info p) as [[t c]|]; [|auto].
  destruct (t <=? now) eqn:E; [|congruence].
  apply Nat.leb_le in E.
  assert (E' : (t <=? now') = true) by (apply Nat.leb_le; lia).
  rewrite E'. discriminate.
Qed.

Lemma send_term_dead now p : code_at now p <> None -> send_term now p = p.
Proof.
  unfold send_term. destruct (code_at now p); [reflexivity | congruence].
Qed.

Lemma dead_from_later n now now' ps :
  now <= now' -> dead_from n now ps -> dead_from n now' ps.
Proof.
  intros Hle H pid p Hn Hp. apply (code_at_later now); [exact Hle|].
  exact (H pid p Hn Hp).
Qed.

Lemma dead_from_snoc n now ps p :
  dead_from n now ps -> code_at now p <> None -> dead_from n now (ps ++ [p]).
Proof.
  intros H Hp pid q Hn Hq.
  destruct (Nat.lt_ge_cases pid (length ps)) as [Hlt | Hge].
  - rewrite nth_error_app1 in Hq by exact Hlt. exact (H pid q Hn Hq).
  - rewrite nth_error_app2 in Hq by exact Hge.
    destruct (pid - length ps) as [|k]; cbn in Hq.
    + injection Hq as <-. exact Hp.
    + destruct k; discriminate Hq.
Qed.

Lemma dead_from_pkill w pattern n now ps :
  dead_from n now ps ->
  dead_from n now (map (pkill_signal w pattern now) ps).
Proof.
  intros H pid q Hn Hq. rewrite nth_error_map in Hq.
  destruct (nth_error ps pid) as [p|] eqn:Ep; [|discriminate].
  cbn in Hq. injection Hq as <-. unfold pkill_signal.
  destruct (pkill_matches w pattern (p_argv p)).
  - rewrite send_term_dead; exact (H pid p Hn Ep).
  - exact (H pid p Hn Ep).
Qed.

Lemma dead_from_alive n s pid :
  dead_from n (clock s) (procs s) -> n <= pid -> alive s pid = false.
Proof.
  intros H Hn. unfold alive, proc_of.
  destruct (nth_error (procs s) pid) as [p|] eqn:Ep; [|reflexivity].
  specialize (H pid p Hn Ep). destruct (code_at (clock s) p); congruence.
Qed.

Lemma fresh_exited {argv} now start b d c :
  self_exit b = Some (d, c) -> start + d <= now ->
  code_at now (mkProc argv start b None None) <> None.
Proof.
  intros Hs Hle. rewrite fresh_code_at, Hs.
  assert (E : (start + d <=? now) = true) by (apply Nat.leb_le; lia).
  rewrite E. discriminate.
Qed.

Lemma killed_exited now p : code_at now (send_kill now p) <> None.
Proof. destruct (killed_is_dead now p) as (c & ->). discriminate. Qed.

(** One negative test: a launch, at most 2 time units, the fixture removed
    whatever happened, and the launched process gone when it ends. *)
Lemma config_error_case_effect self path description s n :
  pkill_hits_harness (env s) (binary_path self) = false ->
  dead_from n (clock s) (procs s) ->
  exists b s',
    Basic.config_error_case self (path, description) s = Ok b s'
    /\ env s' = env s /\ launches s' = S (launches s)
    /\ server_process s' = server_process s
    /\ files s' = filter (fun f => negb (fst f =? path)%string) (files s)
    /\ temps s' = temps s
    /\ clock s <= clock s' <= clock s + 2
    /\ shell_calls s' = shell_calls s
    /\ dead_from n (clock s') (procs s').
Proof.
  intros Hmiss Hdead.
  unfold Basic.config_error_case, try_finally, try_except,
    bind, run_sut, print, pkill, unlink, modify, ret.
  cbn [env launches emit clock procs].
  destruct (sut (env s) (launches s) [binary_path self; path]) as [b|].
  - destruct (self_exit b) as [[d c]|] eqn:Hself.
    + destruct (d <=? 2) eqn:Hd.
      * apply Nat.leb_le in Hd.
        assert (Hnew : dead_from n (clock s + d)
                         (procs s ++ [mkProc [binary_path self; path]
                                             (clock s) b None None])).
        { apply dead_from_snoc.
          - apply (dead_from_later n (clock s)); [lia | exact Hdead].
          - eapply (fresh_exited _ _ _ d c Hself). lia. }
        destruct (c =? 0)%Z; cbn [negb]; cbv beta iota zeta;
          cbn [env emit set_clock set_procs set_launches]; rewrite ?Hmiss;
          (eexists; eexists; (split; [reflexivity|]); cbn;
           repeat split; try lia;
           first [exact Hnew | apply dead_from_pkill; exact Hnew]).
      * cbv beta iota zeta.
        cbn [env emit set_clock set_procs set_launches]. rewrite Hmiss.
        eexists; eexists; (split; [reflexivity|]); cbn.
        repeat split; try lia.
        apply dead_from_pkill. apply dead_from_snoc.
        -- apply (dead_from_later n (clock s)); [lia | exact Hdead].
        -- apply killed_exited.
    + cbv beta iota zeta.
      cbn [env emit set_clock set_procs set_launches]. rewrite Hmiss.
      eexists; eexists; (split; [reflexivity|]); cbn.
      repeat split; try lia.
      apply dead_from_pkill. apply dead_from_snoc.
      * apply (dead_from_later n (clock s)); [lia | exact Hdead].
      * apply killed_exited.
  - eexists; eexists; (split; [reflexivity|]); cbn.
    repeat split; try lia. exact Hdead.
Qed.

Lemma dead_from_length now ps : dead_from (length ps) now ps.
Proof.
  intros pid p Hn Hp. exfalso.
  assert (Hlt : pid < length ps) by (apply nth_error_Some; congruence).
  lia.
Qed.

Ltac negative_case H :=
  rewrite ?bind_assoc;
  match goal with
  | |- context [bind (Basic.config_error_case ?self (?p, ?d)) _ ?st] =>
      let b := fresh "b" in
      let s' := fresh "s" in
      let E := fresh "E" in
      let D := fresh "D" in
      let M := fresh "M" in
      assert (M : pkill_hits_harness (env st) (binary_path self) = false)
        by congruence;
      destruct (config_error_case_effect self p d st _ M H)
        as (b & s' & E & ? & ? & ? & ? & ? & ? & ? & D);
      erewrite bind_Ok by exact E
  end.

(** [test_config_errors] as a whole: three fixtures, three launches, three
    removals. *)
Lemma test_config_errors_effect :
  forall self s,
    pkill_hits_harness (env s) (binary_path self) = false ->
    exists passed s',
      Basic.test_config_errors self s = Ok passed s'
      /\ files s' = without (config_error_paths s) (files s)
      /\ launches s' = 3 + launches s
      /\ server_process s' = server_process s
      /\ clock s <= clock s' <= clock s + 6
      /\ (forall pid, length (procs s) <= pid -> alive s' pid = false).
Proof.
  intros self s Hmiss.
  unfold Basic.test_config_errors,
    Basic.create_config_with_duplicate_ports,
    Basic.create_config_with_duplicate_names,
    Basic.create_config_with_duplicate_locations.
  destruct (header_effect "Configuration Error Handling" s)
    as (s0 & E0 & (? & P0 & ? & ?) & ? & T0 & C0 & ?).
  erewrite bind_Ok by exact E0.
  destruct (mkstemp_effect ".conf" Basic.duplicate_ports_config s0)
    as (s1 & E1 & (? & P1 & ? & ?) & ? & T1 & C1 & ?).
  erewrite bind_Ok by exact E1.
  destruct (mkstemp_effect ".conf" Basic.duplicate_names_config s1)
    as (s2 & E2 & (? & P2 & ? & ?) & ? & T2 & C2 & ?).
  erewrite bind_Ok by exact E2.
  destruct (mkstemp_effect ".conf" Basic.duplicate_locations_config s2)
    as (s3 & E3 & (? & P3 & ? & ?) & ? & T3 & C3 & ?).
  erewrite bind_Ok by exact E3.
  cbv zeta. cbn [count_passed].
  assert (D3 : dead_from (length (procs s)) (clock s3) (procs s3)).
  { rewrite P3, P2, P1, P0. apply dead_from_length. }
  negative_case D3. negative_case D. negative_case D0.
  erewrite bind_Ok by reflexivity.
  unfold Basic.report_table. erewrite bind_Ok by reflexivity.
  eexists. eexists. split; [reflexivity|].
  cbn [env procs launches server_process files temps clock shell_calls emit].
  split.
  { repeat match goal with
           | H : files ?a = _ |- context [files ?a] => rewrite H
           end.
    unfold next_temp, config_error_paths.
    rewrite T2, T1, T0. cbn [map Nat.add].
    fold (next_temp s 0 ".conf") (next_temp s 1 ".conf")
      (next_temp s 2 ".conf").
    rewrite <- (without_nil
                  ((next_temp s 2 ".conf", _) :: (next_temp s 1 ".conf", _)
                   :: (next_temp s 0 ".conf", _) :: files s)).
    rewrite !without_unlink.
    repeat (rewrite without_created
              by (repeat first [apply mem_here | apply mem_later])).
    reflexivity. }
  split; [lia|]. split; [congruence|]. split; [lia|].
  intros pid Hpid. eapply dead_from_alive; [|exact Hpid].
  cbn [clock procs emit]. eassumption.
Qed.

(** ... and with the path of the binary on the command line of the
    harness: the first fixture that is not refused ends the harness. *)
Lemma test_config_errors_killed self s b :
  pkill_hits_harness (env s) (binary_path self) = true ->
  sut (env s) (launches s) [binary_path self; next_temp s 0 ".conf"]
  = Some b ->
  rejects_within (Some b) 2 = false ->
  exists s',
    Basic.test_config_errors self s = Killed s'
    /\ hd_error (log s') = Some (Pkill (binary_path self))
    /\ files s'
       = (next_temp s 2 ".conf", Basic.duplicate_locations_config)
         :: (next_temp s 1 ".conf", Basic.duplicate_names_config)
         :: (next_temp s 0 ".conf", Basic.duplicate_ports_config)
         :: files s
    /\ launches s' = S (launches s).
Proof.
  intros Hhit Hsut Hrej.
  unfold Basic.test_config_errors,
    Basic.create_config_with_duplicate_ports,
    Basic.create_config_with_duplicate_names,
    Basic.create_config_with_duplicate_locations.
  destruct (header_effect "Configuration Error Handling" s)
    as (s0 & E0 & (He0 & P0 & L0 & ?) & F0 & T0 & C0 & ?).
  erewrite bind_Ok by exact E0.
  destruct (mkstemp_effect ".conf" Basic.duplicate_ports_config s0)
    as (s1 & E1 & (He1 & P1 & L1 & ?) & F1 & T1 & C1 & ?).
  erewrite bind_Ok by exact E1.
  destruct (mkstemp_effect ".conf" Basic.duplicate_names_config s1)
    as (s2 & E2 & (He2 & P2 & L2 & ?) & F2 & T2 & C2 & ?).
  erewrite bind_Ok by exact E2.
  destruct (mkstemp_effect ".conf" Basic.duplicate_locations_config s2)
    as (s3 & E3 & (He3 & P3 & L3 & ?) & F3 & T3 & C3 & ?).
  erewrite bind_Ok by exact E3.
  cbv zeta. cbn [count_passed]. rewrite !bind_assoc.
  assert (Hn0 : next_temp s0 0 ".conf" = next_temp s 0 ".conf")
    by (unfold next_temp; rewrite T0; reflexivity).
  assert (Hn1 : next_temp s1 0 ".conf" = next_temp s 1 ".conf")
    by (unfold next_temp; rewrite T1, T0; reflexivity).
  assert (Hn2 : next_temp s2 0 ".conf" = next_temp s 2 ".conf")
    by (unfold next_temp; rewrite T2, T1, T0; reflexivity).
  destruct (config_error_case_killed self (next_temp s0 0 ".conf")
              "duplicate ports" s3 b) as (s4 & E4 & Hlog & Hfiles & Hl).
  { rewrite He3, He2, He1, He0, L3, L2, L1, L0, Hn0. exact Hsut. }
  { exact Hrej. }
  { rewrite He3, He2, He1, He0. exact Hhit. }
  erewrite bind_Killed by exact E4.
  exists s4. split; [reflexivity|]. split; [exact Hlog|]. split.
  - rewrite Hfiles, F3, F2, F1, F0, Hn0, Hn1, Hn2. reflexivity.
  - rewrite Hl, L3, L2, L1, L0. reflexivity.
Qed.

(** X4: [test_config_errors] returns whenever [pkill] leaves the harness
    alone: the three fixtures it wrote are then removed and nothing else
    is, exactly three launches were made, none of the processes it
    launched is alive, and at most 6 time units have passed.  When the
    command line of the harness matches the pattern of [pkill] (the path
    of the binary), a first fixture that is accepted or on which the
    server hangs ends the harness at that [pkill]: the test does not
    return and the three fixtures stay on disk. *)
Theorem test_config_errors_cleans_up :
  forall self s,
    (pkill_hits_harness (env s) (binary_path self) = false ->
     exists passed s',
       Basic.test_config_errors self s = Ok passed s'
       /\ files s' = without (config_error_paths s) (files s)
       /\ launches s' = 3 + launches s
       /\ server_process s' = server_process s
       /\ clock s <= clock s' <= clock s + 6
       /\ (forall pid, length (procs s) <= pid -> alive s' pid = false))
    /\ (forall b,
           pkill_hits_harness (env s) (binary_path self) = true ->
           sut (env s) (launches s) [binary_path self; next_temp s 0 ".conf"]
           = Some b ->
           rejects_within (Some b) 2 = false ->
           exists s',
             Basic.test_config_errors self s = Killed s'
             /\ hd_error (log s') = Some (Pkill (binary_path self))
             /\ files s'
                = (next_temp s 2 ".conf", Basic.duplicate_locations_config)
                  :: (next_temp s 1 ".conf", Basic.duplicate_names_config)
                  :: (next_temp s 0 ".conf", Basic.duplicate_ports_config)
                  :: files s
             /\ launches s' = S (launches s)).
Proof.
  intros self s. split.
  - exact (test_config_errors_effect self s).
  - intros b. exact (test_config_errors_killed self s b).
Qed.

(** X4 at work, against a server that never exits by itself.  Started
    without arguments the harness kills all three launches at the end of
    their window and returns; started with the path of the binary it is
    ended by its own [pkill] after the first launch. *)
Lemma test_config_errors_cleans_up_witness :
  (exists passed s',
      Basic.test_config_errors tester (boot world_stubborn) = Ok passed s'
      /\ launches s' = 3
      /\ alive s' 0 = false /\ alive s' 1 = false /\ alive s' 2 = false)
  /\ (exists s',
         Basic.test_config_errors tester (boot world_named_binary) = Killed s'
         /\ hd_error (log s') = Some (Pkill "./webserv")
         /\ launches s' = 1).
Proof.
  split.
  - destruct (proj1 (test_config_errors_cleans_up tester (boot world_stubborn))
                eq_refl)
      as (passed & s' & E & _ & Hl & _ & _ & Hdead).
    exists passed, s'. split; [exact E|]. split; [exact Hl|].
    split; [|split]; apply Hdead; cbn; lia.
  - destruct (proj2 (test_config_errors_cleans_up tester
                       (boot world_named_binary))
                stubborn eq_refl eq_refl eq_refl)
      as (s' & E & Hlog & _ & Hl).
    exists s'. split; [exact E|]. split; [exact Hlog | exact Hl].
Defined.

Lemma test_multiple_servers_shape self :
  Basic.test_multiple_servers self
  = (Basic.print_test_header "Multiple Servers Test" ;;
     path2 <- mkstemp ".conf" Basic.second_server_config ;;
     try_finally
       (try_except (multiple_servers_try self path2)
          (fun e => print "Error testing multiple servers" ;; ret false))
       (unlink path2)).
Proof. reflexivity. Qed.

(** A wait with a timeout comes back or raises TimeoutExpired; it never
    blocks. *)
Lemma wait_bounded pid T s :
  (exists c s', wait pid (Some T) s = Ok c s'
                /\ same_world s s' /\ clock s <= clock s' <= clock s + T
                /\ alive s' pid = false)
  \/ (exists s', wait pid (Some T) s = Raise TimeoutExpired s'
                 /\ same_world s s' /\ clock s' = clock s + T
                 /\ match proc_of s pid with
                    | Some p => match exit_info p with
                                | Some (t, _) => clock s + T < t
                                | None => True
                                end
                    | None => True
                    end).
Proof.
  unfold wait, alive, proc_of.
  destruct (nth_error (procs s) pid) as [p|] eqn:Ep.
  - destruct (exit_info p) as [[t c]|] eqn:Ex.
    + destruct (t <=? clock s + T) eqn:Et.
      * apply Nat.leb_le in Et. left. eexists. eexists.
        split; [reflexivity|]. cbn. rewrite Ep.
        split; [repeat split|]. split; [lia|].
        unfold code_at. rewrite Ex.
        assert (E : (t <=? Nat.max (clock s) t) = true)
          by (apply Nat.leb_le; lia).
        rewrite E. reflexivity.
      * apply Nat.leb_gt in Et. right. eexists. split; [reflexivity|].
        cbn. split; [repeat split|]. split; [reflexivity | exact Et].
    + right. eexists. split; [reflexivity|]. cbn.
      split; [repeat split|]. split; [reflexivity | exact I].
  - right. eexists. split; [reflexivity|]. cbn.
    split; [repeat split|]. split; [reflexivity | exact I].
Qed.

Lemma multiple_servers_try_outcome self path2 s :
  (exists passed s',
      multiple_servers_try self path2 s = Ok passed s'
      /\ multiple_servers_frame s s'
      /\ alive s' (length (procs s)) = false)
  \/ (exists e s',
         multiple_servers_try self path2 s = Raise e s'
         /\ multiple_servers_frame s s'
         /\ (sut (env s) (launches s) [binary_path self; path2] = None
             \/ e = TimeoutExpired)).
Proof.
  unfold multiple_servers_try.
  destruct (sut (env s) (launches s) [binary_path self; path2]) as [b|] eqn:Hsut.
  - erewrite bind_Ok by (apply popen_Some; exact Hsut).
    erewrite bind_Ok by reflexivity.
    match goal with
    | |- context [bind (Basic.run_curl ?c ?e) _ ?st] =>
        destruct (run_curl_total c e st)
          as (r1 & s1 & E1 & (? & ? & ? & ? & ? & ?) & ? & ?)
    end.
    erewrite !(bind_Ok _ _ _ _ _ E1).
    destruct (run_curl_total "curl http://127.0.0.1:9999/" (Some 200%Z) s1)
      as (r2 & s2 & E2 & (? & ? & ? & ? & ? & ?) & ? & ?).
    erewrite !(bind_Ok _ _ _ _ _ E2).
    set (passed := r1 && r2).
    assert (Hprint : exists s3,
               (if passed
                then print "Both servers responding correctly" ;; ret true
                else print "One or both servers not responding" ;; ret false)
                 s2 = Ok passed s3
               /\ same_world s2 s3 /\ clock s3 = clock s2).
    { destruct passed; eexists; (split; [reflexivity|]);
        split; [repeat split | reflexivity | repeat split | reflexivity]. }
    destruct Hprint as (s3 & E3 & (? & ? & ? & ? & ? & ?) & ?).
    erewrite !(bind_Ok _ _ _ _ _ E3).
    erewrite bind_Ok by reflexivity.
    match goal with
    | |- context [bind (wait ?p (Some 5)) _ ?st] =>
        destruct (wait_bounded p 5 st)
          as [(c & s5 & E5 & (? & P5 & ? & ? & ? & ?) & ? & A5)
             | (s5 & E5 & (? & ? & ? & ? & ? & ?) & ? & _)]
    end.
    + left. erewrite bind_Ok by exact E5. exists passed, s5.
      split; [reflexivity|].
      cbn [env files temps server_process clock procs emit set_procs
           set_clock set_launches] in *.
      split; [unfold multiple_servers_frame; repeat split;
              first [congruence | lia]|].
      exact A5.
    + right. erewrite bind_Raise by exact E5. exists TimeoutExpired, s5.
      split; [reflexivity|].
      cbn [env files temps server_process clock procs emit set_procs
           set_clock set_launches] in *.
      split; [unfold multiple_servers_frame; repeat split;
              first [congruence | lia]|].
      right. reflexivity.
  - right. exists OSError. eexists. split.
    { unfold bind, popen. rewrite Hsut. reflexivity. }
    split; [|left; reflexivity].
    unfold multiple_servers_frame. cbn. repeat split; lia.
Qed.

(** With a second server that neither exits nor reacts to SIGTERM the
    bounded wait of the [try] block runs out: TimeoutExpired, with the
    server still running. *)
Lemma multiple_servers_try_stubborn self path2 s b :
  sut (env s) (launches s) [binary_path self; path2] = Some b ->
  self_exit b = None -> term_exit b = None ->
  exists s',
    multiple_servers_try self path2 s = Raise TimeoutExpired s'
    /\ alive s' (length (procs s)) = true.
Proof.
  intros Hsut Hself Hterm. unfold multiple_servers_try.
  erewrite bind_Ok by (apply popen_Some; exact Hsut).
  erewrite bind_Ok by reflexivity.
  match goal with
  | |- context [bind (Basic.run_curl ?c ?e) _ ?st] =>
      destruct (run_curl_total c e st)
        as (r1 & s1 & E1 & (? & P1 & ? & ? & ? & ?) & ? & ?)
  end.
  erewrite !(bind_Ok _ _ _ _ _ E1).
  destruct (run_curl_total "curl http://127.0.0.1:9999/" (Some 200%Z) s1)
    as (r2 & s2 & E2 & (? & P2 & ? & ? & ? & ?) & ? & ?).
  erewrite !(bind_Ok _ _ _ _ _ E2).
  set (passed := r1 && r2).
  assert (Hprint : exists s3,
             (if passed
              then print "Both servers responding correctly" ;; ret true
              else print "One or both servers not responding" ;; ret false)
               s2 = Ok passed s3
             /\ procs s3 = procs s2).
  { destruct passed; eexists; split; reflexivity. }
  destruct Hprint as (s3 & E3 & P3).
  erewrite !(bind_Ok _ _ _ _ _ E3).
  erewrite bind_Ok by reflexivity.
  cbn [procs emit set_procs set_clock set_launches] in P1.
  set (pid := length (procs s)) in *.
  set (proc := send_term (clock s3)
                 (mkProc [binary_path self; path2] (clock s) b None None)).
  assert (Hproc : nth_error (update_nth pid (send_term (clock s3)) (procs s3))
                            pid = Some proc).
  { apply nth_error_update_nth. rewrite P3, P2, P1. apply nth_error_snoc. }
  assert (Hnever : exit_info proc = None)
    by (apply stubborn_never_exits; assumption).
  erewrite bind_Raise.
  2:{ unfold wait, proc_of. cbn [procs set_procs emit clock].
      fold pid. rewrite Hproc, Hnever. reflexivity. }
  eexists. split; [reflexivity|].
  unfold alive, proc_of. cbn [procs set_procs emit clock set_clock].
  fold pid. rewrite Hproc. unfold code_at. rewrite Hnever. reflexivity.
Qed.

(** [test_multiple_servers] on every path: its [except] and its [finally]. *)
Lemma test_multiple_servers_cases :
  forall self s,
    let path2 := next_temp s 0 ".conf" in
    (exists passed s',
        Basic.test_multiple_servers self s = Ok passed s'
        /\ files s' = without [path2] (files s)
        /\ server_process s' = server_process s
        /\ clock s <= clock s' <= clock s + 27
        /\ (sut (env s) (launches s) [binary_path self; path2] = None ->
            passed = false)
        /\ (alive s' (length (procs s)) = true -> passed = false))
    /\ (forall b,
           sut (env s) (launches s) [binary_path self; path2] = Some b ->
           self_exit b = None -> term_exit b = None ->
           exists s',
             Basic.test_multiple_servers self s = Ok false s'
             /\ alive s' (length (procs s)) = true).
Proof.
  intros self s path2. rewrite test_multiple_servers_shape.
  destruct (header_effect "Multiple Servers Test" s)
    as (s0 & E0 & (He0 & P0 & L0 & ?) & F0 & T0 & C0 & ?).
  destruct (mkstemp_effect ".conf" Basic.second_server_config s0)
    as (s1 & E1 & (He1 & P1 & L1 & ?) & F1 & T1 & C1 & ?).
  assert (Hpath : next_temp s0 0 ".conf" = path2).
  { unfold path2, next_temp. rewrite T0. reflexivity. }
  rewrite Hpath in *.
  split.
  - erewrite bind_Ok by exact E0. erewrite bind_Ok by exact E1.
    unfold try_finally, try_except.
    destruct (multiple_servers_try_outcome self path2 s1)
      as [(passed & s2 & E2 & (? & F2 & ? & ? & ?) & A2)
         | (e & s2 & E2 & (? & F2 & ? & ? & ?) & Hwhy)].
    + rewrite E2. cbv beta iota. erewrite bind_Ok by reflexivity.
      eexists. eexists. split; [reflexivity|].
      cbn [files server_process clock emit set_files].
      rewrite F2, F1, F0.
      rewrite <- (without_nil ((path2, _) :: files s)), without_unlink.
      rewrite without_created by apply mem_here.
      split; [reflexivity|]. split; [congruence|]. split; [lia|].
      split.
      * intros Hnone. exfalso.
        unfold multiple_servers_try in E2.
        erewrite bind_Raise in E2; [discriminate E2|].
        unfold popen. rewrite He1, He0, L1, L0, Hnone. reflexivity.
      * intros Halive. exfalso.
        rewrite P1, P0 in A2.
        unfold alive, proc_of in Halive.
        cbn [procs clock emit set_files] in Halive.
        unfold alive, proc_of in A2. rewrite A2 in Halive.
        discriminate Halive.
    + rewrite E2. cbv beta iota.
      change ((print "Error testing multiple servers" ;; ret false) s2)
        with (Ok false (emit (Print "Error testing multiple servers") s2)).
      cbv beta iota. erewrite bind_Ok by reflexivity.
      eexists. eexists. split; [reflexivity|].
      cbn [files server_process clock emit set_files].
      rewrite F2, F1, F0.
      rewrite <- (without_nil ((path2, _) :: files s)), without_unlink.
      rewrite without_created by apply mem_here.
      split; [reflexivity|]. split; [congruence|]. split; [lia|].
      split; reflexivity.
  - intros b Hsut Hself Hterm.
    erewrite bind_Ok by exact E0. erewrite bind_Ok by exact E1.
    unfold try_finally, try_except.
    destruct (multiple_servers_try_stubborn self path2 s1 b)
      as (s2 & E2 & A2); [rewrite He1, He0, L1, L0; exact Hsut | | |];
      try assumption.
    rewrite E2. cbv beta iota.
    change ((print "Error testing multiple servers" ;; ret false) s2)
      with (Ok false (emit (Print "Error testing multiple servers") s2)).
    cbv beta iota. erewrite bind_Ok by reflexivity.
    eexists. split; [reflexivity|].
    rewrite P1, P0 in A2. exact A2.
Qed.

(** X5: [test_multiple_servers] always returns: a failed launch and a wait
    that times out are caught and reported as [False], and the fixture is
    removed on every path.  The test is [True] only when the second server
    has exited by the time it returns: one that is still running then,
    its wait having timed out, gives [False].  The second server is never
    killed: when it neither exits nor reacts to SIGTERM the test is
    [False] whatever the probes said, and the server is still running
    afterwards. *)
Theorem test_multiple_servers_always_returns :
  forall self s,
    let path2 := next_temp s 0 ".conf" in
    (exists passed s',
        Basic.test_multiple_servers self s = Ok passed s'
        /\ files s' = without [path2] (files s)
        /\ server_process s' = server_process s
        /\ clock s <= clock s' <= clock s + 27
        /\ (sut (env s) (launches s) [binary_path self; path2] = None ->
            passed = false)
        /\ (alive s' (length (procs s)) = true -> passed = false))
    /\ (forall b,
           sut (env s) (launches s) [binary_path self; path2] = Some b ->
           self_exit b = None -> term_exit b = None ->
           exists s',
             Basic.test_multiple_servers self s = Ok false s'
             /\ alive s' (length (procs s)) = true).
Proof. exact test_multiple_servers_cases. Qed.

(** X5 at work: a server that ignores SIGTERM is still running when the test
    has returned [False]. *)
Lemma test_multiple_servers_always_returns_witness :
  exists s',
    Basic.test_multiple_servers tester (boot world_stubborn) = Ok false s'
    /\ alive s' 0 = true.
Proof.
  exact (proj2 (test_multiple_servers_always_returns tester
                  (boot world_stubborn))
           stubborn eq_refl eq_refl eq_refl).
Defined.

Lemma bind_inv {A B} (m : M A) (k : A -> M B) s b s' :
  bind m k s = Ok b s' -> exists a s1, m s = Ok a s1 /\ k a s1 = Ok b s'.
Proof.
  unfold bind. destruct (m s) as [a s1|e s1|s1|s1]; try discriminate.
  intros H. exists a, s1. split; [reflexivity | exact H].
Qed.

(** [start_server] on a launch that works and on one that fails. *)
Lemma start_server_cases :
  forall self s,
    match sut (env s) (launches s) [binary_path self; config_path self] with
    | Some b =>
        exists s',
          Basic.start_server self s = Ok (negb (exited_within b 3)) s'
          /\ server_process s' = Some (length (procs s))
          /\ alive s' (length (procs s)) = negb (exited_within b 3)
          /\ clock s' = clock s + 3
          /\ launches s' = S (launches s)
    | None =>
        exists s',
          Basic.start_server self s = Raise OSError s'
          /\ server_process s' = server_process s
          /\ procs s' = procs s
    end.
Proof.
  intros self s. unfold Basic.start_server.
  destruct (sut (env s) (launches s) [binary_path self; config_path self])
    as [b|] eqn:Hsut.
  - erewrite bind_Ok by reflexivity.
    erewrite bind_Ok by (apply popen_Some; exact Hsut).
    erewrite bind_Ok by reflexivity. erewrite bind_Ok by reflexivity.
    cbn [procs emit].
    set (pid := length (procs s)).
    set (s3 := set_clock _ _).
    assert (Hproc : proc_of s3 pid
                    = Some (mkProc [binary_path self; config_path self]
                                   (clock s) b None None)).
    { unfold proc_of, s3, pid.
      cbn [procs set_clock emit set_server_process set_procs set_launches].
      apply nth_error_snoc. }
    assert (Hclock : clock s3 = clock s + 3) by reflexivity.
    erewrite bind_Ok by (apply poll_eq; exact Hproc).
    rewrite Hclock.
    pose proof (fresh_polled (argv := [binary_path self; config_path self])
                  (clock s) b 3) as Hpoll.
    destruct (code_at (clock s + 3) (mkProc _ (clock s) b None None))
      as [c|] eqn:Ec;
      rewrite <- Hpoll; cbn [negb];
      erewrite bind_Ok by reflexivity;
      (eexists; split; [reflexivity|]);
      (split; [reflexivity|]);
      (split; [|split; reflexivity]);
      unfold alive, proc_of;
      cbn [procs clock emit];
      fold (proc_of s3 pid); rewrite Hproc, Hclock, Ec; reflexivity.
  - eexists. split.
    { erewrite bind_Ok by reflexivity. apply bind_Raise.
      unfold popen. cbn [env launches emit]. rewrite Hsut. reflexivity. }
    split; reflexivity.
Qed.

(** X6: [start_server] launches, settles for 3 and reports whether the
    server is still running; the handle is set to the new process either
    way, also when it reports [False]. A launch that fails raises OSError
    and leaves the handle as it was. *)
Theorem start_server_outcome :
  forall self s,
    match sut (env s) (launches s) [binary_path self; config_path self] with
    | Some b =>
        exists s',
          Basic.start_server self s = Ok (negb (exited_within b 3)) s'
          /\ server_process s' = Some (length (procs s))
          /\ alive s' (length (procs s)) = negb (exited_within b 3)
          /\ clock s' = clock s + 3
          /\ launches s' = S (launches s)
    | None =>
        exists s',
          Basic.start_server self s = Raise OSError s'
          /\ server_process s' = server_process s
          /\ procs s' = procs s
    end.
Proof. exact start_server_cases. Qed.

Lemma for_each_print_frame {A} (l : list A) (line : A -> string) : forall s,
  exists s',
    for_each l (fun x => print (line x)) s = Ok tt s'
    /\ procs s' = procs s /\ clock s' = clock s
    /\ server_process s' = server_process s.
Proof.
  induction l as [|x l IH]; intros s.
  - exists s. repeat split.
  - cbn [for_each]. erewrite bind_Ok by reflexivity.
    destruct (IH (emit (Print (line x)) s)) as (s' & E & P & C & H).
    exists s'. split; [exact E|]. split; [exact P|]. split; [exact C | exact H].
Qed.

Lemma print_summary_frame test_results s :
  exists s',
    Basic.print_summary test_results s = Ok tt s'
    /\ procs s' = procs s /\ clock s' = clock s
    /\ server_process s' = server_process s.
Proof.
  unfold Basic.print_summary.
  do 3 (erewrite bind_Ok by reflexivity). cbv zeta.
  match goal with
  | |- context [bind (for_each ?l ?f) _ ?st] =>
      destruct (for_each_print_frame
                  l (fun r => fst r ++ " " ++ (if snd r then "PASS" else "FAIL"))
                  st) as (s1 & E1 & P1 & C1 & H1)
  end.
  erewrite bind_Ok by exact E1.
  erewrite bind_Ok by reflexivity.
  destruct (_ =? _); [|destruct (_ <=? _)];
    (eexists; split; [reflexivity|]);
    cbn [procs clock server_process emit];
    (split; [exact P1|]); (split; [exact C1 | exact H1]).
Qed.

Lemma instance_stopped_frame s s' :
  procs s' = procs s -> clock s' = clock s ->
  server_process s' = server_process s ->
  instance_stopped s -> instance_stopped s'.
Proof.
  unfold instance_stopped, alive, proc_of. intros -> -> ->. auto.
Qed.

Lemma start_server_inv self s started s' :
  Basic.start_server self s = Ok started s' ->
  started = false -> instance_stopped s'.
Proof.
  intros H Hf.
  pose proof (start_server_cases self s) as Hout.
  destruct (sut (env s) (launches s) [binary_path self; config_path self])
    as [b|].
  - destruct Hout as (s1 & E & Hsp & Hal & _).
    rewrite E in H. injection H as Hb <-. 
    unfold instance_stopped. rewrite Hsp, Hal, Hb, Hf. reflexivity.
  - destruct Hout as (s1 & E & _). rewrite E in H. discriminate H.
Qed.

Lemma stop_server_inv s u s' :
  Basic.stop_server s = Ok u s' -> instance_stopped s'.
Proof.
  intros H. destruct (stop_server_returns s) as (s1 & E & Hnone & _).
  rewrite E in H. injection H as _ <-.
  unfold instance_stopped. rewrite Hnone. exact I.
Qed.

(** X7: whenever [run_all_tests] returns, the tester holds no running
    server: the handle is cleared by [stop_server], or it still names a
    server that had already exited when [start_server] looked. *)
Theorem run_all_tests_leaves_no_instance :
  forall self s s',
    Basic.run_all_tests self s = Ok tt s' -> instance_stopped s'.
Proof.
  intros self s s' H. unfold Basic.run_all_tests in H.
  apply bind_inv in H. destruct H as (? & s1 & _ & H).
  apply bind_inv in H. destruct H as (? & s2 & _ & H).
  apply bind_inv in H. destruct H as (? & s3 & _ & H).
  apply bind_inv in H. destruct H as (started & s4 & Hstart & H).
  destruct started; cbn [negb] in H.
  - apply bind_inv in H. destruct H as (r1 & t1 & _ & H).
    apply bind_inv in H. destruct H as (r2 & t2 & _ & H).
    apply bind_inv in H. destruct H as (r3 & t3 & _ & H).
    apply bind_inv in H. destruct H as (r4 & t4 & _ & H).
    apply bind_inv in H. destruct H as (r5 & t5 & _ & H).
    apply bind_inv in H. destruct H as (r6 & t6 & _ & H).
    cbv zeta in H.
    apply bind_inv in H. destruct H as (? & t7 & _ & H).
    apply bind_inv in H. destruct H as (r7 & t8 & _ & H).
    apply bind_inv in H. destruct H as (restarted & t9 & Hrestart & H).
    apply bind_inv in H. destruct H as (results & t10 & Hbranch & H).
    destruct (print_summary_frame results t10) as (t11 & E & P & C & Hsp).
    rewrite E in H. injection H as <-.
    apply (instance_stopped_frame t10); try assumption.
    destruct restarted.
    + apply bind_inv in Hbranch. destruct Hbranch as (r8 & u1 & _ & Hbranch).
      apply bind_inv in Hbranch. destruct Hbranch as (? & u2 & Hstop & Hret).
      injection Hret as _ <-. exact (stop_server_inv _ _ _ Hstop).
    + injection Hbranch as _ <-.
      exact (start_server_inv _ _ _ _ Hrestart eq_refl).
  - injection H as <-.
    apply (instance_stopped_frame s4); try reflexivity.
    exact (start_server_inv _ _ _ _ Hstart eq_refl).
Qed.

(** X7 at work, on the full run against a conformant server. *)
Lemma run_all_tests_leaves_no_instance_witness :
  instance_stopped
    (state_of (Basic.run_all_tests tester (boot world_conformant))).
Proof.
  assert (Hval : value_of (Basic.run_all_tests tester (boot world_conformant))
                 = Some tt) by (vm_compute; reflexivity).
  destruct (Basic.run_all_tests tester (boot world_conformant))
    as [[] s'|e s'|s'|s'] eqn:E; try discriminate Hval.
  exact (run_all_tests_leaves_no_instance tester (boot world_conformant) s' E).
Defined.

(** X8: the script body of the general tester never lets an exception
    out: whatever [run_all_tests] raises ends in [stop_server], which
    returns with the handle cleared, and the script ends with status 0.
    Without the binary or without the configuration file it prints its
    error and usage lines and ends with status 1; nothing is launched. *)
Theorem basic_main_never_raises :
  forall argv0 self s,
    (forall e s', Basic.main argv0 self s <> Raise e s')
    /\ (forall e s1,
           Basic.run_all_tests self s = Raise e s1 ->
           existsb (fun f => (fst f =? binary_path self)%string) (files s) = true ->
           existsb (fun f => (fst f =? config_path self)%string) (files s) = true ->
           exists s',
             Basic.main argv0 self s = Ok 0%Z s' /\ server_process s' = None)
    /\ (existsb (fun f => (fst f =? binary_path self)%string) (files s)
          && existsb (fun f => (fst f =? config_path self)%string) (files s)
        = false ->
        exists line,
          Basic.main argv0 self s
          = Ok 1%Z (emit (Print (Basic.usage argv0)) (emit (Print line) s))).
Proof.
  intros argv0 self s. unfold Basic.main, path_exists, get.
  split; [|split].
  - intros e s'. unfold bind at 1.
    destruct (existsb _ (files s)); cbn [negb]; [|discriminate].
    unfold bind at 1. destruct (existsb _ (files s)); cbn [negb]; [|discriminate].
    unfold bind at 1. unfold try_except.
    destruct (Basic.run_all_tests self s) as [u s1|e1 s1|s1|s1]; try discriminate.
    erewrite bind_Ok by reflexivity.
    destruct (stop_server_returns (emit (Print "Unexpected error") s1))
      as (s2 & E & _).
    rewrite E. discriminate.
  - intros e s1 Hrun Hb Hc. unfold bind at 1. rewrite Hb. cbn [negb].
    unfold bind at 1. rewrite Hc. cbn [negb].
    unfold bind at 1. unfold try_except. rewrite Hrun.
    erewrite bind_Ok by reflexivity.
    destruct (stop_server_returns (emit (Print "Unexpected error") s1))
      as (s2 & E & Hnone & _).
    exists s2. rewrite E. split; [reflexivity | exact Hnone].
  - intros Hmiss. unfold bind at 1.
    destruct (existsb _ (files s)); cbn [negb andb] in *.
    + unfold bind at 1. rewrite Hmiss. cbn [negb]. eexists. reflexivity.
    + eexists. reflexivity.
Qed.

(** X8 at work: with no file on disk the script prints its two lines and
    ends with status 1. *)
Lemma basic_main_never_raises_witness :
  exists line,
    Basic.main "TesterBasic.py" tester (set_files [] 0 (boot world_conformant))
    = Ok 1%Z (emit (Print (Basic.usage "TesterBasic.py"))
                (emit (Print line) (set_files [] 0 (boot world_conformant)))).
Proof.
  exact (proj2 (proj2 (basic_main_never_raises "TesterBasic.py" tester
                         (set_files [] 0 (boot world_conformant))))
           eq_refl).
Defined.

(* ===================================================================== *)
(** ** The correction tester: the loop, the verdict and the sections *)
(* ===================================================================== *)

Section CorrectionRun.

Import Advanced.

Lemma run_sections_app l1 : forall l2 acc s,
  run_sections (l1 ++ l2)%list acc s
  = bind (run_sections l1 acc) (run_sections l2) s.
Proof.
  induction l1 as [|sec l1 IH]; intros l2 acc s.
  - reflexivity.
  - cbn [app]. rewrite run_sections_cons. unfold bind.
    change (run_sections (sec :: l1) acc s)
      with (bind (run_section sec acc) (run_sections l1) s).
    unfold bind. destruct (run_section sec acc s) as [acc1 s1| | |];
      try reflexivity.
    rewrite IH. reflexivity.
Qed.

Lemma flag_stays_up secs : forall results s results' mf' s',
  run_sections secs (results, true) s = Ok (results', mf') s' -> mf' = true.
Proof.
  induction secs as [|[name f] rest IH]; intros results s results' mf' s' H.
  - injection H as _ <- _. reflexivity.
  - rewrite run_sections_cons in H. apply bind_inv in H.
    destruct H as ([r1 m1] & s1 & E & H).
    rewrite run_section_eq in E.
    destruct (f s) as [v t|e t|t|t]; try discriminate.
    + injection E as <- <- <-.
      match type of H with
      | context [if ?c then true else true] => destruct c
      end; exact (IH _ _ _ _ _ H).
    + injection E as <- <- <-. exact (IH _ _ _ _ _ H).
Qed.

Lemma run_sections_never_raises secs : forall acc s e s',
  run_sections secs acc s <> Raise e s'.
Proof.
  induction secs as [|[name f] rest IH]; intros [results mf] s e s'.
  - discriminate.
  - rewrite run_sections_cons. unfold bind. rewrite run_section_eq.
    destruct (f s) as [v t|e1 t|t|t]; try discriminate; apply IH.
Qed.

(** The loop either completes or ends exactly where a section did not
    come back. *)
Lemma run_sections_outcome secs : forall acc s,
  (exists acc' s', run_sections secs acc s = Ok acc' s')
  \/ (exists before name f after acc1 s1 s',
         secs = (before ++ (name, f) :: after)%list
         /\ run_sections before acc s = Ok acc1 s1
         /\ ((f s1 = Hang s' /\ run_sections secs acc s = Hang s')
             \/ (f s1 = Killed s' /\ run_sections secs acc s = Killed s'))).
Proof.
  induction secs as [|[name f] rest IH]; intros [results mf] s.
  - left. eexists. eexists. reflexivity.
  - rewrite run_sections_cons.
    pose proof (run_section_eq name f results mf s) as Hturn.
    destruct (f s) as [v t|e1 t|t|t] eqn:Ef.
    + erewrite bind_Ok by exact Hturn.
      destruct (IH (dict_set name v results,
                    if Py.mem name MANDATORY && is_False v then true else mf)
                   t)
        as [Hok | (before & n & g & after & acc1 & s1 & s' & Hsecs & Hbefore
                   & Hend)].
      * left. exact Hok.
      * right. exists ((name, f) :: before), n, g, after, acc1, s1, s'.
        split; [rewrite Hsecs; reflexivity|]. split.
        -- rewrite run_sections_cons. erewrite bind_Ok by exact Hturn.
           exact Hbefore.
        -- exact Hend.
    + erewrite bind_Ok by exact Hturn.
      destruct (IH (dict_set name (Some false) results, mf)
                   (emit (Print ("Error in " ++ name)) t))
        as [Hok | (before & n & g & after & acc1 & s1 & s' & Hsecs & Hbefore
                   & Hend)].
      * left. exact Hok.
      * right. exists ((name, f) :: before), n, g, after, acc1, s1, s'.
        split; [rewrite Hsecs; reflexivity|]. split.
        -- rewrite run_sections_cons. erewrite bind_Ok by exact Hturn.
           exact Hbefore.
        -- exact Hend.
    + right. exists [], name, f, rest, (results, mf), s, t.
      split; [reflexivity|]. split; [reflexivity|]. left.
      split; [exact Ef|]. apply bind_Hang. exact Hturn.
    + right. exists [], name, f, rest, (results, mf), s, t.
      split; [reflexivity|]. split; [reflexivity|]. right.
      split; [exact Ef|]. apply bind_Killed. exact Hturn.
Qed.

(** X9: the section loop of [run_correction_tests] absorbs every
    exception: it never raises, whatever the sections do.  It either
    completes or ends exactly where a section did not come back: the
    sections before that one ran to their end, and no later section is
    run.  On completion the dict has one key per section, in the order of
    the list. *)
Theorem section_loop_absorbs_exceptions :
  forall secs,
    (forall acc s e s', run_sections secs acc s <> Raise e s')
    /\ (forall acc s,
           (exists acc' s', run_sections secs acc s = Ok acc' s')
           \/ (exists before name f after acc1 s1 s',
                  secs = (before ++ (name, f) :: after)%list
                  /\ run_sections before acc s = Ok acc1 s1
                  /\ ((f s1 = Hang s' /\ run_sections secs acc s = Hang s')
                      \/ (f s1 = Killed s'
                          /\ run_sections secs acc s = Killed s'))))
    /\ (forall s results mf s',
           run_sections secs ([], false) s = Ok (results, mf) s' ->
           NoDup (map fst secs) ->
           map fst results = map fst secs).
Proof.
  intros secs. split; [|split].
  - apply run_sections_never_raises.
  - apply run_sections_outcome.
  - intros s results mf s' H Hnd.
    rewrite (run_sections_keys _ _ _ _ _ _ _ H Hnd); [reflexivity|].
    intros k _. reflexivity.
Qed.

(** X9 at work, on the nine sections of the run against a server that
    ignores SIGTERM: the loop does not complete, so one of the nine
    sections did not come back. *)
Lemma section_loop_absorbs_exceptions_witness :
  exists name f s1 s',
    In (name, f) (test_sections tester)
    /\ (f s1 = Hang s' \/ f s1 = Killed s').
Proof.
  assert (Hval : value_of (run_sections (test_sections tester) ([], false)
                             (boot world_stubborn)) = None)
    by (vm_compute; reflexivity).
  destruct (proj1 (proj2 (section_loop_absorbs_exceptions
                            (test_sections tester)))
              ([], false) (boot world_stubborn))
    as [(acc' & s' & E) | (before & name & f & after & acc1 & s1 & s'
                           & Hsecs & _ & Hend)].
  - rewrite E in Hval. discriminate Hval.
  - exists name, f, s1, s'. split.
    + rewrite Hsecs. apply in_elt.
    + destruct Hend as [[Hf _] | [Hf _]]; [left | right]; exact Hf.
Defined.

(** X10: the gate on the return path. When a mandatory section returns
    [False], the flag is up at the end of the loop and the run ends on the
    mandatory-failure verdict, whatever the sections before and after it do. *)
Theorem mandatory_False_is_hard_fail :
  forall before name f after acc0 acc1 s s1 s2 results mf s3,
    In name MANDATORY ->
    run_sections before acc0 s = Ok acc1 s1 ->
    f s1 = Ok (Some false) s2 ->
    run_sections (before ++ (name, f) :: after)%list acc0 s
    = Ok (results, mf) s3 ->
    mf = true
    /\ reported_verdict (log (state_of (final_verdict results mf s3)))
       = Some HARD_FAIL.
Proof.
  intros before name f after acc0 [r1 m1] s s1 s2 results mf s3
    Hin Hbefore Hf Hrun.
  assert (Hmf : mf = true).
  { rewrite run_sections_app in Hrun.
    erewrite bind_Ok in Hrun by exact Hbefore.
    rewrite run_sections_cons in Hrun.
    erewrite bind_Ok in Hrun.
    2:{ apply returned_False_raises_flag; [|exact Hf].
        unfold Py.mem. apply existsb_exists. exists name.
        split; [exact Hin | apply String.eqb_refl]. }
    exact (flag_stays_up _ _ _ _ _ _ Hrun). }
  split; [exact Hmf|]. rewrite Hmf. apply raised_flag_is_hard_fail.
Qed.

(** X10 at work: a server whose trace shows no select, poll or epoll fails
    the I/O multiplexing section and with it the run. *)
Lemma mandatory_False_is_hard_fail_witness :
  exists results s3,
    run_sections [("I/O Multiplexing", test_io_multiplexing tester)]
                 ([], false) (boot world_blocking_io)
    = Ok (results, true) s3
    /\ reported_verdict (log (state_of (final_verdict results true s3)))
       = Some HARD_FAIL.
Proof.
  assert (Hf : value_of (test_io_multiplexing tester (boot world_blocking_io))
               = Some (Some false)) by (vm_compute; reflexivity).
  assert (Hr : value_of
                 (run_sections
                    [("I/O Multiplexing", test_io_multiplexing tester)]
                    ([], false) (boot world_blocking_io))
               <> None) by (vm_compute; discriminate).
  destruct (test_io_multiplexing tester (boot world_blocking_io))
    as [v s2|e s2|s2|s2] eqn:Ef; try discriminate Hf.
  cbn [value_of] in Hf. injection Hf as ->.
  destruct (run_sections [("I/O Multiplexing", test_io_multiplexing tester)]
              ([], false) (boot world_blocking_io))
    as [[results mf] s3|e s3|s3|s3] eqn:Er;
    try (exfalso; apply Hr; reflexivity).
  destruct (mandatory_False_is_hard_fail
              [] "I/O Multiplexing" (test_io_multiplexing tester) []
              ([], false) ([], false)
              (boot world_blocking_io) (boot world_blocking_io) s2
              results mf s3)
    as [Hmf Hv].
  - right. left. reflexivity.
  - reflexivity.
  - exact Ef.
  - exact Er.
  - exists results, s3. rewrite Hmf in Hv |- *.
    split; [reflexivity | exact Hv].
Defined.

Lemma all_passed_iff (results : Results) :
  passed_count results = total_count results
  <-> forall name, ~ In (name, Some false) results.
Proof.
  unfold passed_count, total_count.
  induction results as [|[k v] r IH].
  - split; [intros _ name [] | reflexivity].
  - pose proof (passed_le_total r) as Hle.
    unfold passed_count, total_count in Hle.
    destruct v as [[|]|]; cbn [filter snd is_True is_not_None length].
    + split.
      * intros H name [Hin|Hin]; [discriminate|].
        assert (Hr : length (filter (fun r => is_True (snd r)) r)
                     = length (filter (fun r => is_not_None (snd r)) r))
          by lia.
        exact (proj1 IH Hr name Hin).
      * intros H. f_equal. apply IH. intros name Hin.
        apply (H name). right. exact Hin.
    + split.
      * intros H. lia.
      * intros H. exfalso. apply (H k). left. reflexivity.
    + split.
      * intros H name [Hin|Hin]; [discriminate|].
        exact (proj1 IH H name Hin).
      * intros H. apply IH. intros name Hin.
        apply (H name). right. exact Hin.
Qed.

(** X11: with the nine sections of the run, one section recorded as [False]
    is enough to lose the EXCELLENT tier: when at least one section was not
    skipped, the tier is EXCELLENT exactly when no section in the dict is
    [False]. *)
Theorem excellent_iff_no_failure :
  forall self s results mf s1,
    run_sections (test_sections self) ([], false) s = Ok (results, mf) s1 ->
    0 < total_count results ->
    (tier (percentage (passed_count results) (total_count results)) = EXCELLENT
     <-> forall name, ~ In (name, Some false) results).
Proof.
  intros self s results mf s1 Hrun Hpos.
  assert (Hkeys : map fst results = map fst (test_sections self)).
  { apply (run_sections_keys _ _ _ _ _ _ _ Hrun (section_names_NoDup self)).
    intros k _. reflexivity. }
  assert (H9 : total_count results <= 9).
  { etransitivity; [apply total_le_length|].
    rewrite <- (length_map fst), Hkeys, section_names. simpl. lia. }
  pose proof (passed_le_total results) as Hle.
  rewrite <- all_passed_iff, tier_spec by exact Hpos.
  destruct (90 * total_count results <=? 100 * passed_count results) eqn:E90.
  - apply Nat.leb_le in E90. split; [intros _; lia | reflexivity].
  - apply Nat.leb_gt in E90. split.
    + destruct (70 * total_count results <=? 100 * passed_count results);
        discriminate.
    + intros Heq. rewrite Heq in E90. lia.
Qed.

(** X11 at work, on the run in which Bonus Features fails. *)
Lemma excellent_iff_no_failure_witness :
  let '(results, _, _) := sections_outcome tester bare_boot in
  tier (percentage (passed_count results) (total_count results)) = EXCELLENT
  <-> forall name, ~ In (name, Some false) results.
Proof.
  assert (Hval : value_of (run_sections (test_sections tester)
                                        ([], false) bare_boot)
                 = Some ([ ("Memory Leaks", None);
                           ("I/O Multiplexing", Some true);
                           ("Configuration", Some true);
                           ("Basic Checks", Some true); ("CGI", Some true);
                           ("Browser Compatibility", Some true);
                           ("Port Issues", Some true);
                           ("Stress Tests", None);
                           ("Bonus Features", Some false) ], false))
    by (vm_compute; reflexivity).
  unfold sections_outcome.
  destruct (run_sections (test_sections tester) ([], false) bare_boot)
    as [[results mf] s1|e s1|s1|s1] eqn:Hrun; try discriminate Hval.
  cbn [value_of] in Hval. injection Hval as Hres Hmf.
  apply (excellent_iff_no_failure tester bare_boot results mf s1 Hrun).
  rewrite Hres. cbn. lia.
Defined.

(** X12: without the binary [run_correction_tests] prints the failed
    compilation check and returns: no section runs, nothing is launched, no
    command is issued and no verdict is announced. *)
Theorem missing_binary_stops_the_run :
  forall self s,
    existsb (fun f => (fst f =? binary_path self)%string) (files s) = false ->
    exists s',
      run_correction_tests self s = Ok tt s'
      /\ log s' = ([ Print "Cannot continue without binary";
                    Print ("        Binary not found at " ++ binary_path self);
                    Print "  [FAIL] Binary exists";
                    Print (rule 60); Print "COMPILATION CHECK"; Print (rule 60);
                    Print (rule 60); Print "WEBSERV ADVANCED TESTS";
                    Print (rule 60) ] ++ log s)%list
      /\ launches s' = launches s
      /\ shell_calls s' = shell_calls s
      /\ reported_verdict (log s') = reported_verdict (log s).
Proof.
  intros self s Hmiss. unfold run_correction_tests.
  do 4 step.
  erewrite bind_Ok.
  2:{ unfold path_exists, get. cbn [files emit]. rewrite Hmiss. reflexivity. }
  cbn [negb]. cbv iota.
  eexists. split; [reflexivity|].
  split; [reflexivity|]. split; [reflexivity|]. split; [reflexivity|].
  reflexivity.
Qed.

(** X12 at work, with no file on disk. *)
Lemma missing_binary_stops_the_run_witness :
  exists s',
    run_correction_tests tester (set_files [] 0 (boot world_conformant))
    = Ok tt s'
    /\ launches s' = 0 /\ shell_calls s' = 0
    /\ reported_verdict (log s') = None.
Proof.
  destruct (missing_binary_stops_the_run
              tester (set_files [] 0 (boot world_conformant)) eq_refl)
    as (s' & E & _ & Hl & Hs & Hv).
  exists s'. split; [exact E|]. split; [exact Hl|]. split; [exact Hs | exact Hv].
Defined.

(** X13: without siege the stress section is skipped: it returns [None]
    after the one [which siege] command, launches nothing and leaves the
    tester's handle as it was. *)
Theorem stress_skipped_without_siege :
  forall self s d,
    sh_dur (shell (env s) (shell_calls s) "which siege") = Some d ->
    returncode (sh_out (shell (env s) (shell_calls s) "which siege")) <> 0%Z ->
    exists s',
      test_stress self s = Ok None s'
      /\ launches s' = launches s
      /\ procs s' = procs s
      /\ server_process s' = server_process s
      /\ shell_calls s' = S (shell_calls s)
      /\ clock s' = clock s + d.
Proof.
  intros self s d Hd Hrc. unfold test_stress.
  step.
  erewrite bind_Ok.
  2:{ unfold run_shell. cbn [env shell_calls emit]. rewrite Hd. reflexivity. }
  apply Z.eqb_neq in Hrc. rewrite Hrc. cbn [negb]. cbv iota.
  eexists. split; [reflexivity|].
  repeat split.
Qed.

(** X13 at work: the tools of the conformant world have no siege. *)
Lemma stress_skipped_without_siege_witness :
  exists s',
    test_stress tester (boot world_conformant) = Ok None s'
    /\ launches s' = 0
    /\ procs s' = []
    /\ server_process s' = None
    /\ shell_calls s' = 1
    /\ clock s' = 0.
Proof.
  apply (stress_skipped_without_siege tester (boot world_conformant) 0);
    [reflexivity | vm_compute; discriminate].
Defined.

(** X14: the I/O multiplexing check has three outcomes and no other: off
    Linux it is skipped without a command being issued; on Linux, once
    strace is back, it is [True] or [False] according to whether the trace
    mentions select, pselect, poll, ppoll or epoll; it never raises and
    never touches the process table. *)
Theorem io_multiplexing_check_outcomes :
  forall pid s,
    let r := shell (env s) (shell_calls s)
               ("timeout 2 strace -p " ++ Py.str_nat pid ++ " 2>&1") in
    let syscalls := stdout (sh_out r) ++ stderr (sh_out r) in
    (forall e s', io_multiplexing_check pid s <> Raise e s')
    /\ ((platform (env s) =? "linux")%string = false ->
        exists s',
          io_multiplexing_check pid s = Ok None s'
          /\ shell_calls s' = shell_calls s
          /\ procs s' = procs s /\ clock s' = clock s)
    /\ ((platform (env s) =? "linux")%string = true ->
        forall d, sh_dur r = Some d ->
        exists s',
          io_multiplexing_check pid s
          = Ok (Some (Py.contains "select(" syscalls
                      || Py.contains "pselect(" syscalls
                      || (Py.contains "poll(" syscalls
                          || Py.contains "ppoll(" syscalls)
                      || Py.contains "epoll_" syscalls)) s'
          /\ shell_calls s' = S (shell_calls s)
          /\ procs s' = procs s /\ clock s' = clock s + d).
Proof.
  intros pid s r syscalls.
  unfold io_multiplexing_check, try_except.
  erewrite bind_Ok by reflexivity.
  split; [|split].
  - intros e s'. destruct (platform (env s) =? "linux")%string.
    + cbv zeta. unfold bind at 1. unfold run_shell.
      destruct (sh_dur _) as [d|]; [|discriminate].
      match goal with
      | |- context [if orb ?a ?b then bind _ _ else _] => destruct (orb a b)
      end; discriminate.
    + discriminate.
  - intros Hp. rewrite Hp. eexists. split; [reflexivity|]. repeat split.
  - intros Hp d Hd. rewrite Hp. cbv zeta.
    erewrite bind_Ok.
    2:{ unfold run_shell. fold r. rewrite Hd. reflexivity. }
    fold r. fold syscalls.
    destruct (Py.contains "select(" syscalls || Py.contains "pselect(" syscalls
              || (Py.contains "poll(" syscalls || Py.contains "ppoll(" syscalls)
              || Py.contains "epoll_" syscalls);
      (eexists; split; [reflexivity|]); repeat split.
Qed.

(** X14 at work: the trace of the conformant server shows epoll_wait. *)
Lemma io_multiplexing_check_outcomes_witness :
  exists s',
    io_multiplexing_check 0 (boot world_conformant) = Ok (Some true) s'
    /\ shell_calls s' = 1
    /\ procs s' = [] /\ clock s' = 0.
Proof.
  exact (proj2 (proj2 (io_multiplexing_check_outcomes
                         0 (boot world_conformant)))
           eq_refl 0 eq_refl).
Defined.

Lemma verdict_after_final results mf s :
  reported_verdict (log (state_of (final_verdict results mf s)))
  = Some (if mf then HARD_FAIL
          else tier (percentage (passed_count results) (total_count results))).
Proof.
  rewrite final_verdict_eq. destruct mf; [reflexivity|].
  cbn [state_of log emit reported_verdict].
  change (("Score: " ++ ?x =? _)%string) with false.
  destruct (tier _); reflexivity.
Qed.

Lemma run_shell_unbounded_no_raise cmd s e s' :
  run_shell cmd None s <> Raise e s'.
Proof.
  unfold run_shell. destruct (sh_dur _); discriminate.
Qed.

Lemma advanced_print_summary_eq results : forall s,
  exists s', print_summary results s = Ok tt s'.
Proof.
  intros s. unfold print_summary. do 3 step.
  match goal with |- context [for_each results ?f ?st] => generalize st end.
  induction results as [|[name [[|]|]] r IH]; intros st; cbn [for_each].
  - eexists. reflexivity.
  - step. apply IH.
  - step. apply IH.
  - step. apply IH.
Qed.

Lemma run_correction_tests_outcome self s :
  match run_correction_tests self s with
  | Ok _ s' =>
      existsb (fun f => (fst f =? binary_path self)%string) (files s) = true ->
      exists v, reported_verdict (log s') = Some v
  | Raise _ _ => False
  | Hang _ => True
  | Killed _ => True
  end.
Proof.
  unfold run_correction_tests. do 4 step.
  erewrite bind_Ok by reflexivity.
  cbn [files emit].
  destruct (existsb _ (files s)); cbn [negb]; cbv iota.
  2:{ intros H. discriminate H. }
  step.
  erewrite bind_Ok by reflexivity.
  match goal with
  | |- context [bind (if ?c then ?a else ?b) ?k ?st] =>
      assert (Hmake : match (if c then a else b) st with
                      | Raise _ _ => False | _ => True end)
  end.
  { destruct (existsb _ _); [|exact I].
    unfold bind at 1. unfold run_shell at 1.
    destruct (sh_dur _); [|exact I].
    unfold bind at 1. unfold run_shell at 1.
    destruct (sh_dur _); exact I. }
  unfold bind at 1.
  match type of Hmake with
  | match ?m with _ => _ end => destruct m as [u s1|e s1|s1|s1]
  end; [|contradiction|exact I|exact I].
  clear Hmake. unfold bind at 1.
  destruct (run_sections (test_sections self) ([], false) s1)
    as [[results mf] s2|e s2|s2|s2] eqn:Hrun.
  - destruct (advanced_print_summary_eq results s2) as (s3 & E3).
    erewrite bind_Ok by exact E3.
    pose proof (verdict_after_final results mf s3) as Hv.
    destruct (final_verdict results mf s3) as [u' s4|e s4|s4|s4] eqn:Hf.
    + intros _. eexists. exact Hv.
    + rewrite final_verdict_eq in Hf. destruct mf; discriminate Hf.
    + exact I.
    + exact I.
  - exact (run_sections_never_raises _ _ _ _ _ Hrun).
  - exact I.
  - exact I.
Qed.

(** X15: the script body of the correction tester never lets an
    exception out. Without the binary it prints its error line, the usage
    line and the hint to compile; with the binary but without the
    configuration file, its error line and the usage line.  Either way it
    ends with status 1: nothing else is printed, nothing is launched, no
    command is issued and no verdict is announced. With both files, every
    run that comes back ends with status 0 and has announced a verdict. *)
Theorem advanced_main_outcomes :
  forall argv0 self s,
    (forall e s', main argv0 self s <> Raise e s')
    /\ (existsb (fun f => (fst f =? binary_path self)%string) (files s)
          && existsb (fun f => (fst f =? config_path self)%string) (files s)
        = false ->
        exists s',
          main argv0 self s = Ok 1%Z s'
          /\ launches s' = launches s /\ shell_calls s' = shell_calls s
          /\ reported_verdict (log s') = reported_verdict (log s)
          /\ log s'
             = if existsb (fun f => (fst f =? binary_path self)%string)
                         (files s)
               then Print ("Usage: " ++ argv0
                           ++ " [webserv_binary] [config_file]")
                    :: Print ("Error: Config file '" ++ config_path self
                              ++ "' not found")
                    :: log s
               else Print "Make sure to compile the project first with 'make'"
                    :: Print ("Usage: " ++ argv0
                              ++ " [webserv_binary] [config_file]")
                    :: Print ("Error: Binary '" ++ binary_path self
                              ++ "' not found")
                    :: log s)
    /\ (forall z s',
           existsb (fun f => (fst f =? binary_path self)%string) (files s)
           = true ->
           existsb (fun f => (fst f =? config_path self)%string) (files s)
           = true ->
           main argv0 self s = Ok z s' ->
           z = 0%Z /\ exists v, reported_verdict (log s') = Some v).
Proof.
  intros argv0 self s.
  pose proof (run_correction_tests_outcome self s) as Hrun.
  unfold main, path_exists, get.
  split; [|split].
  - intros e s'. unfold bind at 1.
    destruct (existsb _ (files s)); cbn [negb]; [|discriminate].
    unfold bind at 1. destruct (existsb _ (files s)); cbn [negb]; [|discriminate].
    unfold bind at 1. unfold try_except.
    destruct (run_correction_tests self s) as [u s1|e1 s1|s1|s1];
      [discriminate | contradiction | discriminate | discriminate].
  - intros Hmiss. unfold bind at 1.
    destruct (existsb _ (files s)); cbn [negb andb] in *.
    + unfold bind at 1. rewrite Hmiss. cbn [negb].
      eexists. split; [reflexivity|]. repeat split.
    + eexists. split; [reflexivity|]. repeat split.
  - intros z s' Hb Hc. unfold bind at 1. rewrite Hb. cbn [negb].
    unfold bind at 1. rewrite Hc. cbn [negb].
    unfold bind at 1. unfold try_except.
    destruct (run_correction_tests self s) as [u s1|e1 s1|s1|s1];
      [|contradiction|discriminate|discriminate].
    intros H. injection H as <- <-. split; [reflexivity|]. exact (Hrun Hb).
Qed.

(** X15 at work, on the full run against a conformant server. *)
Lemma advanced_main_outcomes_witness :
  exists v,
    reported_verdict
      (log (state_of (main "TesterAdvanced.py" tester
                        (boot world_conformant)))) = Some v.
Proof.
  assert (Hval : value_of (main "TesterAdvanced.py" tester
                             (boot world_conformant)) = Some 0%Z)
    by (vm_compute; reflexivity).
  destruct (main "TesterAdvanced.py" tester (boot world_conformant))
    as [z s'|e s'|s'|s'] eqn:E; try discriminate Hval.
  exact (proj2 (proj2 (proj2 (advanced_main_outcomes "TesterAdvanced.py"
                                tester (boot world_conformant)))
                  z s' eq_refl eq_refl E)).
Defined.

Lemma nth_error_update_nth_other {A} (f : A -> A) (l : list A) n m :
  n <> m -> nth_error (update_nth n f l) m = nth_error l m.
Proof.
  revert n m. induction l as [|y l IH]; intros [|n] [|m] H; simpl;
    try reflexivity; try congruence.
  apply IH. congruence.
Qed.

Lemma length_update_nth {A} (f : A -> A) (l : list A) n :
  length (update_nth n f l) = length l.
Proof.
  revert n. induction l as [|y l IH]; intros [|n]; simpl; try reflexivity.
  f_equal. apply IH.
Qed.

(** A process that has exited stays exited when SIGTERM is sent to any
    process and when time passes. *)
Lemma exited_stays_exited s s' pid q :
  procs s' = update_nth pid (send_term (clock s)) (procs s)
  \/ procs s' = procs s ->
  clock s <= clock s' ->
  alive s q = false -> alive s' q = false.
Proof.
  intros Hprocs Hclock. unfold alive, proc_of.
  destruct (nth_error (procs s) q) as [p|] eqn:Ep.
  - destruct (code_at (clock s) p) as [c|] eqn:Ec; [|discriminate].
    intros _.
    assert (Hq : nth_error (procs s') q = Some p).
    { destruct Hprocs as [-> | ->]; [|exact Ep].
      destruct (Nat.eq_dec pid q) as [->|Hne].
      - rewrite (nth_error_update_nth _ _ _ _ Ep).
        rewrite send_term_dead by congruence. reflexivity.
      - rewrite nth_error_update_nth_other by exact Hne. exact Ep. }
    rewrite Hq.
    destruct (code_at (clock s') p) eqn:Ec'; [reflexivity|].
    exfalso. apply (code_at_later (clock s) (clock s') p Hclock);
      congruence.
  - intros _.
    assert (Hq : nth_error (procs s') q = None).
    { destruct Hprocs as [-> | ->]; [|exact Ep].
      apply nth_error_None. rewrite length_update_nth.
      apply nth_error_None. exact Ep. }
    rewrite Hq. reflexivity.
Qed.

(** [p.terminate(); p.wait()]: when the wait comes back the process has
    exited, and nothing else has changed but the clock and the log. *)
Lemma terminate_wait_inv pid s c s' :
  (terminate pid ;; wait pid None) s = Ok c s' ->
  alive s' pid = false
  /\ (forall q, alive s q = false -> alive s' q = false)
  /\ length (procs s') = length (procs s)
  /\ clock s <= clock s'
  /\ files s' = files s /\ temps s' = temps s
  /\ server_process s' = server_process s
  /\ launches s' = launches s /\ env s' = env s
  /\ shell_calls s' = shell_calls s.
Proof.
  unfold bind, terminate, modify, wait.
  set (s1 := set_procs _ _).
  destruct (proc_of s1 pid) as [p|] eqn:Hp; [|discriminate].
  destruct (exit_info p) as [[t c']|] eqn:Hex; [|discriminate].
  intros H. injection H as _ <-.
  split.
  { unfold alive, proc_of. cbn [procs set_clock emit clock].
    fold (proc_of s1 pid). rewrite Hp. unfold code_at. rewrite Hex.
    match goal with
    | |- context [t <=? ?x] =>
        assert (E : (t <=? x) = true) by (apply Nat.leb_le; lia); rewrite E
    end.
    reflexivity. }
  split.
  { intros q. apply (exited_stays_exited s _ pid q).
    - left. reflexivity.
    - cbn [clock set_clock emit]. unfold s1. cbn [clock set_procs emit]. lia. }
  split.
  { cbn [procs set_clock emit]. unfold s1. cbn [procs set_procs].
    apply length_update_nth. }
  split.
  { cbn [clock set_clock emit]. unfold s1. cbn [clock set_procs emit]. lia. }
  repeat split.
Qed.

Lemma poll_inv pid s st s' :
  poll pid s = Ok st s' ->
  s' = s /\ (st <> None -> alive s pid = false).
Proof.
  unfold poll, get, alive. intros H. injection H as <- <-.
  split; [reflexivity|].
  destruct (proc_of s pid); [|congruence].
  destruct (code_at (clock s) p); congruence.
Qed.

Lemma popen_inv argv s p s' :
  popen argv s = Ok p s' ->
  p = length (procs s)
  /\ length (procs s') = S (length (procs s))
  /\ files s' = files s /\ temps s' = temps s
  /\ server_process s' = server_process s
  /\ launches s' = S (launches s)
  /\ clock s' = clock s.
Proof.
  unfold popen. destruct (sut _ _ _) as [b|]; [|discriminate].
  intros H. injection H as <- <-.
  cbn [procs files temps server_process launches clock emit set_procs
       set_launches].
  rewrite length_app. cbn [length]. repeat split. lia.
Qed.

Lemma second_bind_probe_inv self path1 path2 s server1 server2 passed s' :
  second_bind_probe self path1 path2 s = Ok (server1, server2, passed) s' ->
  server1 = length (procs s)
  /\ server2 = S (length (procs s))
  /\ length (procs s') = 2 + length (procs s)
  /\ files s' = files s /\ temps s' = temps s
  /\ server_process s' = server_process s
  /\ launches s' = 2 + launches s
  /\ clock s' = clock s + 4.
Proof.
  unfold second_bind_probe. intros H.
  apply bind_inv in H. destruct H as (p1 & s1 & Hpop1 & H).
  apply popen_inv in Hpop1.
  destruct Hpop1 as (-> & Hn1 & Hf1 & Ht1 & Hh1 & Hl1 & Hc1).
  erewrite bind_Ok in H by reflexivity.
  apply bind_inv in H. destruct H as (p2 & s2 & Hpop2 & H).
  apply popen_inv in Hpop2.
  destruct Hpop2 as (-> & Hn2 & Hf2 & Ht2 & Hh2 & Hl2 & Hc2).
  cbn [procs files temps server_process launches clock emit set_clock]
    in Hn2, Hf2, Ht2, Hh2, Hl2, Hc2, H.
  erewrite bind_Ok in H by reflexivity.
  apply bind_inv in H. destruct H as (st & s3 & Hpoll & H).
  apply poll_inv in Hpoll. destruct Hpoll as (-> & _).
  unfold print_test, when, bind, print, modify, ret in H.
  change (negb ("" =? "")%string) with false in H. cbv beta iota in H.
  injection H as <- <- _ <-.
  cbn [procs files temps server_process launches clock emit set_clock].
  repeat split; try congruence; lia.
Qed.

(** X16: whenever the port-conflict test returns, both instances it launched
    have exited and both fixtures are gone; the tester's handle is not
    involved. *)
Theorem prevent_same_port_twice_cleans_up :
  forall self s passed s',
    prevent_same_port_twice self s = Ok passed s' ->
    alive s' (length (procs s)) = false
    /\ alive s' (S (length (procs s))) = false
    /\ length (procs s') = 2 + length (procs s)
    /\ files s'
       = without [next_temp s 1 ".conf"; next_temp s 0 ".conf"] (files s)
    /\ launches s' = 2 + launches s
    /\ server_process s' = server_process s.
Proof.
  intros self s passed s' H. unfold prevent_same_port_twice in H.
  destruct (mkstemp_effect ".conf" (port_7777_config "test1") s)
    as (s1 & E1 & (He1 & Hp1 & Hl1 & Hh1) & Hf1 & Ht1 & Hc1 & _).
  erewrite bind_Ok in H by exact E1.
  destruct (mkstemp_effect ".conf" (port_7777_config "test2") s1)
    as (s2 & E2 & (He2 & Hp2 & Hl2 & Hh2) & Hf2 & Ht2 & Hc2 & _).
  erewrite bind_Ok in H by exact E2.
  apply bind_inv in H. destruct H as ([[server1 server2] t] & s3 & Hprobe & H).
  apply second_bind_probe_inv in Hprobe.
  destruct Hprobe as (-> & -> & Hn3 & Hf3 & Ht3 & Hh3 & Hl3 & Hc3).
  rewrite <- bind_assoc in H.
  apply bind_inv in H. destruct H as (c1 & s4 & Hstop1 & H).
  apply terminate_wait_inv in Hstop1.
  destruct Hstop1 as (Hd1 & Hkeep4 & Hn4 & Hc4 & Hf4 & Ht4 & Hh4 & Hl4 & _).
  apply bind_inv in H. destruct H as (st & s5 & Hpoll & H).
  apply poll_inv in Hpoll. destruct Hpoll as (-> & Hst).
  apply bind_inv in H. destruct H as (u & s6 & Hstop2 & H).
  assert (Hs6 : alive s6 (length (procs s2)) = false
                /\ alive s6 (S (length (procs s2))) = false
                /\ length (procs s6) = length (procs s4)
                /\ files s6 = files s4 /\ server_process s6 = server_process s4
                /\ launches s6 = launches s4).
  { destruct st as [c|].
    - assert (Hs : s6 = s4) by (unfold ret in Hstop2; congruence).
      subst s6.
      split; [exact Hd1|]. split; [apply Hst; discriminate|].
      repeat split.
    - rewrite <- bind_assoc in Hstop2.
      apply bind_inv in Hstop2. destruct Hstop2 as (c2 & s7 & Hstop2 & Hret).
      assert (Hs : s6 = s7) by (unfold ret in Hret; congruence).
      subst s7.
      apply terminate_wait_inv in Hstop2.
      destruct Hstop2 as (Hd2 & Hkeep & Hn & _ & Hf & _ & Hh & Hl & _).
      split; [apply Hkeep; exact Hd1|]. split; [exact Hd2|].
      repeat split; assumption. }
  destruct Hs6 as (Ha1 & Ha2 & Hn6 & Hf6 & Hh6 & Hl6).
  unfold bind, unlink, modify, ret in H.
  injection H as _ <-.
  rewrite <- Hp2, <- Hp1 in *.
  split; [exact Ha1|]. split; [exact Ha2|].
  cbn [procs files launches server_process set_files emit].
  split; [lia|]. split.
  { rewrite Hf6, Hf4, Hf3, Hf2, Hf1.
    assert (Hnext : next_temp s1 0 ".conf" = next_temp s 1 ".conf").
    { unfold next_temp. rewrite Ht1. reflexivity. }
    rewrite Hnext.
    rewrite <- (without_nil (files s)) at 1.
    cbn [filter fst]. rewrite !String.eqb_refl. cbn [negb].
    destruct (next_temp s 1 ".conf" =? next_temp s 0 ".conf")%string;
      cbn [negb filter fst];
      rewrite ?String.eqb_refl; cbn [negb];
      rewrite !without_unlink; reflexivity. }
  split; [lia | congruence].
Qed.

(** X16 at work: the first instance serves and is stopped, the second had
    exited by itself. *)
Lemma prevent_same_port_twice_cleans_up_witness :
  let s := boot world_port_taken in
  let s' := state_of (prevent_same_port_twice tester s) in
  alive s' (length (procs s)) = false
  /\ alive s' (S (length (procs s))) = false
  /\ length (procs s') = 2 + length (procs s)
  /\ files s'
     = without [next_temp s 1 ".conf"; next_temp s 0 ".conf"] (files s)
  /\ launches s' = 2 + launches s
  /\ server_process s' = server_process s.
Proof.
  cbv zeta.
  assert (Hval : value_of (prevent_same_port_twice tester
                             (boot world_port_taken))
                 = Some true) by (vm_compute; reflexivity).
  destruct (prevent_same_port_twice tester (boot world_port_taken))
    as [passed s'|e s'|s'|s'] eqn:E; try discriminate Hval.
  exact (prevent_same_port_twice_cleans_up
           tester (boot world_port_taken) passed s' E).
Defined.

(** X17: when the server is still running 2 after its launch on the
    duplicate-listen fixture, the port section ends there with
    TimeoutExpired: the server has been killed, but the fixture is still on
    disk and the second test is never run. *)
Theorem hung_duplicate_listen_leaves_fixture :
  forall self s b,
    sut (env s) (launches s) [binary_path self; next_temp s 0 ".conf"]
    = Some b ->
    exited_within b 2 = false ->
    exists s',
      test_port_issues self s = Raise TimeoutExpired s'
      /\ files s' = (next_temp s 0 ".conf", duplicate_listen_config) :: files s
      /\ alive s' (length (procs s)) = false
      /\ clock s' = clock s + 2
      /\ launches s' = S (launches s)
      /\ hd_error (log s')
         = Some (RunSut [binary_path self; next_temp s 0 ".conf"] (Some 2)).
Proof.
  intros self s b Hsut Hhung.
  unfold test_port_issues. step.
  assert (Hrun : forall s0,
             env s0 = env s -> launches s0 = launches s ->
             procs s0 = procs s -> clock s0 = clock s ->
             run_sut [binary_path self; next_temp s 0 ".conf"] 2 s0
             = Raise TimeoutExpired
                 (set_clock (clock s0 + 2)
                    (set_procs
                       (procs s0 ++
                        [send_kill (clock s0 + 2)
                           (mkProc [binary_path self;
                                    next_temp s 0 ".conf"]
                                   (clock s0) b None None)])%list
                       (set_launches (S (launches s0))
                          (emit (RunSut [binary_path self;
                                         next_temp s 0 ".conf"] (Some 2))
                             s0))))).
  { intros s0 He Hl Hp Hc. unfold run_sut. rewrite He, Hl, Hsut.
    unfold exited_within in Hhung.
    destruct (self_exit b) as [[d c]|]; [|reflexivity].
    rewrite Hhung. reflexivity. }
  eexists. split.
  { apply bind_Raise. unfold reject_duplicate_listen.
    erewrite bind_Ok by reflexivity.
    apply bind_Raise. apply Hrun; reflexivity. }
  cbn [files clock launches log emit set_clock set_procs set_launches
       set_files hd_error].
  split; [reflexivity|]. split.
  { unfold alive, proc_of.
    cbn [procs clock emit set_clock set_procs set_launches set_files].
    rewrite nth_error_snoc.
    destruct (killed_is_dead (clock s + 2)
                (mkProc [binary_path self; next_temp s 0 ".conf"]
                        (clock s) b None None))
      as (k & ->).
    reflexivity. }
  repeat split.
Qed.

(** X17 at work, against a server that never exits by itself. *)
Lemma hung_duplicate_listen_leaves_fixture_witness :
  exists s',
    test_port_issues tester (boot world_stubborn) = Raise TimeoutExpired s'
    /\ files s' = ("/tmp/tmp0.conf", duplicate_listen_config) :: site_files
    /\ alive s' 0 = false
    /\ clock s' = 2
    /\ launches s' = 1
    /\ hd_error (log s') = Some (RunSut ["./webserv"; "/tmp/tmp0.conf"] (Some 2)).
Proof.
  exact (hung_duplicate_listen_leaves_fixture
           tester (boot world_stubborn) stubborn eq_refl eq_refl).
Defined.

Lemma bind_Raise_inv {A B} (m : M A) (k : A -> M B) s e s' :
  bind m k s = Raise e s' ->
  m s = Raise e s' \/ exists a s1, m s = Ok a s1 /\ k a s1 = Raise e s'.
Proof.
  unfold bind. destruct (m s) as [a s1|e1 s1|s1|s1]; try discriminate.
  - intros H. right. exists a, s1. split; [reflexivity | exact H].
  - intros H. left. injection H as -> ->. reflexivity.
Qed.

Lemma quiet_ret {A} (a : A) : quiet (ret a).
Proof. intros s. split; reflexivity. Qed.

Lemma quiet_raise {A} (e : Exn) : quiet (@raise A e).
Proof. intros s. split; reflexivity. Qed.

Lemma quiet_get {A} (f : State -> A) : quiet (get f).
Proof. intros s. split; reflexivity. Qed.

Lemma quiet_print line : quiet (print line).
Proof. intros s. split; reflexivity. Qed.

Lemma quiet_sleep n : quiet (sleep n).
Proof. intros s. split; reflexivity. Qed.

Lemma quiet_chmod path : quiet (chmod path).
Proof. intros s. split; reflexivity. Qed.

Lemma quiet_unlink path : quiet (unlink path).
Proof. intros s. split; reflexivity. Qed.

Lemma quiet_mkstemp suffix text : quiet (mkstemp suffix text).
Proof. intros s. split; reflexivity. Qed.

Lemma quiet_path_exists path : quiet (path_exists path).
Proof. intros s. split; reflexivity. Qed.

Lemma quiet_run_shell cmd timeout : quiet (run_shell cmd timeout).
Proof.
  intros s. unfold run_shell.
  destruct (sh_dur _) as [d|]; destruct timeout as [T|];
    try destruct (d <=? T); split; reflexivity.
Qed.

Lemma quiet_memory_rss pid : quiet (memory_rss pid).
Proof.
  intros s. unfold memory_rss. destruct (rss _ _ _); split; reflexivity.
Qed.

Lemma quiet_bind {A B} (m : M A) (k : A -> M B) :
  quiet m -> (forall a, quiet (k a)) -> quiet (bind m k).
Proof.
  intros Hm Hk s. specialize (Hm s). unfold bind.
  destruct (m s) as [a s1|e s1|s1|s1]; cbn [state_of] in *;
    [|exact Hm|exact Hm|exact Hm].
  destruct (Hk a s1) as [H1 H2]. destruct Hm as [H3 H4].
  split; congruence.
Qed.

Lemma quiet_try_except {A} (m : M A) (h : Exn -> M A) :
  quiet m -> (forall e, quiet (h e)) -> quiet (try_except m h).
Proof.
  intros Hm Hh s. specialize (Hm s). unfold try_except.
  destruct (m s) as [a s1|e s1|s1|s1]; cbn [state_of] in *;
    [exact Hm| |exact Hm|exact Hm].
  destruct (Hh e s1) as [H1 H2]. destruct Hm as [H3 H4].
  split; congruence.
Qed.

Lemma quiet_print_test name passed details :
  quiet (print_test name passed details).
Proof.
  unfold print_test, when. apply quiet_bind; [apply quiet_print|].
  intros _. destruct (negb _); [apply quiet_print | apply quiet_ret].
Qed.

Lemma quiet_map_m {A B} (l : list A) (body : A -> M B) :
  (forall x, quiet (body x)) -> quiet (map_m l body).
Proof.
  intros Hb. induction l as [|x l IH]; cbn [map_m].
  - apply quiet_ret.
  - apply quiet_bind; [apply Hb|]. intros y.
    apply quiet_bind; [exact IH|]. intros ys. apply quiet_ret.
Qed.

Ltac quiet_steps :=
  cbv beta zeta;
  repeat first
    [ apply quiet_ret | apply quiet_raise | apply quiet_get
    | apply quiet_print | apply quiet_print_test | apply quiet_sleep
    | apply quiet_run_shell | apply quiet_mkstemp | apply quiet_unlink
    | apply quiet_chmod | apply quiet_path_exists | apply quiet_memory_rss
    | apply quiet_map_m; intros ?; cbv beta zeta
    | apply quiet_try_except; [|intros ?; cbv beta zeta]
    | apply quiet_bind; [|intros ?; cbv beta zeta]
    | match goal with
      | |- quiet (match ?x with _ => _ end) => destruct x
      end ].

Lemma quiet_unknown_method_probe : quiet unknown_method_probe.
Proof. unfold unknown_method_probe. quiet_steps. Qed.

Lemma quiet_io_multiplexing_check pid : quiet (io_multiplexing_check pid).
Proof. unfold io_multiplexing_check. quiet_steps. Qed.

Lemma ends_stopped_last {A} p (v : A) :
  ends_stopped p (terminate p ;; wait p None ;; ret v).
Proof.
  intros s a s' H.
  apply bind_inv in H. destruct H as (u & s1 & Ht & H).
  apply bind_inv in H. destruct H as (c & s2 & Hw & H).
  assert (Hs : s' = s2) by (unfold ret in H; congruence). subst s'.
  assert (Htw : (terminate p ;; wait p None) s = Ok c s2).
  { erewrite bind_Ok by exact Ht. exact Hw. }
  apply terminate_wait_inv in Htw.
  destruct Htw as (Hd & _ & _ & _ & _ & _ & Hh & _).
  split; [exact Hh | exact Hd].
Qed.

Lemma ends_stopped_raise {A} p e : ends_stopped p (@raise A e).
Proof. intros s a s' H. discriminate H. Qed.

Lemma ends_stopped_bind {A B} p (m : M A) (k : A -> M B) :
  quiet m -> (forall a, ends_stopped p (k a)) -> ends_stopped p (bind m k).
Proof.
  intros Hm Hk s b s' H.
  apply bind_inv in H. destruct H as (a & s1 & Hms & H).
  destruct (Hk a s1 b s' H) as [H1 H2].
  destruct (Hm s) as [_ H3]. rewrite Hms in H3. cbn [state_of] in H3.
  split; [congruence | exact H2].
Qed.

Lemma ends_stopped_finally {A} p (m : M A) :
  quiet m ->
  ends_stopped p (try_finally m (terminate p ;; wait p None ;; ret tt)).
Proof.
  intros Hm s a s' H. unfold try_finally in H.
  destruct (Hm s) as [_ H3].
  destruct (m s) as [a1 s1|e s1|s1|s1]; cbn [state_of] in H3;
    [| |discriminate|discriminate].
  - apply bind_inv in H. destruct H as (u & s2 & Hstop & H).
    assert (Hs : s' = s2) by (unfold ret in H; congruence). subst s'.
    destruct (ends_stopped_last p tt s1 u s2 Hstop) as [H1 H2].
    split; [congruence | exact H2].
  - apply bind_inv in H. destruct H as (u & s2 & _ & H). discriminate H.
Qed.

Ltac stopped_steps :=
  cbv beta zeta;
  repeat first
    [ apply ends_stopped_last | apply ends_stopped_raise
    | apply ends_stopped_finally; quiet_steps
    | apply ends_stopped_bind;
      [first [ apply quiet_unknown_method_probe
             | apply quiet_io_multiplexing_check | quiet_steps ]
      | intros ?; cbv beta zeta]
    | match goal with
      | |- ends_stopped _ (match ?x with _ => _ end) => destruct x
      end ].

Lemma quiet_wait pid timeout : quiet (wait pid timeout).
Proof.
  intros s. unfold wait.
  destruct (match proc_of s pid with Some p => exit_info p | None => None end)
    as [[t c]|]; destruct timeout as [T|];
    try destruct (t <=? clock s + T); split; reflexivity.
Qed.

Lemma stops_launched_quiet {A B} k (m : M A) (rest : A -> M B) :
  quiet m -> (forall a, stops_launched k (rest a)) ->
  stops_launched k (bind m rest).
Proof.
  intros Hm Hrest s b s' H.
  apply bind_inv in H. destruct H as (a & s1 & Hms & H).
  destruct (Hm s) as [Hp _]. rewrite Hms in Hp. cbn [state_of] in Hp.
  rewrite <- Hp. exact (Hrest a s1 b s' H).
Qed.

Lemma stops_launched_terminate {A} k pid (rest : M A) :
  stops_launched k rest -> stops_launched k (terminate pid ;; rest).
Proof.
  intros Hrest s b s' H.
  erewrite bind_Ok in H by reflexivity.
  destruct (Hrest _ b s' H) as [H1 H2].
  cbn [procs set_procs emit] in H1, H2.
  rewrite length_update_nth in H1, H2. split; assumption.
Qed.

Lemma stops_launched_popen {A} k argv (rest : nat -> M A) :
  (forall p, stops_launched k (rest p)) ->
  stops_launched (S k) (bind (popen argv) rest).
Proof.
  intros Hrest s b s' H.
  apply bind_inv in H. destruct H as (p & s1 & Hpop & H).
  apply popen_inv in Hpop. destruct Hpop as (_ & Hn & _).
  destruct (Hrest p s1 b s' H) as [H1 H2].
  rewrite Hn, Nat.add_succ_r in H1, H2. split; assumption.
Qed.

Lemma stops_launched_launch {A} argv (rest : nat -> M A) :
  (forall p, ends_stopped p (rest p)) ->
  stops_launched 0 (p <- popen argv ;;
                    modify (set_server_process (Some p)) ;; rest p).
Proof.
  intros Hrest s a s' H.
  apply bind_inv in H. destruct H as (p & s1 & Hpop & H).
  apply popen_inv in Hpop. destruct Hpop as (-> & _).
  erewrite bind_Ok in H by reflexivity.
  destruct (Hrest _ _ a s' H) as [H1 H2].
  split; [exact H1 | exact H2].
Qed.

Ltac launched_steps :=
  repeat first
    [ apply stops_launched_launch; intros ?; stopped_steps
    | apply stops_launched_popen; intros ?; cbv beta zeta
    | apply stops_launched_terminate
    | apply stops_launched_quiet;
      [solve [apply quiet_wait | quiet_steps] | intros ?; cbv beta zeta] ].

Lemma stops_launched_io_multiplexing self :
  stops_launched 0 (test_io_multiplexing self).
Proof. unfold test_io_multiplexing. launched_steps. Qed.

Lemma stops_launched_configuration self :
  stops_launched 1 (test_configuration self).
Proof. unfold test_configuration. launched_steps. Qed.

Lemma stops_launched_basic_checks self :
  stops_launched 0 (test_basic_checks self).
Proof. unfold test_basic_checks. launched_steps. Qed.

Lemma stops_launched_cgi self : stops_launched 0 (test_cgi self).
Proof. unfold test_cgi. launched_steps. Qed.

Lemma stops_launched_browser self :
  stops_launched 0 (test_browser_compatibility self).
Proof. unfold test_browser_compatibility. launched_steps. Qed.

Lemma stops_launched_bonus self : stops_launched 0 (test_bonus self).
Proof. unfold test_bonus. launched_steps. Qed.

Lemma stops_launched_stress self s v s' :
  test_stress self s = Ok (Some v) s' ->
  server_process s' = Some (length (procs s))
  /\ alive s' (length (procs s)) = false.
Proof.
  unfold test_stress. intros H.
  erewrite bind_Ok in H by reflexivity.
  apply bind_inv in H. destruct H as (result & s2 & Hsh & H).
  assert (Hp2 : procs s2 = procs s).
  { destruct (quiet_run_shell "which siege" None
                (emit (Print (rule 60))
                   (emit (Print "STRESS TESTS")
                      (emit (Print (rule 60)) s)))) as [Hq _].
    rewrite Hsh in Hq. exact Hq. }
  destruct (negb (returncode result =? 0)%Z).
  - unfold bind, print, modify, ret in H. discriminate H.
  - match type of H with
    | ?m s2 = _ => assert (Hm : stops_launched 0 m) by launched_steps
    end.
    rewrite <- Hp2. exact (Hm _ _ _ H).
Qed.

(** X18: every section that launches the server under test and comes back
    has stopped it: the tester's handle names the process the section
    launched for its probes (the first new entry of the process table; in
    the configuration section, which first runs a server of its own on a
    fixture, the second), and that process has exited.  For the stress
    section this holds when it was not skipped. *)
Theorem sections_stop_their_server :
  forall self s s',
    (forall f r,
        In f [ test_io_multiplexing self; test_basic_checks self;
               test_cgi self; test_browser_compatibility self;
               test_bonus self ] ->
        f s = Ok r s' ->
        server_process s' = Some (length (procs s))
        /\ alive s' (length (procs s)) = false)
    /\ (forall r,
           test_configuration self s = Ok r s' ->
           server_process s' = Some (S (length (procs s)))
           /\ alive s' (S (length (procs s))) = false)
    /\ (forall v,
           test_stress self s = Ok (Some v) s' ->
           server_process s' = Some (length (procs s))
           /\ alive s' (length (procs s)) = false).
Proof.
  intros self s s'. split; [|split].
  - intros f r Hin H.
    destruct Hin as [<-|[<-|[<-|[<-|[<-|[]]]]]].
    + exact (stops_launched_io_multiplexing self s r s' H).
    + exact (stops_launched_basic_checks self s r s' H).
    + exact (stops_launched_cgi self s r s' H).
    + exact (stops_launched_browser self s r s' H).
    + exact (stops_launched_bonus self s r s' H).
  - intros r H. exact (stops_launched_configuration self s r s' H).
  - intros v H. exact (stops_launched_stress self s v s' H).
Qed.

(** X18 at work, on the bonus section against a conformant server: the
    process it launched, the first of the table, has exited. *)
Lemma sections_stop_their_server_witness :
  server_process (state_of (test_bonus tester (boot world_conformant)))
  = Some 0
  /\ alive (state_of (test_bonus tester (boot world_conformant))) 0 = false.
Proof.
  assert (Hval : value_of (test_bonus tester (boot world_conformant))
                 = Some (Some true)) by (vm_compute; reflexivity).
  destruct (test_bonus tester (boot world_conformant))
    as [r s'|e s'|s'|s'] eqn:E; try discriminate Hval.
  apply (proj1 (sections_stop_their_server tester (boot world_conformant) s')
           (test_bonus tester) r); [|exact E].
  do 4 right. left. reflexivity.
Defined.

Lemma raise_keeps_last {A} p (v : A) :
  raise_keeps (terminate p ;; wait p None ;; ret v).
Proof.
  intros s e s' H. exfalso. revert H.
  unfold bind, terminate, modify, wait, ret.
  match goal with
  | |- context [match ?x with Some _ => _ | None => _ end] =>
      destruct x as [[t c]|]
  end; discriminate.
Qed.

Lemma raise_keeps_raise {A} e : raise_keeps (@raise A e).
Proof. intros s e' s' H. injection H as _ <-. split; reflexivity. Qed.

Lemma raise_keeps_bind {A B} (m : M A) (k : A -> M B) :
  quiet m -> (forall a, raise_keeps (k a)) -> raise_keeps (bind m k).
Proof.
  intros Hm Hk s e s' H. destruct (Hm s) as [Hp Hh].
  apply bind_Raise_inv in H. destruct H as [H | (a & s1 & Hms & H)].
  - rewrite H in Hp, Hh. cbn [state_of] in Hp, Hh. split; assumption.
  - rewrite Hms in Hp, Hh. cbn [state_of] in Hp, Hh.
    destruct (Hk a s1 e s' H) as [H1 H2]. split; congruence.
Qed.

Ltac raise_steps :=
  cbv beta zeta;
  repeat first
    [ apply raise_keeps_last | apply raise_keeps_raise
    | apply raise_keeps_bind; [quiet_steps | intros ?; cbv beta zeta]
    | match goal with
      | |- raise_keeps (match ?x with _ => _ end) => destruct x
      end ].

(** X19: an exception inside the stress section skips the stop at its
    end.  When [test_stress] raises anything but the launch failure
    itself, the process it launched is in the table with no signal sent
    to it and the tester's handle names it: the server is still running,
    unless it has exited by itself in the meantime. *)
Theorem stress_exception_skips_the_stop :
  forall self s e s',
    test_stress self s = Raise e s' ->
    e <> OSError ->
    exists b t0,
      procs s'
      = (procs s
         ++ [mkProc [binary_path self; config_path self] t0 b None None])%list
      /\ server_process s' = Some (length (procs s))
      /\ alive s' (length (procs s))
         = match self_exit b with
           | Some (d, _) => negb (t0 + d <=? clock s')
           | None => true
           end.
Proof.
  unfold test_stress. intros self s e s' H Hne.
  erewrite bind_Ok in H by reflexivity.
  apply bind_Raise_inv in H. destruct H as [H | (result & s2 & Hsh & H)].
  { exfalso. exact (run_shell_unbounded_no_raise _ _ _ _ H). }
  assert (Hp2 : procs s2 = procs s).
  { destruct (quiet_run_shell "which siege" None
                (emit (Print (rule 60))
                   (emit (Print "STRESS TESTS")
                      (emit (Print (rule 60)) s)))) as [Hq _].
    rewrite Hsh in Hq. exact Hq. }
  destruct (negb (returncode result =? 0)%Z).
  { unfold bind, print, modify, ret in H. discriminate H. }
  apply bind_Raise_inv in H. destruct H as [H | (p & s3 & Hpop & H)].
  { exfalso. apply Hne. unfold popen in H.
    destruct (sut _ _ _); [discriminate H|]. injection H as <- _.
    reflexivity. }
  unfold popen in Hpop.
  destruct (sut (env s2) (launches s2) _) as [b|]; [|discriminate Hpop].
  injection Hpop as <- <-.
  erewrite bind_Ok in H by reflexivity.
  match type of H with
  | ?m ?st = _ => assert (Hm : raise_keeps m) by raise_steps
  end.
  destruct (Hm _ _ _ H) as [H1 H2].
  cbn [procs server_process set_server_process set_procs set_launches emit]
    in H1, H2.
  rewrite Hp2 in H1, H2.
  exists b, (clock s2).
  split; [exact H1|]. split; [exact H2|].
  unfold alive, proc_of. rewrite H1, nth_error_snoc, fresh_code_at.
  destruct (self_exit b) as [[d c]|]; [|reflexivity].
  destruct (clock s2 + d <=? clock s'); reflexivity.
Qed.

(** X19 at work: siege writes the availability with a decimal comma, the
    figure cannot be read, and the ValueError leaves the server
    running. *)
Lemma stress_exception_skips_the_stop_witness :
  let s' := state_of (test_stress tester (boot world_siege_decimal_comma)) in
  error_of (test_stress tester (boot world_siege_decimal_comma))
  = Some ValueError
  /\ alive s' 0 = true
  /\ exists b t0,
       procs s' = [mkProc ["./webserv"; "config/example.conf"] t0 b
                          None None]
       /\ server_process s' = Some 0
       /\ alive s' 0
          = match self_exit b with
            | Some (d, _) => negb (t0 + d <=? clock s')
            | None => true
            end.
Proof.
  cbv zeta.
  split; [vm_compute; reflexivity|].
  split; [vm_compute; reflexivity|].
  assert (Hval : error_of (test_stress tester
                             (boot world_siege_decimal_comma))
                 = Some ValueError) by (vm_compute; reflexivity).
  destruct (test_stress tester (boot world_siege_decimal_comma))
    as [r s'|e s'|s'|s'] eqn:E; try discriminate Hval.
  cbn [error_of] in Hval. injection Hval as ->.
  apply (stress_exception_skips_the_stop
           tester (boot world_siege_decimal_comma) ValueError s' E).
  discriminate.
Defined.

End CorrectionRun.

(* ===================================================================== *)
(** ** The general run as a whole *)
(* ===================================================================== *)

Lemma lower_app a b : Py.lower (a ++ b) = Py.lower a ++ Py.lower b.
Proof.
  induction a as [|c a IH]; cbn [Py.lower append]; [reflexivity|].
  rewrite IH. reflexivity.
Qed.

Lemma prefix_app sub rest : String.prefix sub (sub ++ rest) = true.
Proof.
  induction sub as [|c sub IH]; cbn [String.prefix append].
  - destruct rest; reflexivity.
  - destruct (ascii_dec c c) as [_|Hne]; [exact IH | contradiction].
Qed.

Lemma contains_eq sub s :
  Py.contains sub s
  = if String.prefix sub s then true
    else match s with
         | EmptyString => false
         | String _ s' => Py.contains sub s'
         end.
Proof. destruct s; reflexivity. Qed.

Lemma contains_app pre sub post :
  Py.contains sub (pre ++ sub ++ post) = true.
Proof.
  induction pre as [|c pre IH].
  - cbn [append]. rewrite contains_eq, prefix_app. reflexivity.
  - cbn [append]. rewrite contains_eq.
    destruct (String.prefix sub _); [reflexivity | exact IH].
Qed.

(** X20: the cookie test of the general tester passes on a Set-Cookie header
    in any letter case; it comes back as soon as curl does and leaves the
    processes and the files alone. *)
Theorem cookie_header_in_any_case :
  forall s d pre header post,
    let r := shell (env s) (shell_calls s)
               "curl -v http://127.0.0.1:8888/register 2>&1 | grep -i 'set-cookie'" in
    sh_dur r = Some d ->
    stdout (sh_out r) = pre ++ header ++ post ->
    Py.lower header = "set-cookie" ->
    exists s',
      Basic.test_cookies s = Ok true s'
      /\ same_world s s'
      /\ clock s' = clock s + d
      /\ shell_calls s' = S (shell_calls s).
Proof.
  intros s d pre header post r Hd Hout Hlow.
  unfold Basic.test_cookies. step.
  erewrite bind_Ok.
  2:{ unfold run_shell. cbn [env shell_calls emit]. fold r. rewrite Hd.
      reflexivity. }
  rewrite Hout, !lower_app, Hlow, contains_app.
  eexists. split; [reflexivity|].
  split; [|split; reflexivity].
  unfold same_world. repeat split.
Qed.

(** X20 at work, on the header the conformant server sends. *)
Lemma cookie_header_in_any_case_witness :
  exists s',
    Basic.test_cookies (boot world_conformant) = Ok true s'
    /\ same_world (boot world_conformant) s'
    /\ clock s' = 0
    /\ shell_calls s' = 1.
Proof.
  exact (cookie_header_in_any_case (boot world_conformant) 0
           "< " "Set-Cookie" ": id=1" eq_refl eq_refl eq_refl).
Defined.

Lemma test_cookies_no_raise s e s' : Basic.test_cookies s <> Raise e s'.
Proof.
  unfold Basic.test_cookies. step.
  unfold bind at 1. unfold run_shell.
  destruct (sh_dur _); [|discriminate].
  destruct (Py.contains _ _); discriminate.
Qed.

Lemma config_error_case_no_raise self c s e s' :
  Basic.config_error_case self c s <> Raise e s'.
Proof.
  destruct c as [config_path description].
  unfold Basic.config_error_case, try_finally, try_except,
    bind, run_sut, print, pkill, unlink, modify, ret, raise.
  cbn [env launches emit clock procs].
  destruct (sut (env s) (launches s) [binary_path self; config_path]) as [b|];
    [|discriminate].
  destruct (self_exit b) as [[d c]|].
  - destruct (d <=? 2).
    + destruct (c =? 0)%Z; cbn [negb]; cbv beta iota zeta;
        [|discriminate].
      destruct (pkill_hits_harness _ _); discriminate.
    + cbv beta iota zeta. destruct (pkill_hits_harness _ _); discriminate.
  - cbv beta iota zeta. destruct (pkill_hits_harness _ _); discriminate.
Qed.

Lemma count_passed_no_raise {A} (body : A -> M bool) :
  (forall x s e s', body x s <> Raise e s') ->
  forall l n s e s', count_passed l body n s <> Raise e s'.
Proof.
  intros Hbody. induction l as [|x l IH]; intros n s e s'; cbn [count_passed].
  - discriminate.
  - intros H. apply bind_Raise_inv in H.
    destruct H as [H | (b & s1 & _ & H)].
    + exact (Hbody _ _ _ _ H).
    + exact (IH _ _ _ _ H).
Qed.

Lemma test_config_errors_no_raise self s e s' :
  Basic.test_config_errors self s <> Raise e s'.
Proof.
  unfold Basic.test_config_errors,
    Basic.create_config_with_duplicate_ports,
    Basic.create_config_with_duplicate_names,
    Basic.create_config_with_duplicate_locations.
  do 4 (erewrite bind_Ok by reflexivity). cbv zeta.
  intros H. apply bind_Raise_inv in H.
  destruct H as [H | (n & s1 & _ & H)].
  - exact (count_passed_no_raise _ (config_error_case_no_raise self)
             _ _ _ _ _ H).
  - unfold Basic.report_table, bind, print, modify, ret in H.
    discriminate H.
Qed.

Lemma start_server_raise_inv self s e s' :
  Basic.start_server self s = Raise e s' ->
  e = OSError
  /\ hd_error (log s') = Some (Popen [binary_path self; config_path self]).
Proof.
  intros H. pose proof (start_server_cases self s) as Hout.
  destruct (sut (env s) (launches s) [binary_path self; config_path self])
    as [b|] eqn:Hsut.
  - destruct Hout as (s1 & E & _). rewrite E in H. discriminate H.
  - unfold Basic.start_server in H.
    erewrite bind_Ok in H by reflexivity.
    erewrite bind_Raise in H.
    2:{ unfold popen. cbn [env launches emit]. rewrite Hsut. reflexivity. }
    injection H as <- <-. split; reflexivity.
Qed.

(** X21: the general run can only be cut short by an exception when a launch
    of the server itself fails: whatever [run_all_tests] raises is the
    OSError of a [Popen] on the binary and the configuration file, and
    nothing happens after that launch. *)
Theorem general_run_raises_only_on_launch :
  forall self s e s',
    Basic.run_all_tests self s = Raise e s' ->
    e = OSError
    /\ hd_error (log s') = Some (Popen [binary_path self; config_path self]).
Proof.
  intros self s e s' H. unfold Basic.run_all_tests in H.
  do 3 (erewrite bind_Ok in H by reflexivity).
  apply bind_Raise_inv in H. destruct H as [H | (started & s4 & _ & H)].
  { exact (start_server_raise_inv _ _ _ _ H). }
  destruct started; cbn [negb] in H; [|discriminate H].
  apply bind_Raise_inv in H. destruct H as [H | (r1 & t1 & _ & H)].
  { exfalso.
    destruct (table_section_total "Error Codes with CURL"
                Basic.error_code_tests "error code tests" s4)
      as (? & ? & ? & _ & _ & E & _).
    unfold Basic.test_error_codes in H. rewrite E in H. discriminate H. }
  apply bind_Raise_inv in H. destruct H as [H | (r2 & t2 & _ & H)].
  { exfalso. destruct (test_file_uploads_effect t1) as (? & ? & E & _).
    rewrite E in H. discriminate H. }
  apply bind_Raise_inv in H. destruct H as [H | (r3 & t3 & _ & H)].
  { exfalso.
    destruct (table_section_total "Permission Tests"
                Basic.permission_tests "permission tests" t2)
      as (? & ? & ? & _ & _ & E & _).
    unfold Basic.test_permission_errors in H. rewrite E in H.
    discriminate H. }
  apply bind_Raise_inv in H. destruct H as [H | (r4 & t4 & _ & H)].
  { exfalso.
    destruct (table_section_total "Autoindex Tests"
                Basic.autoindex_tests "autoindex tests" t3)
      as (? & ? & ? & _ & _ & E & _).
    unfold Basic.test_autoindex in H. rewrite E in H. discriminate H. }
  apply bind_Raise_inv in H. destruct H as [H | (r5 & t5 & _ & H)].
  { exfalso.
    destruct (table_section_total "CGI Tests" Basic.cgi_tests "CGI tests" t4)
      as (? & ? & ? & _ & _ & E & _).
    unfold Basic.test_cgi in H. rewrite E in H. discriminate H. }
  apply bind_Raise_inv in H. destruct H as [H | (r6 & t6 & _ & H)].
  { exfalso. exact (test_cookies_no_raise _ _ _ H). }
  cbv zeta in H.
  apply bind_Raise_inv in H. destruct H as [H | (u7 & t7 & _ & H)].
  { exfalso. destruct (stop_server_returns t6) as (? & E & _).
    rewrite E in H. discriminate H. }
  apply bind_Raise_inv in H. destruct H as [H | (r7 & t8 & _ & H)].
  { exfalso. exact (test_config_errors_no_raise _ _ _ _ H). }
  apply bind_Raise_inv in H. destruct H as [H | (restarted & t9 & _ & H)].
  { exact (start_server_raise_inv _ _ _ _ H). }
  exfalso.
  apply bind_Raise_inv in H. destruct H as [H | (results & t10 & _ & H)].
  - destruct restarted; [|discriminate H].
    apply bind_Raise_inv in H. destruct H as [H | (r8 & u1 & _ & H)].
    + destruct (proj1 (test_multiple_servers_cases self t9))
        as (? & ? & E & _).
      rewrite E in H. discriminate H.
    + apply bind_Raise_inv in H. destruct H as [H | (? & u2 & _ & H)].
      * destruct (stop_server_returns u1) as (? & E & _).
        rewrite E in H. discriminate H.
      * discriminate H.
  - destruct (print_summary_frame results t10) as (? & E & _).
    rewrite E in H. discriminate H.
Qed.

(** X21 at work: with a binary that cannot be executed the run ends at its
    first launch. *)
Lemma general_run_raises_only_on_launch_witness :
  hd_error (log (state_of (Basic.run_all_tests tester (boot world_noexec))))
  = Some (Popen ["./webserv"; "config/example.conf"]).
Proof.
  assert (Hval : error_of (Basic.run_all_tests tester (boot world_noexec))
                 = Some OSError) by (vm_compute; reflexivity).
  destruct (Basic.run_all_tests tester (boot world_noexec))
    as [u s'|e s'|s'|s'] eqn:E; try discriminate Hval.
  exact (proj2 (general_run_raises_only_on_launch
                  tester (boot world_noexec) e s' E)).
Defined.
